(** * String analyzer service: a shallow embedding of server.js

    The service keeps analysis records of strings in an in-memory object
    keyed by the SHA-256 digest of the string, and answers filter queries
    over them.  This file embeds [analyzeString], [filterData] and the
    route handlers of server.js and proves properties of them.

    Conventions of the embedding:
    - a JavaScript string is the list of its UTF-16 code units, each a [Z];
    - a JavaScript number is the mathematical integer it denotes.  This is
      exact for the safe integers, of magnitude below 2^53, which cover
      lengths and counts; what is proved about the numbers a request
      carries states that range (see [JS.safe]), outside of which the
      runtime rounds;
    - a JavaScript object used as a dictionary is a [gmap];
    - what the program takes from its runtime and does not define itself
      (the Unicode lower-casing of code units outside ASCII, the URI decoder,
      the global [crypto]) is a field of the class [Host]. *)

From Stdlib Require Import ZArith List String Ascii Bool Lia.
From stdpp Require Import base option list gmap strings.

Local Open Scope Z_scope.

(** A JavaScript string: its UTF-16 code units. *)
Abbreviation jsstring := (list Z).

(** The code units of an ASCII literal, to write JavaScript string
    constants such as ['single word'] in the embedding. *)
Definition js (s : string) : jsstring :=
  map (fun a => Z.of_N (N_of_ascii a)) (list_ascii_of_string s).

(** Built-ins of the JavaScript runtime that server.js calls and whose
    data is not part of the program. *)
Class Host := {
  (** [String.prototype.toLowerCase] on one code unit at or above 128: the
      code units the Unicode tables put in its place (one code unit may
      become several).  The mappings that look at the neighbours of a
      character, the final sigma and the surrogate pairs, give code units
      at or above 128 whatever the neighbours are, and the program only
      compares such code units for equality or strips them. *)
  unicodeLower : Z -> jsstring;
  (** [decodeURIComponent]: [None] when it throws a URIError. *)
  decodeURIComponent : jsstring -> option jsstring;
  (** The property [crypto] of the global object, where server.js looks the
      name up because it binds none: [None] when the global object has no
      such property, otherwise the names of its members. *)
  cryptoGlobal : option (list string);
  (** Lower-casing never produces one of the capitals A-Z. *)
  unicodeLower_not_capital :
    forall c d, 128 <= c -> In d (unicodeLower c) -> ~ (65 <= d <= 90)
}.

(** A host that leaves code units outside ASCII alone and decodes nothing;
    it agrees with every runtime on strings of ASCII code units without a
    percent sign, and serves to run the program on such strings.  Its global
    [crypto] is the Web Crypto object of Node.js 19 and later. *)
Definition asciiHost : Host.
Proof.
  refine {| unicodeLower := fun c => [c];
            decodeURIComponent := fun s => Some s;
            cryptoGlobal :=
              Some ["subtle"; "getRandomValues"; "randomUUID"]%string |}.
  intros c d Hc [<- | []]. lia.
Defined.

(** The same host started with the crypto module of Node.js installed as
    the global [crypto], as a preload script does with
    [globalThis.crypto = require('crypto')]: the one kind of runtime in
    which line 51 finds a [createHash]. *)
Definition cryptoHost : Host.
Proof.
  refine {| unicodeLower := fun c => [c];
            decodeURIComponent := fun s => Some s;
            cryptoGlobal :=
              Some ["createHash"; "createHmac"; "randomBytes"]%string |}.
  intros c d Hc [<- | []]. lia.
Defined.

(** A host that lower-cases the Kelvin sign U+212A to the letter k, as the
    Unicode tables do, and leaves the other code units outside ASCII
    alone. *)
Definition kelvinHost : Host.
Proof.
  refine {| unicodeLower := fun c => if c =? 0x212A then [107] else [c];
            decodeURIComponent := fun s => Some s;
            cryptoGlobal :=
              Some ["subtle"; "getRandomValues"; "randomUUID"]%string |}.
  intros c d Hc Hd. destruct (c =? 0x212A); destruct Hd as [<- | []]; lia.
Defined.

(** ** String built-ins *)

Module JS.

(** WhiteSpace and LineTerminator code units of ECMAScript: what [\s]
    matches, what [trim] removes and what [parseInt] skips. *)
Definition isWhiteSpace (c : Z) : bool :=
  (9 <=? c) && (c <=? 13) || (c =? 32) || (c =? 0xA0) || (c =? 0x1680)
  || (0x2000 <=? c) && (c <=? 0x200A) || (c =? 0x2028) || (c =? 0x2029)
  || (c =? 0x202F) || (c =? 0x205F) || (c =? 0x3000) || (c =? 0xFEFF).

(** The character class [[a-z0-9]]. *)
Definition isLowerAlnum (c : Z) : bool :=
  (97 <=? c) && (c <=? 122) || (48 <=? c) && (c <=? 57).

Definition isDecDigit (c : Z) : bool := (48 <=? c) && (c <=? 57).

Definition isHexDigit (c : Z) : bool :=
  isDecDigit c || (97 <=? c) && (c <=? 102) || (65 <=? c) && (c <=? 70).

(** Value of a digit in radix 10 or 16. *)
Definition digitValue (c : Z) : Z :=
  if isDecDigit c then c - 48
  else if (97 <=? c) && (c <=? 102) then c - 87
  else c - 55.

Section WithHost.
Context {host : Host}.

(** [toLowerCase] on one code unit: A-Z move to a-z, the rest of ASCII is
    unchanged, everything else is the host's table. *)
Definition lowerUnit (c : Z) : jsstring :=
  if (65 <=? c) && (c <=? 90) then [c + 32]
  else if c <? 128 then [c]
  else unicodeLower c.

Definition toLowerCase (s : jsstring) : jsstring := flat_map lowerUnit s.

End WithHost.

(** [trim]: drop white space at both ends. *)
Fixpoint trimStart (s : jsstring) : jsstring :=
  match s with
  | c :: rest => if isWhiteSpace c then trimStart rest else s
  | [] => []
  end.

Definition trim (s : jsstring) : jsstring :=
  rev (trimStart (rev (trimStart s))).

(** [charAt(0)]: the first code unit as a string, or the empty string. *)
Definition charAt0 (s : jsstring) : jsstring :=
  match s with c :: _ => [c] | [] => [] end.

(** [s.match(/[a-z0-9]/)] as a truth value: some code unit is in the class. *)
Definition matchLowerAlnum (s : jsstring) : bool := existsb isLowerAlnum s.

(** [s.replace(/[^a-z0-9]/g, '')]. *)
Definition stripNonAlnum (s : jsstring) : jsstring :=
  List.filter isLowerAlnum s.

(** [s.split('')], [a.reverse()] and [a.join('')]. *)
Definition splitChars (s : jsstring) : list jsstring := map (fun c => [c]) s.
Definition reverse {A} (a : list A) : list A := rev a.
Definition joinEmpty (a : list jsstring) : jsstring := concat a.

(** The callback of line 55, [word => word.length > 0]. *)
Definition nonEmpty (word : jsstring) : bool :=
  0 <? Z.of_nat (List.length word).

(** [s.split(/\s+/)].  [cur] holds, reversed, the code units of the piece
    being read and [inSep] tells that the scan is inside a match of [\s+].
    The first white space of a run closes the piece (also the empty piece
    before a leading run), the rest of the run is consumed by the same match
    (the quantifier is greedy); the end of the string closes the last piece,
    so the empty string splits into one empty piece. *)
Fixpoint splitWsFrom (inSep : bool) (cur : jsstring) (s : jsstring)
  : list jsstring :=
  match s with
  | [] => [rev cur]
  | c :: rest =>
      if isWhiteSpace c then
        if inSep then splitWsFrom true [] rest
        else rev cur :: splitWsFrom true [] rest
      else splitWsFrom false (c :: cur) rest
  end.

Definition splitWs (s : jsstring) : list jsstring := splitWsFrom false [] s.

(** Values a raw filter map can hold: what a query string or a JSON body
    gives (numbers are taken integral). *)
Inductive value :=
| VStr (s : jsstring)
| VNum (n : Z)
| VBool (b : bool)
| VNull.

(** [v === b] for a boolean constant [b]. *)
Definition strictEqBool (v : value) (b : bool) : bool :=
  match v with VBool b' => Bool.eqb b' b | _ => false end.

(** Decimal digits of a non-negative integer, most significant first. *)
Fixpoint decDigitsFuel (fuel : nat) (n : Z) (acc : jsstring) : jsstring :=
  match fuel with
  | O => acc
  | S f =>
      let acc' := (48 + n mod 10) :: acc in
      if n <? 10 then acc' else decDigitsFuel f (n / 10) acc'
  end.

Definition decDigits (n : Z) : jsstring :=
  decDigitsFuel (S (Z.to_nat (Z.log2 n))) n [].

(** [String(n)] for an integer [n] that is a safe integer (JavaScript
    prints all the digits of a number below 10^21 and switches to the
    exponent notation from there on, which this definition does not
    follow). *)
Definition numberToString (n : Z) : jsstring :=
  if n <? 0 then 45 :: decDigits (- n) else decDigits n.

(** [String(v)]. *)
Definition ToString (v : value) : jsstring :=
  match v with
  | VStr s => s
  | VNum n => numberToString n
  | VBool true => js "true"
  | VBool false => js "false"
  | VNull => js "null"
  end.

(** The longest prefix of [s] made of digits. *)
Fixpoint digitPrefix (isDigit : Z -> bool) (s : jsstring) : jsstring :=
  match s with
  | c :: rest => if isDigit c then c :: digitPrefix isDigit rest else []
  | [] => []
  end.

(** The integer that a list of digits denotes in radix [radix]. *)
Definition digitsValue (radix : Z) (ds : jsstring) : Z :=
  fold_left (fun acc d => acc * radix + digitValue d) ds 0.

(** [parseInt(v)] with no radix argument, after ECMAScript: the argument is
    converted to a string, leading white space is skipped, one sign is read,
    a prefix 0x or 0X selects radix 16, and the longest prefix of digits is
    the number; what follows it is ignored.  [None] stands for NaN.  The
    result is the mathematical integer that the digits denote; JavaScript
    returns the double nearest to it, which is that integer when it is a
    safe integer (see [safe] below). *)
Definition parseInt (v : value) : option Z :=
  let s := trimStart (ToString v) in
  let '(sign, s) :=
    match s with
    | c :: rest =>
        if c =? 45 then (-1, rest) else if c =? 43 then (1, rest) else (1, s)
    | [] => (1, s)
    end in
  let '(radix, isDigit, s) :=
    match s with
    | c0 :: c1 :: rest =>
        if (c0 =? 48) && ((c1 =? 120) || (c1 =? 88))
        then (16, isHexDigit, rest) else (10, isDecDigit, s)
    | _ => (10, isDecDigit, s)
    end in
  match digitPrefix isDigit s with
  | [] => None
  | ds => Some (sign * digitsValue radix ds)
  end.

(** The safe integers are the integers that a JavaScript number holds
    exactly, those of magnitude below 2^53. *)
Definition safeInteger (n : Z) : Prop := - 2 ^ 53 < n < 2 ^ 53.

(** A raw value is read exactly when the number [parseInt] reads from it, if
    any, is a safe integer. *)
Definition safe (raw : value) : Prop :=
  forall n, parseInt raw = Some n -> safeInteger n.

(** [s.includes(t)]: [t] occurs in [s] as a run of consecutive code units. *)
Fixpoint startsWith (t s : jsstring) : bool :=
  match t, s with
  | [], _ => true
  | a :: t', b :: s' => (a =? b) && startsWith t' s'
  | _ :: _, [] => false
  end.

Fixpoint includes (s t : jsstring) : bool :=
  startsWith t s || match s with [] => false | _ :: s' => includes s' t end.

End JS.

(** ** The digest: [crypto.createHash('sha256').update(value).digest('hex')]

    In the crypto module of Node.js, [update] encodes a string as UTF-8 and
    the digest is SHA-256 (FIPS 180-4) over those bytes, printed as 64
    lower-case hexadecimal digits.  Words are 32-bit integers in [Z] with the
    wrap-around written out. *)

Module Sha256.

Definition isHighSurrogate (c : Z) : bool := (0xD800 <=? c) && (c <=? 0xDBFF).
Definition isLowSurrogate (c : Z) : bool := (0xDC00 <=? c) && (c <=? 0xDFFF).

(** UTF-8 bytes of one code point. *)
Definition utf8CodePoint (p : Z) : list Z :=
  if p <? 0x80 then [p]
  else if p <? 0x800 then [0xC0 + p / 64; 0x80 + p mod 64]
  else if p <? 0x10000 then
    [0xE0 + p / 4096; 0x80 + (p / 64) mod 64; 0x80 + p mod 64]
  else
    [0xF0 + p / 262144; 0x80 + (p / 4096) mod 64;
     0x80 + (p / 64) mod 64; 0x80 + p mod 64].

(** UTF-8 bytes of a string: a surrogate pair is one code point, a
    surrogate without its partner is written as U+FFFD. *)
Fixpoint utf8 (s : jsstring) : list Z :=
  match s with
  | [] => []
  | c :: rest =>
      if isHighSurrogate c then
        match rest with
        | d :: rest' =>
            if isLowSurrogate d
            then utf8CodePoint (0x10000 + (c - 0xD800) * 1024 + (d - 0xDC00))
                   ++ utf8 rest'
            else utf8CodePoint 0xFFFD ++ utf8 rest
        | [] => utf8CodePoint 0xFFFD
        end
      else if isLowSurrogate c then utf8CodePoint 0xFFFD ++ utf8 rest
      else utf8CodePoint c ++ utf8 rest
  end.

Definition add32 (a b : Z) : Z := (a + b) mod 4294967296.
Definition rotr (n x : Z) : Z :=
  Z.lor (Z.shiftr x n) ((Z.shiftl x (32 - n)) mod 4294967296).
Definition shr (n x : Z) : Z := Z.shiftr x n.
Definition not32 (x : Z) : Z := Z.lxor x 0xFFFFFFFF.

Definition Ch (x y z : Z) : Z := Z.lxor (Z.land x y) (Z.land (not32 x) z).
Definition Maj (x y z : Z) : Z :=
  Z.lxor (Z.lxor (Z.land x y) (Z.land x z)) (Z.land y z).
Definition bigSigma0 (x : Z) : Z :=
  Z.lxor (Z.lxor (rotr 2 x) (rotr 13 x)) (rotr 22 x).
Definition bigSigma1 (x : Z) : Z :=
  Z.lxor (Z.lxor (rotr 6 x) (rotr 11 x)) (rotr 25 x).
Definition smallSigma0 (x : Z) : Z :=
  Z.lxor (Z.lxor (rotr 7 x) (rotr 18 x)) (shr 3 x).
Definition smallSigma1 (x : Z) : Z :=
  Z.lxor (Z.lxor (rotr 17 x) (rotr 19 x)) (shr 10 x).

(** The primes up to 311, the first 64: trial division by the primes up to
    17 decides primality below 361. *)
Definition isPrime (n : Z) : bool :=
  forallb (fun d => (n <=? d) || negb (n mod d =? 0)) [2; 3; 5; 7; 11; 13; 17].

Definition primes : list Z :=
  List.filter isPrime (map Z.of_nat (seq 2 310)).

(** The integer part of the cube root of [n], by bisection of an interval
    [lo, hi) that holds it. *)
Fixpoint cubeRootIn (fuel : nat) (lo hi n : Z) : Z :=
  match fuel with
  | O => lo
  | S f =>
      if hi - lo <=? 1 then lo
      else
        let mid := (lo + hi) / 2 in
        if mid * mid * mid <=? n then cubeRootIn f mid hi n
        else cubeRootIn f lo mid n
  end.

(** The first 32 bits of the fractional part of the cube root, and of the
    square root, of [p]. *)
Definition cubeRootBits (p : Z) : Z :=
  cubeRootIn 64 0 (2 ^ 36) (p * 2 ^ 96) mod 4294967296.
Definition squareRootBits (p : Z) : Z := Z.sqrt (p * 2 ^ 64) mod 4294967296.

(** The round constants: the cube-root bits of the first 64 primes. *)
Definition K : list Z := Eval vm_compute in map cubeRootBits primes.

(** Big-endian bytes of [x], [n] of them. *)
Fixpoint bytesBE (n : nat) (x : Z) : list Z :=
  match n with
  | O => []
  | S m => bytesBE m (x / 256) ++ [x mod 256]
  end.

(** Padding: the byte 0x80, zero bytes up to 56 modulo 64, and the bit
    length of the message on 8 bytes. *)
Definition pad (msg : list Z) : list Z :=
  let len := Z.of_nat (List.length msg) in
  let zeros := Z.to_nat ((55 - len) mod 64) in
  msg ++ [0x80] ++ repeat 0 zeros ++ bytesBE 8 (8 * len).

(** The big-endian 32-bit words of a list of bytes. *)
Fixpoint words (bs : list Z) : list Z :=
  match bs with
  | b0 :: b1 :: b2 :: b3 :: rest =>
      (((b0 * 256 + b1) * 256 + b2) * 256 + b3) :: words rest
  | _ => []
  end.

(** Blocks of 16 words. *)
Fixpoint blocks (n : nat) (ws : list Z) : list (list Z) :=
  match n with
  | O => []
  | S m => firstn 16 ws :: blocks m (skipn 16 ws)
  end.

(** The message schedule, most recent word first: [W t] is computed from
    the words 2, 7, 15 and 16 places before it. *)
Fixpoint schedule (n : nat) (w : list Z) : list Z :=
  match n with
  | O => w
  | S m =>
      let wt := add32 (add32 (smallSigma1 (nth 1 w 0)) (nth 6 w 0))
                      (add32 (smallSigma0 (nth 14 w 0)) (nth 15 w 0)) in
      schedule m (wt :: w)
  end.

Record regs := Regs { ra : Z; rb : Z; rc : Z; rd : Z;
                      re : Z; rf : Z; rg : Z; rh : Z }.

Definition round (r : regs) (kw : Z * Z) : regs :=
  let t1 := add32 (add32 (add32 (rh r) (bigSigma1 (re r)))
                         (add32 (Ch (re r) (rf r) (rg r)) (fst kw))) (snd kw) in
  let t2 := add32 (bigSigma0 (ra r)) (Maj (ra r) (rb r) (rc r)) in
  Regs (add32 t1 t2) (ra r) (rb r) (rc r)
       (add32 (rd r) t1) (re r) (rf r) (rg r).

Definition compress (h : regs) (block : list Z) : regs :=
  let w := rev (schedule 48 (rev block)) in
  let r := fold_left round (combine K w) h in
  Regs (add32 (ra h) (ra r)) (add32 (rb h) (rb r)) (add32 (rc h) (rc r))
       (add32 (rd h) (rd r)) (add32 (re h) (re r)) (add32 (rf h) (rf r))
       (add32 (rg h) (rg r)) (add32 (rh h) (rh r)).

(** The initial hash value: the square-root bits of the first 8 primes. *)
Definition initial : regs :=
  Eval vm_compute in
    match map squareRootBits (firstn 8 primes) with
    | [a; b; c; d; e; f; g; h] => Regs a b c d e f g h
    | _ => Regs 0 0 0 0 0 0 0 0
    end.

Definition digestWords (msg : list Z) : list Z :=
  let padded := pad msg in
  let r := fold_left compress
             (blocks (List.length padded / 64) (words padded)) initial in
  [ra r; rb r; rc r; rd r; re r; rf r; rg r; rh r].

(** One lower-case hexadecimal digit. *)
Definition hexDigit (d : Z) : Z := if d <? 10 then 48 + d else 87 + d.

(** The 8 hexadecimal digits of a 32-bit word. *)
Definition hexWord (x : Z) : jsstring :=
  flat_map (fun b => [hexDigit (b / 16); hexDigit (b mod 16)]) (bytesBE 4 x).

(** [createHash('sha256').update(s).digest('hex')]. *)
Definition sha256Hex (s : jsstring) : jsstring :=
  flat_map hexWord (digestWords (utf8 s)).

End Sha256.

(** ** analyzeString (server.js, lines 49-71) *)

Module Analyzer.

Record Properties := {
  length : Z;
  is_palindrome : bool;
  unique_characters : Z;
  word_count : Z;
  sha256_hash : jsstring;
  character_frequency_map : gmap jsstring Z
}.

(** The loop of lines 57-60: each character of the normalized value bumps
    its entry, [(m[char] || 0) + 1]. *)
Definition countCharacters (normalizedValue : jsstring) : gmap jsstring Z :=
  fold_left (fun m char => <[ [char] := default 0 (m !! [char]) + 1 ]> m)
            normalizedValue ∅.

(** [Object.keys(m)] (in an order of the embedding's own; only their number
    is used). *)
Definition objectKeys (m : gmap jsstring Z) : list jsstring :=
  (map_to_list m).*1.

Section WithHost.
Context {host : Host}.

Definition normalize (value : jsstring) : jsstring :=
  JS.stripNonAlnum (JS.toLowerCase value).

(** The record that the body of [analyzeString] builds once line 51 has
    the digest, that is when [crypto] evaluates to an object whose
    [createHash] is that of the crypto module of Node.js.  Whether the call
    gets there is decided by the scope, see [Scope.analyzeString]. *)
Definition analyzeStringBody (value : jsstring) : Properties :=
  let length := Z.of_nat (List.length value) in
  let sha256_hash := Sha256.sha256Hex value in
  let normalizedValue := normalize value in
  let reversedValue :=
    JS.joinEmpty (JS.reverse (JS.splitChars normalizedValue)) in
  let is_palindrome := bool_decide (normalizedValue = reversedValue) in
  let word_count :=
    Z.of_nat (List.length
      (List.filter JS.nonEmpty (JS.splitWs value))) in
  let character_frequency_map := countCharacters normalizedValue in
  let unique_characters :=
    Z.of_nat (List.length (objectKeys character_frequency_map)) in
  {| length := length;
     is_palindrome := is_palindrome;
     unique_characters := unique_characters;
     word_count := word_count;
     sha256_hash := sha256_hash;
     character_frequency_map := character_frequency_map |}.

End WithHost.

End Analyzer.

(** ** The scope of [analyzeString]

    [analyzeString] refers to [crypto] on line 51, and neither the function
    nor the module declares that name: server.js declares the names of
    [moduleBindings], its constants and functions after the parameters that
    the wrapper of a CommonJS module binds, and requires express, node-fetch
    and path only.  The reference is therefore looked up in the global object
    of the runtime, and the call goes on only if that object has a [crypto]
    with a member [createHash]. *)

Module Scope.

Definition moduleBindings : list string :=
  ["exports"; "require"; "module"; "__filename"; "__dirname";
   "express"; "fetch"; "path"; "app"; "PORT"; "LLM_DEBUG_MODE";
   "stringDatabase"; "apiKey"; "fetchWithBackoff"; "analyzeString";
   "filterData"]%string.

(** The members of the global [crypto] of Node.js, which is the Web Crypto
    object (a global from Node.js 19 on; before that a module has no such
    global). *)
Definition webCrypto : list string :=
  ["subtle"; "getRandomValues"; "randomUUID"]%string.

(** How a call ends: with a value, or with an exception. *)
Inductive Completion (A : Type) :=
| Normal (a : A)
| Throw (error : string).
Arguments Normal {A} a.
Arguments Throw {A} error.

(** The call [analyzeString(value)] as server.js makes it, in a runtime whose
    global object has no [crypto] ([None]) or has one with the members
    [globalCrypto].  A [createHash] found there is taken to be the one of the
    crypto module of Node.js. *)
Definition analyzeStringCall {host : Host}
  (globalCrypto : option (list string)) (value : jsstring)
  : Completion Analyzer.Properties :=
  if bool_decide ("crypto"%string ∈ moduleBindings)
  then Normal (Analyzer.analyzeStringBody value)
  else
    match globalCrypto with
    | None => Throw "ReferenceError: crypto is not defined"
    | Some members =>
        if bool_decide ("createHash"%string ∈ members)
        then Normal (Analyzer.analyzeStringBody value)
        else Throw "TypeError: crypto.createHash is not a function"
    end.

(** [analyzeString(value)] in the runtime [host]. *)
Definition analyzeString {host : Host} (value : jsstring)
  : Completion Analyzer.Properties :=
  analyzeStringCall cryptoGlobal value.

(** Whether the global [crypto] of the runtime has a [createHash]. *)
Definition providesCreateHash {host : Host} : bool :=
  match cryptoGlobal with
  | Some members => bool_decide ("createHash"%string ∈ members)
  | None => false
  end.

End Scope.

(** A stored analysis: the object built on lines 206-211. *)
Record AnalysisRecord := {
  id : jsstring;
  value : jsstring;
  properties : Analyzer.Properties;
  created_at : jsstring
}.

(** ** filterData (server.js, lines 74-186) *)

Module Filter.

(** [parsedFilters]: each of the five filters is set or undefined. *)
Record TypedFilters := {
  is_palindrome : option bool;
  min_length : option Z;
  max_length : option Z;
  word_count : option Z;
  contains_character : option jsstring
}.

Definition noFilters : TypedFilters :=
  {| is_palindrome := None; min_length := None; max_length := None;
     word_count := None; contains_character := None |}.

(** What [filterData] returns: the error object of line 140, or the object
    of line 185. *)
Inductive Result :=
| Invalid (status : Z) (message : string) (details : list string)
| Filtered (data : list AnalysisRecord) (parsedFilters : TypedFilters).

(** The two locals that the validation blocks update: [parsedFilters] and
    [errors]. *)
Definition State : Type := TypedFilters * list string.

(** The messages of lines 87, 94, 103, 112, 128 and 131. *)
Definition msgIsPalindrome : string := "is_palindrome must be true or false".
Definition msgMinLength : string := "min_length must be a non-negative integer".
Definition msgMaxLength : string := "max_length must be a non-negative integer".
Definition msgWordCount : string := "word_count must be a positive integer".
Definition msgNotSimplified : string :=
  "contains_character could not be simplified to a single character".
Definition msgNotSingle : string :=
  "contains_character must be a single character string".

Definition push (msg : string) (st : State) : State := (st.1, st.2 ++ [msg]).

Definition set_is_palindrome (b : bool) (st : State) : State :=
  ({| is_palindrome := Some b; min_length := min_length st.1;
      max_length := max_length st.1; word_count := word_count st.1;
      contains_character := contains_character st.1 |}, st.2).
Definition set_min_length (n : Z) (st : State) : State :=
  ({| is_palindrome := is_palindrome st.1; min_length := Some n;
      max_length := max_length st.1; word_count := word_count st.1;
      contains_character := contains_character st.1 |}, st.2).
Definition set_max_length (n : Z) (st : State) : State :=
  ({| is_palindrome := is_palindrome st.1; min_length := min_length st.1;
      max_length := Some n; word_count := word_count st.1;
      contains_character := contains_character st.1 |}, st.2).
Definition set_word_count (n : Z) (st : State) : State :=
  ({| is_palindrome := is_palindrome st.1; min_length := min_length st.1;
      max_length := max_length st.1; word_count := Some n;
      contains_character := contains_character st.1 |}, st.2).
Definition set_contains_character (c : jsstring) (st : State) : State :=
  ({| is_palindrome := is_palindrome st.1; min_length := min_length st.1;
      max_length := max_length st.1; word_count := word_count st.1;
      contains_character := Some c |}, st.2).

Section WithHost.
Context {host : Host}.

(** Lines 80-89. *)
Definition check_is_palindrome (filters : gmap string JS.value) (st : State)
  : State :=
  match filters !! "is_palindrome"%string with
  | None => st
  | Some raw =>
      let val := JS.toLowerCase (JS.ToString raw) in
      if bool_decide (val = js "true") || JS.strictEqBool raw true
      then set_is_palindrome true st
      else if bool_decide (val = js "false") || JS.strictEqBool raw false
      then set_is_palindrome false st
      else push msgIsPalindrome st
  end.

(** Lines 91-98. *)
Definition check_min_length (filters : gmap string JS.value) (st : State)
  : State :=
  match filters !! "min_length"%string with
  | None => st
  | Some raw =>
      match JS.parseInt raw with
      | None => push msgMinLength st
      | Some num =>
          if num <? 0 then push msgMinLength st
          else set_min_length num st
      end
  end.

(** Lines 100-107. *)
Definition check_max_length (filters : gmap string JS.value) (st : State)
  : State :=
  match filters !! "max_length"%string with
  | None => st
  | Some raw =>
      match JS.parseInt raw with
      | None => push msgMaxLength st
      | Some num =>
          if num <? 0 then push msgMaxLength st
          else set_max_length num st
      end
  end.

(** Lines 109-116. *)
Definition check_word_count (filters : gmap string JS.value) (st : State)
  : State :=
  match filters !! "word_count"%string with
  | None => st
  | Some raw =>
      match JS.parseInt raw with
      | None => push msgWordCount st
      | Some num =>
          if num <? 1 then push msgWordCount st
          else set_word_count num st
      end
  end.

(** Lines 118-136.  [char] is a string by construction, so the test on
    line 120 is the test on its length. *)
Definition check_contains_character (filters : gmap string JS.value)
  (st : State) : State :=
  match filters !! "contains_character"%string with
  | None => st
  | Some raw =>
      let char := JS.ToString raw in
      if negb (Z.of_nat (List.length char) =? 1) then
        if 1 <? Z.of_nat (List.length char) then
          let firstChar := JS.charAt0 (JS.trim (JS.toLowerCase char)) in
          if JS.matchLowerAlnum firstChar
          then set_contains_character firstChar st
          else push msgNotSimplified st
        else push msgNotSingle st
      else set_contains_character (JS.toLowerCase char) st
  end.

(** Lines 75-136: the five blocks in the order of the source. *)
Definition validate (filters : gmap string JS.value) : State :=
  check_contains_character filters
    (check_word_count filters
      (check_max_length filters
        (check_min_length filters
          (check_is_palindrome filters (noFilters, []))))).

End WithHost.

(** [m[char] !== undefined] on a frequency map. *)
Definition hasKey (m : gmap jsstring Z) (char : jsstring) : bool :=
  match m !! char with Some _ => true | None => false end.

(** Lines 146-183: one pass of [Array.prototype.filter] for each filter that
    is set, in the order of the source. *)
Definition applyFilters (parsedFilters : TypedFilters)
  (data : list AnalysisRecord) : list AnalysisRecord :=
  let filteredData := data in
  let filteredData :=
    match is_palindrome parsedFilters with
    | Some b =>
        List.filter
          (fun item => Bool.eqb (Analyzer.is_palindrome (properties item)) b)
          filteredData
    | None => filteredData
    end in
  let filteredData :=
    match min_length parsedFilters with
    | Some n =>
        List.filter (fun item => Analyzer.length (properties item) >=? n)
                    filteredData
    | None => filteredData
    end in
  let filteredData :=
    match max_length parsedFilters with
    | Some n =>
        List.filter (fun item => Analyzer.length (properties item) <=? n)
                    filteredData
    | None => filteredData
    end in
  let filteredData :=
    match word_count parsedFilters with
    | Some n =>
        List.filter (fun item => Analyzer.word_count (properties item) =? n)
                    filteredData
    | None => filteredData
    end in
  match contains_character parsedFilters with
  | Some char =>
      List.filter
        (fun item =>
           hasKey (Analyzer.character_frequency_map (properties item)) char)
        filteredData
  | None => filteredData
  end.

(** The keys that [filterData] reads. *)
Definition recognized : list string :=
  ["is_palindrome"; "min_length"; "max_length"; "word_count";
   "contains_character"]%string.

(** The part of a raw filter map under one key. *)
Definition only (key : string) (filters : gmap string JS.value)
  : gmap string JS.value :=
  match filters !! key with
  | Some raw => {[ key := raw ]}
  | None => ∅
  end.

Definition filterData {host : Host} (data : list AnalysisRecord)
  (filters : gmap string JS.value) : Result :=
  let '(parsedFilters, errors) := validate filters in
  if 0 <? Z.of_nat (List.length errors)
  then Invalid 400 "Invalid filter values in interpreted query" errors
  else Filtered (applyFilters parsedFilters data) parsedFilters.

End Filter.

(** ** The natural-language adapter (server.js, lines 242-323) *)

Module Adapter.

(** What the call to the language model comes back with, as far as the
    handler tells the cases apart: the request or the decoding of its body
    threw; the body has no candidate text; it has a text, which [JSON.parse]
    turned into an object or rejected. *)
Inductive Reply :=
| FetchFailed
| NoContent
| Text (parsed : option (gmap string JS.value)).

(** A computation that may call the language model: either a result, or a
    call with the user's query and what to do with the reply. *)
Inductive Prog (A : Type) :=
| Done (a : A)
| AskModel (userQuery : jsstring) (k : Reply -> Prog A).
Arguments Done {A} a.
Arguments AskModel {A} userQuery k.

Fixpoint bind {A B} (m : Prog A) (f : A -> Prog B) : Prog B :=
  match m with
  | Done a => f a
  | AskModel q k => AskModel q (fun r => bind (k r) f)
  end.

(** Run a computation against a language model. *)
Fixpoint run {A} (model : jsstring -> Reply) (m : Prog A) : A :=
  match m with
  | Done a => a
  | AskModel q k => run model (k (model q))
  end.

(** Number of calls to the language model in a run. *)
Fixpoint calls {A} (model : jsstring -> Reply) (m : Prog A) : nat :=
  match m with
  | Done _ => O
  | AskModel q k => S (calls model (k (model q)))
  end.

(** Line 11. *)
Definition LLM_DEBUG_MODE : bool := true.

(** How the interpretation can end without filters (lines 312, 316, 321). *)
Inductive Failure := Unparsable | Empty | ApiError.

(** Lines 242-323: the filters read off the query, [parsedFilters]. *)
Definition interpret (userQuery : jsstring)
  : Prog (Failure + gmap string JS.value) :=
  if LLM_DEBUG_MODE then
    if JS.includes userQuery (js "single word")
       && JS.includes userQuery (js "palindromic")
    then Done (inr (<[ "is_palindrome"%string := JS.VBool true ]>
                      {[ "word_count"%string := JS.VNum 1 ]}))
    else if JS.includes userQuery (js "two words")
    then Done (inr {[ "word_count"%string := JS.VNum 2 ]})
    else Done (inr ∅)
  else
    AskModel userQuery (fun reply =>
      match reply with
      | FetchFailed => Done (inl ApiError)
      | NoContent => Done (inl Empty)
      | Text None => Done (inl Unparsable)
      | Text (Some parsedFilters) => Done (inr parsedFilters)
      end).

End Adapter.

(** ** The store and the route handlers *)

Module Service.

(** Bodies of the responses.  [Uncaught] is the page by which Express
    answers, with status 500, a handler that threw [error]. *)
Inductive Body :=
| ErrorMessage (error : string)
| ConflictBody (error : string) (id : jsstring)
| RecordBody (r : AnalysisRecord)
| InheritedBody
| ListBody (data : list AnalysisRecord) (count : Z)
           (filters_applied : Filter.TypedFilters)
| ErrorDetails (error : string) (details : list string)
| ConflictingBody (error : string) (original : jsstring)
                  (parsed_filters : gmap string JS.value)
| InterpretedBody (data : list AnalysisRecord) (count : Z)
                  (original : jsstring) (parsed_filters : Filter.TypedFilters)
| EmptyBody
| Uncaught (error : string).

Record Response := { status : Z; body : Body }.

(** A word between double quotes, for the error messages that quote a
    field name. *)
Definition quoted (w : string) : string :=
  String (ascii_of_nat 34) w +:+ String (ascii_of_nat 34) EmptyString.

(** [Object.values(stringDatabase)] (in an order of the embedding's own). *)
Definition objectValues (db : gmap jsstring AnalysisRecord)
  : list AnalysisRecord := (map_to_list db).*2.

(** Property names every object inherits from [Object.prototype]: a lookup
    [stringDatabase[k]] finds them when [k] is not a key of the store. *)
Definition inheritedNames : list string :=
  ["constructor"; "hasOwnProperty"; "isPrototypeOf"; "propertyIsEnumerable";
   "toLocaleString"; "toString"; "valueOf"; "__proto__";
   "__defineGetter__"; "__defineSetter__"; "__lookupGetter__";
   "__lookupSetter__"]%string.

Section WithHost.
Context {host : Host}.

(** POST /strings, lines 190-214.  [value] is the field of the request body
    ([None] when it is undefined) and [now] the reading of the clock.  When
    the call on line 199 throws, the handler ends there and Express answers
    500.  When it returns, the key is a digest of 64 hexadecimal digits, so
    the lookup on line 202 finds a stored record or nothing. *)
Definition post_strings (db : gmap jsstring AnalysisRecord) (now : jsstring)
  (value : option JS.value) : Response * gmap jsstring AnalysisRecord :=
  match value with
  | None =>
      ({| status := 400;
          body := ErrorMessage ("Bad Request: Missing " +:+ quoted "value"
                                +:+ " field in request body") |}, db)
  | Some (JS.VStr value) =>
      match Scope.analyzeString value with
      | Scope.Throw error => ({| status := 500; body := Uncaught error |}, db)
      | Scope.Normal properties =>
          let id := Analyzer.sha256_hash properties in
          match db !! id with
          | Some _ =>
              ({| status := 409;
                  body := ConflictBody
                    "Conflict: String already exists in the system" id |},
               db)
          | None =>
              let result := {| id := id; value := value;
                               properties := properties;
                               created_at := now |} in
              ({| status := 201; body := RecordBody result |},
               <[ id := result ]> db)
          end
      end
  | Some _ =>
      ({| status := 422;
          body := ErrorMessage ("Unprocessable Entity: " +:+ quoted "value"
                                +:+ " field must be a string") |}, db)
  end.

(** GET /strings, lines 218-231. *)
Definition get_strings (db : gmap jsstring AnalysisRecord)
  (filters : gmap string JS.value) : Response * gmap jsstring AnalysisRecord :=
  match Filter.filterData (objectValues db) filters with
  | Filter.Invalid st message details =>
      ({| status := st; body := ErrorDetails message details |}, db)
  | Filter.Filtered data parsedFilters =>
      ({| status := 200;
          body := ListBody data (Z.of_nat (List.length data))
                           parsedFilters |}, db)
  end.

(** GET /strings/filter-by-natural-language, lines 235-354, for a request
    whose [query] parameter is absent ([None]) or one text.  A parameter that
    is repeated or written with brackets reaches the handler as an array or
    an object, which this definition does not cover. *)
Definition filter_by_natural_language (db : gmap jsstring AnalysisRecord)
  (userQuery : option jsstring)
  : Adapter.Prog (Response * gmap jsstring AnalysisRecord) :=
  match userQuery with
  | None | Some [] =>
      Adapter.Done
        ({| status := 400;
            body := ErrorMessage ("Bad Request: Missing " +:+ quoted "query"
              +:+ " parameter for natural language filtering.") |}, db)
  | Some userQuery =>
      Adapter.bind (Adapter.interpret userQuery) (fun r =>
        Adapter.Done
          match r with
          | inl Adapter.Unparsable =>
              ({| status := 400;
                  body := ErrorMessage
                    ("Unable to parse natural language query: "
                     +:+ "LLM returned unparsable content.") |}, db)
          | inl Adapter.Empty =>
              ({| status := 400;
                  body := ErrorMessage
                    ("Unable to parse natural language query: "
                     +:+ "LLM returned no content.") |}, db)
          | inl Adapter.ApiError =>
              ({| status := 500;
                  body := ErrorMessage
                    ("Internal Server Error: Failed to connect to or "
                     +:+ "process Gemini API response.") |}, db)
          | inr parsedFilters =>
              if (Z.of_nat (size parsedFilters) =? 0)
                 && JS.includes (JS.toLowerCase userQuery) (js "and")
                 && JS.includes (JS.toLowerCase userQuery) (js "word")
              then
                ({| status := 422;
                    body := ConflictingBody
                      ("Unprocessable Entity: Query parsed but resulted in "
                       +:+ "conflicting filters "
                       +:+ "(e.g., conflicting word counts).")
                      userQuery parsedFilters |}, db)
              else
                match Filter.filterData (objectValues db) parsedFilters with
                | Filter.Invalid _ _ details =>
                    ({| status := 400;
                        body := ErrorDetails
                          "Bad Request: Invalid filter values in interpreted query"
                          details |}, db)
                | Filter.Filtered data parsedFilters =>
                    ({| status := 200;
                        body := InterpretedBody data
                                  (Z.of_nat (List.length data))
                                  userQuery parsedFilters |}, db)
                end
          end)
  end.

(** DELETE /strings/:stringValue, lines 358-378.  A URIError thrown by the
    decoder on line 363, or what the call on line 366 throws, ends the
    handler before it touches the store, and Express answers 500. *)
Definition delete_strings (db : gmap jsstring AnalysisRecord)
  (rawStringValue : jsstring) : Response * gmap jsstring AnalysisRecord :=
  match decodeURIComponent rawStringValue with
  | None =>
      ({| status := 500; body := Uncaught "URIError: URI malformed" |}, db)
  | Some stringValue =>
      match Scope.analyzeString stringValue with
      | Scope.Throw error => ({| status := 500; body := Uncaught error |}, db)
      | Scope.Normal properties =>
          let idToDelete := Analyzer.sha256_hash properties in
          match db !! idToDelete with
          | None =>
              ({| status := 404;
                  body := ErrorMessage
                    "Not Found: String does not exist in the system" |},
               db)
          | Some _ =>
              ({| status := 204; body := EmptyBody |}, delete idToDelete db)
          end
      end
  end.

(** GET /strings/:id, lines 382-391. *)
Definition get_string (db : gmap jsstring AnalysisRecord)
  (requestedHash : jsstring) : Response * gmap jsstring AnalysisRecord :=
  match db !! requestedHash with
  | Some storedAnalysis =>
      ({| status := 200; body := RecordBody storedAnalysis |}, db)
  | None =>
      if existsb (fun name => bool_decide (js name = requestedHash))
                 inheritedNames
      then ({| status := 200; body := InheritedBody |}, db)
      else ({| status := 404;
               body := ErrorMessage
                 "Not Found: String analysis does not exist in the system." |},
            db)
  end.

(** The requests the service answers. *)
Inductive Request :=
| PostString (now : jsstring) (value : option JS.value)
| GetStrings (filters : gmap string JS.value)
| FilterByNaturalLanguage (userQuery : option jsstring)
                          (model : jsstring -> Adapter.Reply)
| DeleteString (rawStringValue : jsstring)
| GetString (requestedHash : jsstring).

Definition handle (db : gmap jsstring AnalysisRecord) (req : Request)
  : Response * gmap jsstring AnalysisRecord :=
  match req with
  | PostString now value => post_strings db now value
  | GetStrings filters => get_strings db filters
  | FilterByNaturalLanguage userQuery model =>
      Adapter.run model (filter_by_natural_language db userQuery)
  | DeleteString raw => delete_strings db raw
  | GetString requestedHash => get_string db requestedHash
  end.

(** The stores the service can be in: it starts empty (line 17) and changes
    only through its handlers. *)
Inductive reachable : gmap jsstring AnalysisRecord -> Prop :=
| reachable_start : reachable ∅
| reachable_handle db req : reachable db -> reachable (handle db req).2.

End WithHost.

End Service.

(** ** fetchWithBackoff (server.js, lines 21-46) *)

Module Backoff.

(** The response of [fetch], of which the function reads the status. *)
Record Response := { status : Z; payload : jsstring }.

(** How one call of [fetch] ends: with a response or with an exception. *)
Inductive Outcome :=
| Responded (response : Response)
| Failed (error : jsstring).

(** What the function does to the outside: the call of [fetch] of iteration
    [i], and the pause after it, which lasts [least] milliseconds,
    [Math.pow(2, i) * 1000], plus a random part below one second. *)
Inductive Event :=
| Fetch (i : Z)
| Pause (i : Z) (least : Z).

(** How the function ends: it returns a response, it returns nothing
    ([undefined], when the loop ends without a [return]), or it throws. *)
Inductive Result :=
| Return (response : option Response)
| Throw (error : jsstring).

(** The loop of lines 22-45 from iteration [i] on.  [fetch i] is the outcome
    of the call that iteration [i] makes.  Each turn makes [i] one larger, so
    [maxRetries - i] turns of fuel reach the end of the loop. *)
Fixpoint loop (fuel : nat) (fetch : Z -> Outcome) (maxRetries i : Z)
  : Result * list Event :=
  match fuel with
  | O => (Return None, [])
  | S fuel' =>
      if i <? maxRetries then
        match fetch i with
        | Responded response =>
            if status response =? 429 then
              if i <? maxRetries - 1 then
                let '(result, events) := loop fuel' fetch maxRetries (i + 1) in
                (result, Fetch i :: Pause i (2 ^ i * 1000) :: events)
              else (Return (Some response), [Fetch i])
            else (Return (Some response), [Fetch i])
        | Failed error =>
            if i <? maxRetries - 1 then
              let '(result, events) := loop fuel' fetch maxRetries (i + 1) in
              (result, Fetch i :: Pause i (2 ^ i * 1000) :: events)
            else (Throw error, [Fetch i])
        end
      else (Return None, [])
  end.

Definition fetchWithBackoff (fetch : Z -> Outcome) (maxRetries : Z)
  : Result * list Event :=
  loop (Z.to_nat maxRetries) fetch maxRetries 0.

(** An outcome after which the loop tries again when it may. *)
Definition retryable (o : Outcome) : bool :=
  match o with
  | Responded response => status response =? 429
  | Failed _ => true
  end.

(** The events of [n] calls of [fetch] from iteration [i] on, with a pause
    after each call but the last. *)
Fixpoint calls (n : nat) (i : Z) : list Event :=
  match n with
  | O => []
  | S O => [Fetch i]
  | S n' => Fetch i :: Pause i (2 ^ i * 1000) :: calls n' (i + 1)
  end.

(** The least total length of the pauses in a list of events. *)
Definition leastWait (events : list Event) : Z :=
  fold_right (fun e acc => match e with Pause _ least => least + acc
                                      | Fetch _ => acc end) 0 events.

End Backoff.

(** ** The reference definitions of the specification (section 4.1) *)

Module Spec.

(** "An ASCII letter or digit". *)
Definition isAsciiLetterOrDigit (c : Z) : bool :=
  (65 <=? c) && (c <=? 90) || (97 <=? c) && (c <=? 122)
  || (48 <=? c) && (c <=? 57).

(** Step 2: "lowercase, then strip every character that is not an ASCII
    letter or digit". *)
Definition normalized {host : Host} (value : jsstring) : jsstring :=
  List.filter isAsciiLetterOrDigit (JS.toLowerCase value).

(** Step 4: a maximal white-space-delimited non-empty token starts at the
    positions that hold a character other than white space and come first
    or right after white space; the word count is the number of them. *)
Definition isTokenStart (value : jsstring) (i : nat) : bool :=
  match value !! i with
  | Some c =>
      negb (JS.isWhiteSpace c)
      && match i with
         | O => true
         | S j => match value !! j with
                  | Some p => JS.isWhiteSpace p
                  | None => false
                  end
         end
  | None => false
  end.

Definition word_count (value : jsstring) : Z :=
  Z.of_nat (List.length
    (List.filter (isTokenStart value) (seq 0 (List.length value)))).

(** Step 5: the number of occurrences of a character. *)
Definition occurrences (c : Z) (s : jsstring) : Z :=
  Z.of_nat (List.length (List.filter (Z.eqb c) s)).

(** Step 5: the entry of the frequency map at key [k]: the count of the
    character when [k] is one character that occurs in [s], nothing
    otherwise. *)
Definition frequency (s : jsstring) (k : jsstring) : option Z :=
  match k with
  | [c] => if occurrences c s =? 0 then None else Some (occurrences c s)
  | _ => None
  end.

(** Step 6: the number of distinct characters. *)
Definition distinct (s : jsstring) : Z :=
  Z.of_nat (List.length (remove_dups s)).

(** Step 4 again, counted along the string: [afterSpace] tells that the
    position comes first or right after white space. *)
Fixpoint tokenStarts (afterSpace : bool) (s : jsstring) : nat :=
  match s with
  | [] => O
  | c :: rest =>
      if JS.isWhiteSpace c then tokenStarts true rest
      else ((if afterSpace then 1 else 0) + tokenStarts false rest)%nat
  end.

(** Section 4.3, [contains_character], in the words of the table: a single
    character is lower-cased; of a longer value "take the first character,
    lowercase it, and accept it only if it is ASCII alphanumeric; otherwise
    fail"; an empty value fails.  [None] is the failure. *)
Definition coerceCharacter {host : Host} (raw : jsstring) : option jsstring :=
  match raw with
  | [] => None
  | [c] => Some (JS.toLowerCase [c])
  | c :: _ :: _ =>
      let first := JS.toLowerCase [c] in
      if forallb isAsciiLetterOrDigit first && negb (bool_decide (first = []))
      then Some first else None
  end.

(** Section 4.3, the numeric filters: the integer that "an integer or
    numeric string" denotes, the string being an optional minus sign and
    decimal digits; [None] when the raw value is neither. *)
Definition denotedDigits (ds : jsstring) : option Z :=
  match ds with
  | [] => None
  | _ => if forallb JS.isDecDigit ds then Some (JS.digitsValue 10 ds) else None
  end.

Definition denotedInteger (raw : JS.value) : option Z :=
  match raw with
  | JS.VNum n => Some n
  | JS.VStr (45 :: ds) => Z.opp <$> denotedDigits ds
  | JS.VStr ds => denotedDigits ds
  | _ => None
  end.

(** Section 4.3, the numeric filters: coercion succeeds with [n] exactly
    when the raw value denotes the integer [n] and [n] is at least [bound]
    (0 for the lengths, 1 for the word count). *)
Definition coerceInteger (bound : Z) (raw : JS.value) : option Z :=
  match denotedInteger raw with
  | Some n => if bound <=? n then Some n else None
  | None => None
  end.

(** Section 4.4: a record satisfies the typed filters when it satisfies
    each predicate that is present. *)
Definition satisfies (typed : Filter.TypedFilters) (r : AnalysisRecord)
  : Prop :=
  (forall b, Filter.is_palindrome typed = Some b ->
     Analyzer.is_palindrome (properties r) = b)
  /\ (forall n, Filter.min_length typed = Some n ->
     Analyzer.length (properties r) >= n)
  /\ (forall n, Filter.max_length typed = Some n ->
     Analyzer.length (properties r) <= n)
  /\ (forall n, Filter.word_count typed = Some n ->
     Analyzer.word_count (properties r) = n)
  /\ (forall c, Filter.contains_character typed = Some c ->
     is_Some (Analyzer.character_frequency_map (properties r) !! c)).

(** The same as a test, to filter a sequence with. *)
Definition whenSet {A} (o : option A) (test : A -> bool) : bool :=
  match o with Some a => test a | None => true end.

Definition satisfiesb (typed : Filter.TypedFilters) (r : AnalysisRecord)
  : bool :=
  whenSet (Filter.is_palindrome typed)
    (fun b => Bool.eqb (Analyzer.is_palindrome (properties r)) b)
  && whenSet (Filter.min_length typed)
       (fun n => n <=? Analyzer.length (properties r))
  && whenSet (Filter.max_length typed)
       (fun n => Analyzer.length (properties r) <=? n)
  && whenSet (Filter.word_count typed)
       (fun n => Analyzer.word_count (properties r) =? n)
  && whenSet (Filter.contains_character typed)
       (fun c => bool_decide
          (is_Some (Analyzer.character_frequency_map (properties r) !! c))).

(** Section 3, the invariant of the store: a record is stored under its
    [id], the [id] is the digest of the [value], and the properties are
    those of the [value]. *)
Definition storeInvariant {host : Host} (db : gmap jsstring AnalysisRecord)
  : Prop :=
  forall key r, db !! key = Some r ->
    id r = key
    /\ id r = Sha256.sha256Hex (value r)
    /\ properties r = Analyzer.analyzeStringBody (value r).

(** Section 4.5: a text contains a phrase when the phrase is a run of
    consecutive characters of the text. *)
Definition contains (text phrase : jsstring) : Prop :=
  exists before after, text = before ++ phrase ++ after.

End Spec.

(** * Properties *)

(** ** String built-ins *)

Section StringFacts.
Context {host : Host}.

Lemma lowerUnit_not_capital c d :
  In d (JS.lowerUnit c) -> ~ (65 <= d <= 90).
Proof.
  unfold JS.lowerUnit.
  destruct ((65 <=? c) && (c <=? 90)) eqn:Hcap.
  - intros [<- | []]. lia.
  - destruct (c <? 128) eqn:Hascii.
    + intros [<- | []]. lia.
    + apply unicodeLower_not_capital. lia.
Qed.

Lemma toLowerCase_not_capital s d :
  In d (JS.toLowerCase s) -> ~ (65 <= d <= 90).
Proof.
  unfold JS.toLowerCase. rewrite in_flat_map.
  intros (c & _ & Hd). eauto using lowerUnit_not_capital.
Qed.

(** On a lower-cased string the class of the specification and the class
    of the regular expression keep the same characters. *)
Lemma normalize_spec value : Analyzer.normalize value = Spec.normalized value.
Proof.
  unfold Analyzer.normalize, Spec.normalized, JS.stripNonAlnum.
  apply filter_ext_in. intros d Hd.
  apply toLowerCase_not_capital in Hd.
  unfold JS.isLowerAlnum, Spec.isAsciiLetterOrDigit. lia.
Qed.

End StringFacts.

(** On ASCII text every host lower-cases alike, so what the program does
    with such a text can be computed in [asciiHost]. *)
Lemma toLowerCase_ascii (host1 host2 : Host) (s : jsstring) :
  Forall (fun c => c < 128) s ->
  JS.toLowerCase (host := host1) s = JS.toLowerCase (host := host2) s.
Proof.
  unfold JS.toLowerCase. induction 1 as [|c s Hc Hs IH]; [reflexivity|].
  cbn [flat_map]. rewrite IH. f_equal.
  unfold JS.lowerUnit. destruct ((65 <=? c) && (c <=? 90)); [reflexivity|].
  destruct (Z.ltb_spec c 128); [reflexivity | lia].
Qed.

(** Splitting into characters, reversing and joining is list reversal. *)
Lemma join_reverse_split (s : jsstring) :
  JS.joinEmpty (JS.reverse (JS.splitChars s)) = rev s.
Proof.
  unfold JS.joinEmpty, JS.reverse, JS.splitChars.
  rewrite <- map_rev. induction (rev s) as [|c l IH]; simpl; congruence.
Qed.

(** ** Counting words *)

Arguments JS.isWhiteSpace : simpl never.

Lemma nonEmpty_rev cur : JS.nonEmpty (rev cur) = JS.nonEmpty cur.
Proof. unfold JS.nonEmpty. now rewrite length_rev. Qed.

Lemma nonEmpty_cons c cur : JS.nonEmpty (c :: cur) = true.
Proof. unfold JS.nonEmpty. apply Z.ltb_lt. simpl List.length. lia. Qed.

(** The pieces that [split] produces and that are not empty: one for the
    piece being read, when it has characters, and one for each token that
    starts later. *)
Lemma splitWsFrom_count inSep cur s :
  (inSep = true -> cur = []) ->
  List.length (List.filter JS.nonEmpty (JS.splitWsFrom inSep cur s))
  = ((if JS.nonEmpty cur then 1 else 0)
     + Spec.tokenStarts (negb (JS.nonEmpty cur)) s)%nat.
Proof.
  revert inSep cur. induction s as [|c rest IH]; intros inSep cur Hinv.
  - simpl. rewrite nonEmpty_rev. destruct (JS.nonEmpty cur); simpl; lia.
  - simpl. destruct (JS.isWhiteSpace c) eqn:Hws.
    + destruct inSep.
      * rewrite Hinv by reflexivity. rewrite IH by reflexivity. reflexivity.
      * simpl. rewrite nonEmpty_rev.
        destruct (JS.nonEmpty cur); simpl; rewrite IH by reflexivity;
          reflexivity.
    + rewrite IH by discriminate. rewrite nonEmpty_cons.
      simpl. destruct (JS.nonEmpty cur); simpl; lia.
Qed.

Lemma filter_isTokenStart_shift p c rest start len :
  List.filter (Spec.isTokenStart (p :: c :: rest)) (seq (S (S start)) len)
  = map S (List.filter (Spec.isTokenStart (c :: rest)) (seq (S start) len)).
Proof.
  revert start. induction len as [|len IH]; intros start; [reflexivity|].
  cbn [seq List.filter].
  change (Spec.isTokenStart (p :: c :: rest) (S (S start)))
    with (Spec.isTokenStart (c :: rest) (S start)).
  rewrite IH.
  destruct (Spec.isTokenStart (c :: rest) (S start)); reflexivity.
Qed.

(** Token starts at the positions after the first, read off the positions
    of the specification. *)
Lemma tokenStarts_positions p s :
  List.length (List.filter (Spec.isTokenStart (p :: s))
                           (seq 1 (List.length s)))
  = Spec.tokenStarts (JS.isWhiteSpace p) s.
Proof.
  revert p. induction s as [|c rest IH]; intros p; [reflexivity|].
  cbn [List.length seq List.filter].
  rewrite filter_isTokenStart_shift.
  change (Spec.isTokenStart (p :: c :: rest) 1)
    with (negb (JS.isWhiteSpace c) && JS.isWhiteSpace p).
  cbn [Spec.tokenStarts].
  assert (Hlen : forall b : bool,
    List.length ((if b then [1%nat] else []) ++
      map S (List.filter (Spec.isTokenStart (c :: rest))
                         (seq 1 (List.length rest))))
    = ((if b then 1 else 0) + Spec.tokenStarts (JS.isWhiteSpace c) rest)%nat).
  { intros b. rewrite length_app, length_map, IH. now destruct b. }
  destruct (JS.isWhiteSpace c) eqn:Hc, (JS.isWhiteSpace p) eqn:Hp;
    cbn [negb andb].
  - apply (Hlen false).
  - apply (Hlen false).
  - apply (Hlen true).
  - apply (Hlen false).
Qed.

Lemma word_count_tokenStarts s :
  Spec.word_count s = Z.of_nat (Spec.tokenStarts true s).
Proof.
  unfold Spec.word_count. f_equal.
  destruct s as [|c rest]; [reflexivity|].
  cbn [List.length seq List.filter].
  replace (Spec.isTokenStart (c :: rest) 0) with (negb (JS.isWhiteSpace c))
    by (unfold Spec.isTokenStart; simpl; now rewrite andb_true_r).
  cbn [Spec.tokenStarts].
  pose proof (tokenStarts_positions c rest) as Hpos.
  destruct (JS.isWhiteSpace c); cbn [negb List.length]; rewrite Hpos;
    reflexivity.
Qed.

(** ** The frequency map *)

Lemma occurrences_cons c a s :
  Spec.occurrences c (a :: s)
  = (if c =? a then 1 else 0) + Spec.occurrences c s.
Proof.
  unfold Spec.occurrences. cbn [List.filter].
  destruct (c =? a); cbn [List.length]; lia.
Qed.

Lemma occurrences_nonneg c s : 0 <= Spec.occurrences c s.
Proof. unfold Spec.occurrences. lia. Qed.

Lemma occurrences_zero (c : Z) (s : jsstring) :
  Spec.occurrences c s = 0 <-> c ∉ s.
Proof.
  induction s as [|a s IH].
  - split; [intros _; apply not_elem_of_nil | reflexivity].
  - rewrite occurrences_cons, not_elem_of_cons.
    pose proof (occurrences_nonneg c s).
    destruct (Z.eqb_spec c a); split; intros; try lia; tauto.
Qed.

(** The loop adds, to what the map held, the occurrences of each character
    and leaves the other keys alone. *)
Lemma countCharacters_fold (s : jsstring) (m : gmap jsstring Z) (k : jsstring) :
  fold_left (fun m char => <[ [char] := default 0 (m !! [char]) + 1 ]> m) s m
    !! k
  = match k with
    | [c] => if Spec.occurrences c s =? 0 then m !! k
             else Some (default 0 (m !! k) + Spec.occurrences c s)
    | _ => m !! k
    end.
Proof.
  revert m. induction s as [|a s IH]; intros m.
  - destruct k as [|c [|]]; reflexivity.
  - cbn [fold_left]. rewrite IH.
    destruct k as [|c [|c' k']].
    + now rewrite lookup_insert_ne.
    + rewrite occurrences_cons. pose proof (occurrences_nonneg c s).
      destruct (Z.eqb_spec c a) as [->|Hne].
      * rewrite lookup_insert_eq. cbn [default].
        destruct (Z.eqb_spec (Spec.occurrences a s) 0) as [Hz|Hz];
          destruct (Z.eqb_spec (1 + Spec.occurrences a s) 0);
          try lia; unfold Datatypes.id; apply (f_equal Some); lia.
      * rewrite lookup_insert_ne by congruence. reflexivity.
    + now rewrite lookup_insert_ne.
Qed.

Lemma countCharacters_lookup (s k : jsstring) :
  Analyzer.countCharacters s !! k = Spec.frequency s k.
Proof.
  unfold Analyzer.countCharacters. rewrite countCharacters_fold.
  unfold Spec.frequency. destruct k as [|c [|]]; try apply lookup_empty.
  rewrite !lookup_empty. cbn [default].
  destruct (Spec.occurrences c s =? 0); reflexivity.
Qed.

(** The keys are the characters of the string, each once. *)
Lemma countCharacters_dom (s : jsstring) :
  dom (Analyzer.countCharacters s)
  = list_to_set ((fun c => [c]) <$> remove_dups s).
Proof.
  apply set_eq. intros k.
  rewrite elem_of_dom, countCharacters_lookup, elem_of_list_to_set,
    list_elem_of_fmap.
  unfold Spec.frequency. split.
  - destruct k as [|c [|]]; try (intros [? ?]; discriminate).
    destruct (Z.eqb_spec (Spec.occurrences c s) 0) as [|Hocc];
      [intros [? ?]; discriminate|].
    intros _. exists c. split; [reflexivity|].
    apply elem_of_remove_dups.
    destruct (decide (c ∈ s)) as [|Hnot]; [assumption|].
    exfalso. apply Hocc. now apply occurrences_zero.
  - intros (c & -> & Hc). rewrite elem_of_remove_dups in Hc.
    destruct (Z.eqb_spec (Spec.occurrences c s) 0) as [Hocc|]; [|eauto].
    exact (False_ind _ (proj1 (occurrences_zero c s) Hocc Hc)).
Qed.

Lemma countCharacters_size (s : jsstring) :
  Z.of_nat (List.length (Analyzer.objectKeys (Analyzer.countCharacters s)))
  = Spec.distinct s.
Proof.
  unfold Analyzer.objectKeys, Spec.distinct.
  rewrite length_fmap, length_map_to_list.
  rewrite <- (size_dom (D := gset jsstring)), countCharacters_dom.
  rewrite size_list_to_set, length_fmap; [reflexivity|].
  apply NoDup_fmap_2; [|apply NoDup_remove_dups].
  intros c1 c2 Heq. congruence.
Qed.

(** ** The analysis against its reference definition *)

(** The record of the body against the reference definition: the
    palindrome test, the word count, the frequency map and the number of
    unique characters are those of section 4.1. *)
Lemma analyzeStringBody_reference {host : Host} (value : jsstring) :
  let p := Analyzer.analyzeStringBody value in
  let normalized := Spec.normalized value in
  (Analyzer.is_palindrome p = true <-> normalized = rev normalized)
  /\ Analyzer.word_count p = Spec.word_count value
  /\ (forall k : jsstring,
        Analyzer.character_frequency_map p !! k = Spec.frequency normalized k)
  /\ Analyzer.unique_characters p
     = Z.of_nat (size (Analyzer.character_frequency_map p))
  /\ Analyzer.unique_characters p = Spec.distinct normalized
  /\ Analyzer.length p = Z.of_nat (List.length value).
Proof.
  cbv zeta. unfold Analyzer.analyzeStringBody.
  cbn [Analyzer.is_palindrome Analyzer.word_count Analyzer.length
       Analyzer.character_frequency_map Analyzer.unique_characters].
  rewrite <- !normalize_spec, join_reverse_split.
  repeat split.
  - apply bool_decide_eq_true_1.
  - apply bool_decide_eq_true_2.
  - unfold JS.splitWs.
    rewrite splitWsFrom_count by discriminate.
    rewrite word_count_tokenStarts. reflexivity.
  - intros k. apply countCharacters_lookup.
  - unfold Analyzer.objectKeys.
    now rewrite length_fmap, length_map_to_list.
  - apply countCharacters_size.
Qed.

(** ** How the call of [analyzeString] ends *)

Section CallFacts.
Context {host : Host}.

(** The call returns exactly in a runtime whose global [crypto] has a
    [createHash], and then with the record of the body. *)
Lemma analyzeString_call (value : jsstring) :
  Scope.analyzeString value
  = if Scope.providesCreateHash
    then Scope.Normal (Analyzer.analyzeStringBody value)
    else Scope.Throw
           (match cryptoGlobal with
            | Some _ => "TypeError: crypto.createHash is not a function"
            | None => "ReferenceError: crypto is not defined"
            end).
Proof.
  unfold Scope.analyzeString, Scope.analyzeStringCall,
    Scope.providesCreateHash.
  change (bool_decide ("crypto"%string ∈ Scope.moduleBindings)) with false.
  cbv iota. destruct cryptoGlobal as [members|]; [|reflexivity].
  destruct (bool_decide ("createHash"%string ∈ members)); reflexivity.
Qed.

Lemma analyzeString_returns (value : jsstring) p :
  Scope.analyzeString value = Scope.Normal p ->
  Scope.providesCreateHash = true /\ p = Analyzer.analyzeStringBody value.
Proof.
  rewrite analyzeString_call.
  destruct Scope.providesCreateHash; [|discriminate].
  intros [= <-]. split; reflexivity.
Qed.

Lemma analyzeString_provided (value : jsstring) :
  Scope.providesCreateHash = true ->
  Scope.analyzeString value
  = Scope.Normal (Analyzer.analyzeStringBody value).
Proof. intros H. now rewrite analyzeString_call, H. Qed.

Lemma analyzeString_throws (value : jsstring) :
  Scope.providesCreateHash = false ->
  exists error, Scope.analyzeString value = Scope.Throw error.
Proof. intros H. rewrite analyzeString_call, H. eauto. Qed.

End CallFacts.

(** C1 (where the code departs from it).  In a runtime of Node.js, whose
    global object has no [crypto] or has the Web Crypto object, the call of
    [analyzeString] throws for every string, the empty one included, where
    the claim has it return the properties of the reference definition.
    The call returns only in a runtime whose global [crypto] has a
    [createHash]; there the record it returns is that of section 4.1:
    [is_palindrome] holds exactly when the normalized string is its own
    reverse, [word_count] is the number of maximal white-space-delimited
    non-empty tokens of the original string, [character_frequency_map]
    holds for each distinct character of the normalized string its number
    of occurrences and nothing else, [unique_characters] is the number of
    its keys, and the empty string has length 0, no word, no character and
    is a palindrome. *)
Theorem analyzeString_reference_or_throw {host : Host} (value : jsstring) :
  Scope.analyzeStringCall None value
  = Scope.Throw "ReferenceError: crypto is not defined"
  /\ Scope.analyzeStringCall (Some Scope.webCrypto) value
     = Scope.Throw "TypeError: crypto.createHash is not a function"
  /\ Scope.analyzeStringCall None []
     = Scope.Throw "ReferenceError: crypto is not defined"
  /\ Scope.analyzeStringCall (Some Scope.webCrypto) []
     = Scope.Throw "TypeError: crypto.createHash is not a function"
  /\ ((exists p, Scope.analyzeString value = Scope.Normal p)
      <-> Scope.providesCreateHash = true)
  /\ (forall p, Scope.analyzeString value = Scope.Normal p ->
      let normalized := Spec.normalized value in
      (Analyzer.is_palindrome p = true <-> normalized = rev normalized)
      /\ Analyzer.word_count p = Spec.word_count value
      /\ (forall k : jsstring,
            Analyzer.character_frequency_map p !! k
            = Spec.frequency normalized k)
      /\ Analyzer.unique_characters p
         = Z.of_nat (size (Analyzer.character_frequency_map p))
      /\ Analyzer.unique_characters p = Spec.distinct normalized
      /\ Analyzer.length p = Z.of_nat (List.length value))
  /\ (forall p, Scope.analyzeString [] = Scope.Normal p ->
      Analyzer.length p = 0 /\ Analyzer.word_count p = 0
      /\ Analyzer.is_palindrome p = true
      /\ Analyzer.unique_characters p = 0).
Proof.
  split; [reflexivity|]. split; [reflexivity|].
  split; [reflexivity|]. split; [reflexivity|].
  split; [|split].
  - split.
    + intros [p Hp]. now apply analyzeString_returns in Hp.
    + intros H. eexists. now apply analyzeString_provided.
  - intros p Hp. apply analyzeString_returns in Hp as [_ ->].
    apply analyzeStringBody_reference.
  - intros p Hp. apply analyzeString_returns in Hp as [_ ->].
    repeat split.
Qed.

(** ** Validation of the filters *)

Ltac check_cases :=
  unfold Filter.check_is_palindrome, Filter.check_min_length,
    Filter.check_max_length, Filter.check_word_count,
    Filter.check_contains_character, Filter.push, Filter.set_is_palindrome,
    Filter.set_min_length, Filter.set_max_length, Filter.set_word_count,
    Filter.set_contains_character;
  repeat match goal with
         | |- context [match ?x with _ => _ end] => destruct x eqn:?
         end;
  cbn [fst snd Filter.is_palindrome Filter.min_length Filter.max_length
       Filter.word_count Filter.contains_character];
  rewrite ?app_nil_r; try reflexivity.

Lemma only_lookup_same key (filters : gmap string JS.value) :
  Filter.only key filters !! key = filters !! key.
Proof.
  unfold Filter.only. destruct (filters !! key) eqn:H.
  - apply lookup_singleton_eq.
  - apply lookup_empty.
Qed.

Lemma only_lookup_other key key' (filters : gmap string JS.value) :
  key <> key' -> Filter.only key filters !! key' = None.
Proof.
  intros Hne. unfold Filter.only. destruct (filters !! key).
  - now apply lookup_singleton_ne.
  - apply lookup_empty.
Qed.

Section ValidationFacts.
Context {host : Host}.

(** Each block appends its message, if any, to the errors it finds. *)
Lemma check_is_palindrome_errors filters st :
  (Filter.check_is_palindrome filters st).2
  = st.2 ++ (Filter.check_is_palindrome filters (Filter.noFilters, [])).2.
Proof. check_cases. Qed.

Lemma check_min_length_errors filters st :
  (Filter.check_min_length filters st).2
  = st.2 ++ (Filter.check_min_length filters (Filter.noFilters, [])).2.
Proof. check_cases. Qed.

Lemma check_max_length_errors filters st :
  (Filter.check_max_length filters st).2
  = st.2 ++ (Filter.check_max_length filters (Filter.noFilters, [])).2.
Proof. check_cases. Qed.

Lemma check_word_count_errors filters st :
  (Filter.check_word_count filters st).2
  = st.2 ++ (Filter.check_word_count filters (Filter.noFilters, [])).2.
Proof. check_cases. Qed.

Lemma check_contains_character_errors filters st :
  (Filter.check_contains_character filters st).2
  = st.2 ++ (Filter.check_contains_character filters (Filter.noFilters, [])).2.
Proof. check_cases. Qed.

(** Each block reads the raw map under its own key only. *)
Lemma check_is_palindrome_ext filters filters' st :
  filters !! "is_palindrome"%string = filters' !! "is_palindrome"%string ->
  Filter.check_is_palindrome filters st
      = Filter.check_is_palindrome filters' st.
Proof. intros H. unfold Filter.check_is_palindrome. now rewrite H. Qed.

Lemma check_min_length_ext filters filters' st :
  filters !! "min_length"%string = filters' !! "min_length"%string ->
  Filter.check_min_length filters st = Filter.check_min_length filters' st.
Proof. intros H. unfold Filter.check_min_length. now rewrite H. Qed.

Lemma check_max_length_ext filters filters' st :
  filters !! "max_length"%string = filters' !! "max_length"%string ->
  Filter.check_max_length filters st = Filter.check_max_length filters' st.
Proof. intros H. unfold Filter.check_max_length. now rewrite H. Qed.

Lemma check_word_count_ext filters filters' st :
  filters !! "word_count"%string = filters' !! "word_count"%string ->
  Filter.check_word_count filters st = Filter.check_word_count filters' st.
Proof. intros H. unfold Filter.check_word_count. now rewrite H. Qed.

Lemma check_contains_character_ext filters filters' st :
  filters !! "contains_character"%string
  = filters' !! "contains_character"%string ->
  Filter.check_contains_character filters st
  = Filter.check_contains_character filters' st.
Proof. intros H. unfold Filter.check_contains_character. now rewrite H. Qed.

(** The validation reads the raw map under the five recognized keys only. *)
Lemma validate_ext filters filters' :
  (forall key, In key Filter.recognized -> filters !! key = filters' !! key) ->
  Filter.validate filters = Filter.validate filters'.
Proof.
  intros H. unfold Filter.validate.
  rewrite (check_is_palindrome_ext filters filters'),
    (check_min_length_ext filters filters'),
    (check_max_length_ext filters filters'),
    (check_word_count_ext filters filters'),
    (check_contains_character_ext filters filters');
    try reflexivity; apply H; simpl; tauto.
Qed.

(** Under one key only, the validation is the block of that key. *)
Lemma validate_only_is_palindrome filters :
  Filter.validate (Filter.only "is_palindrome" filters)
  = Filter.check_is_palindrome filters (Filter.noFilters, []).
Proof.
  unfold Filter.validate, Filter.check_contains_character,
    Filter.check_word_count, Filter.check_max_length, Filter.check_min_length.
  rewrite !only_lookup_other by discriminate.
  apply check_is_palindrome_ext, only_lookup_same.
Qed.

Lemma validate_only_min_length filters :
  Filter.validate (Filter.only "min_length" filters)
  = Filter.check_min_length filters (Filter.noFilters, []).
Proof.
  unfold Filter.validate, Filter.check_contains_character,
    Filter.check_word_count, Filter.check_max_length,
    Filter.check_is_palindrome.
  rewrite !only_lookup_other by discriminate.
  apply check_min_length_ext, only_lookup_same.
Qed.

Lemma validate_only_max_length filters :
  Filter.validate (Filter.only "max_length" filters)
  = Filter.check_max_length filters (Filter.noFilters, []).
Proof.
  unfold Filter.validate, Filter.check_contains_character,
    Filter.check_word_count, Filter.check_min_length,
    Filter.check_is_palindrome.
  rewrite !only_lookup_other by discriminate.
  apply check_max_length_ext, only_lookup_same.
Qed.

Lemma validate_only_word_count filters :
  Filter.validate (Filter.only "word_count" filters)
  = Filter.check_word_count filters (Filter.noFilters, []).
Proof.
  unfold Filter.validate, Filter.check_contains_character,
    Filter.check_max_length, Filter.check_min_length,
    Filter.check_is_palindrome.
  rewrite !only_lookup_other by discriminate.
  apply check_word_count_ext, only_lookup_same.
Qed.

Lemma validate_only_contains_character filters :
  Filter.validate (Filter.only "contains_character" filters)
  = Filter.check_contains_character filters (Filter.noFilters, []).
Proof.
  unfold Filter.validate, Filter.check_word_count,
    Filter.check_max_length, Filter.check_min_length,
    Filter.check_is_palindrome.
  rewrite !only_lookup_other by discriminate.
  apply check_contains_character_ext, only_lookup_same.
Qed.

(** The errors of a validation are those of the five blocks, in the order
    of the source. *)
Lemma validate_errors filters :
  (Filter.validate filters).2
  = (Filter.check_is_palindrome filters (Filter.noFilters, [])).2
    ++ (Filter.check_min_length filters (Filter.noFilters, [])).2
    ++ (Filter.check_max_length filters (Filter.noFilters, [])).2
    ++ (Filter.check_word_count filters (Filter.noFilters, [])).2
    ++ (Filter.check_contains_character filters (Filter.noFilters, [])).2.
Proof.
  unfold Filter.validate.
  rewrite check_contains_character_errors, check_word_count_errors,
    check_max_length_errors, check_min_length_errors.
  now rewrite <- !app_assoc.
Qed.

(** A block leaves the filters of the other blocks as it finds them. *)
Lemma check_is_palindrome_others filters st :
  Filter.min_length (Filter.check_is_palindrome filters st).1
      = Filter.min_length st.1
  /\ Filter.max_length (Filter.check_is_palindrome filters st).1
      = Filter.max_length st.1
  /\ Filter.word_count (Filter.check_is_palindrome filters st).1
      = Filter.word_count st.1
  /\ Filter.contains_character (Filter.check_is_palindrome filters st).1
      = Filter.contains_character st.1.
Proof. repeat split; check_cases. Qed.

Lemma check_min_length_others filters st :
  Filter.is_palindrome (Filter.check_min_length filters st).1
      = Filter.is_palindrome st.1
  /\ Filter.max_length (Filter.check_min_length filters st).1
      = Filter.max_length st.1
  /\ Filter.word_count (Filter.check_min_length filters st).1
      = Filter.word_count st.1
  /\ Filter.contains_character (Filter.check_min_length filters st).1
      = Filter.contains_character st.1.
Proof. repeat split; check_cases. Qed.

Lemma check_max_length_others filters st :
  Filter.is_palindrome (Filter.check_max_length filters st).1
      = Filter.is_palindrome st.1
  /\ Filter.min_length (Filter.check_max_length filters st).1
      = Filter.min_length st.1
  /\ Filter.word_count (Filter.check_max_length filters st).1
      = Filter.word_count st.1
  /\ Filter.contains_character (Filter.check_max_length filters st).1
      = Filter.contains_character st.1.
Proof. repeat split; check_cases. Qed.

Lemma check_word_count_others filters st :
  Filter.is_palindrome (Filter.check_word_count filters st).1
      = Filter.is_palindrome st.1
  /\ Filter.min_length (Filter.check_word_count filters st).1
      = Filter.min_length st.1
  /\ Filter.max_length (Filter.check_word_count filters st).1
      = Filter.max_length st.1
  /\ Filter.contains_character (Filter.check_word_count filters st).1
      = Filter.contains_character st.1.
Proof. repeat split; check_cases. Qed.

Lemma check_contains_character_others filters st :
  Filter.is_palindrome (Filter.check_contains_character filters st).1
      = Filter.is_palindrome st.1
  /\ Filter.min_length (Filter.check_contains_character filters st).1
      = Filter.min_length st.1
  /\ Filter.max_length (Filter.check_contains_character filters st).1
      = Filter.max_length st.1
  /\ Filter.word_count (Filter.check_contains_character filters st).1
      = Filter.word_count st.1.
Proof. repeat split; check_cases. Qed.

(** A block sets its own filter from the raw value alone. *)
Lemma check_is_palindrome_own filters st :
  Filter.is_palindrome st.1 = None ->
  Filter.is_palindrome (Filter.check_is_palindrome filters st).1
  = Filter.is_palindrome
      (Filter.check_is_palindrome filters (Filter.noFilters, [])).1.
Proof. intros H. check_cases; exact H. Qed.

Lemma check_min_length_own filters st :
  Filter.min_length st.1 = None ->
  Filter.min_length (Filter.check_min_length filters st).1
  = Filter.min_length
      (Filter.check_min_length filters (Filter.noFilters, [])).1.
Proof. intros H. check_cases; exact H. Qed.

Lemma check_max_length_own filters st :
  Filter.max_length st.1 = None ->
  Filter.max_length (Filter.check_max_length filters st).1
  = Filter.max_length
      (Filter.check_max_length filters (Filter.noFilters, [])).1.
Proof. intros H. check_cases; exact H. Qed.

Lemma check_word_count_own filters st :
  Filter.word_count st.1 = None ->
  Filter.word_count (Filter.check_word_count filters st).1
  = Filter.word_count
      (Filter.check_word_count filters (Filter.noFilters, [])).1.
Proof. intros H. check_cases; exact H. Qed.

Lemma check_contains_character_own filters st :
  Filter.contains_character st.1 = None ->
  Filter.contains_character (Filter.check_contains_character filters st).1
  = Filter.contains_character
      (Filter.check_contains_character filters (Filter.noFilters, [])).1.
Proof. intros H. check_cases; exact H. Qed.

(** The filters of a validation are those that the five blocks set, each
    from the raw value under its key. *)
Lemma validate_is_palindrome filters :
  Filter.is_palindrome (Filter.validate filters).1
  = Filter.is_palindrome
      (Filter.check_is_palindrome filters (Filter.noFilters, [])).1.
Proof.
  unfold Filter.validate.
  rewrite (proj1 (check_contains_character_others _ _)).
  rewrite (proj1 (check_word_count_others _ _)).
  rewrite (proj1 (check_max_length_others _ _)).
  rewrite (proj1 (check_min_length_others _ _)).
  apply check_is_palindrome_own.
  reflexivity.
Qed.

Lemma validate_min_length filters :
  Filter.min_length (Filter.validate filters).1
  = Filter.min_length
      (Filter.check_min_length filters (Filter.noFilters, [])).1.
Proof.
  unfold Filter.validate.
  rewrite (proj1 (proj2 (check_contains_character_others _ _))).
  rewrite (proj1 (proj2 (check_word_count_others _ _))).
  rewrite (proj1 (proj2 (check_max_length_others _ _))).
  apply check_min_length_own.
  rewrite (proj1 (check_is_palindrome_others _ _)).
  reflexivity.
Qed.

Lemma validate_max_length filters :
  Filter.max_length (Filter.validate filters).1
  = Filter.max_length
      (Filter.check_max_length filters (Filter.noFilters, [])).1.
Proof.
  unfold Filter.validate.
  rewrite (proj1 (proj2 (proj2 (check_contains_character_others _ _)))).
  rewrite (proj1 (proj2 (proj2 (check_word_count_others _ _)))).
  apply check_max_length_own.
  rewrite (proj1 (proj2 (check_min_length_others _ _))).
  rewrite (proj1 (proj2 (check_is_palindrome_others _ _))).
  reflexivity.
Qed.

Lemma validate_word_count filters :
  Filter.word_count (Filter.validate filters).1
  = Filter.word_count
      (Filter.check_word_count filters (Filter.noFilters, [])).1.
Proof.
  unfold Filter.validate.
  rewrite (proj2 (proj2 (proj2 (check_contains_character_others _ _)))).
  apply check_word_count_own.
  rewrite (proj1 (proj2 (proj2 (check_max_length_others _ _)))).
  rewrite (proj1 (proj2 (proj2 (check_min_length_others _ _)))).
  rewrite (proj1 (proj2 (proj2 (check_is_palindrome_others _ _)))).
  reflexivity.
Qed.

Lemma validate_contains_character filters :
  Filter.contains_character (Filter.validate filters).1
  = Filter.contains_character
      (Filter.check_contains_character filters (Filter.noFilters, [])).1.
Proof.
  unfold Filter.validate.
  apply check_contains_character_own.
  rewrite (proj2 (proj2 (proj2 (check_word_count_others _ _)))).
  rewrite (proj2 (proj2 (proj2 (check_max_length_others _ _)))).
  rewrite (proj2 (proj2 (proj2 (check_min_length_others _ _)))).
  rewrite (proj2 (proj2 (proj2 (check_is_palindrome_others _ _)))).
  reflexivity.
Qed.

(** What one block yields for its key: nothing when the key is absent,
    and otherwise either the typed filter or one message. *)
Lemma check_is_palindrome_outcome filters :
  let st := Filter.check_is_palindrome filters (Filter.noFilters, []) in
  (Filter.is_palindrome st.1, st.2)
  = match filters !! "is_palindrome"%string with
    | None => (None, [])
    | Some raw =>
        let val := JS.toLowerCase (JS.ToString raw) in
        if bool_decide (val = js "true") || JS.strictEqBool raw true
        then (Some true, [])
        else if bool_decide (val = js "false") || JS.strictEqBool raw false
        then (Some false, [])
        else (None, [Filter.msgIsPalindrome])
    end.
Proof.
  cbv zeta. unfold Filter.check_is_palindrome.
  destruct (filters !! "is_palindrome"%string) as [raw|]; [|reflexivity].
  cbv zeta. destruct (_ || _); [reflexivity|].
  destruct (_ || _); reflexivity.
Qed.

Lemma check_min_length_outcome filters :
  let st := Filter.check_min_length filters (Filter.noFilters, []) in
  (Filter.min_length st.1, st.2)
  = match filters !! "min_length"%string with
    | None => (None, [])
    | Some raw =>
        match JS.parseInt raw with
        | Some num => if num <? 0 then (None, [Filter.msgMinLength])
                      else (Some num, [])
        | None => (None, [Filter.msgMinLength])
        end
    end.
Proof.
  cbv zeta. unfold Filter.check_min_length.
  destruct (filters !! "min_length"%string) as [raw|]; [|reflexivity].
  destruct (JS.parseInt raw) as [num|]; [|reflexivity].
  destruct (num <? 0); reflexivity.
Qed.

Lemma check_max_length_outcome filters :
  let st := Filter.check_max_length filters (Filter.noFilters, []) in
  (Filter.max_length st.1, st.2)
  = match filters !! "max_length"%string with
    | None => (None, [])
    | Some raw =>
        match JS.parseInt raw with
        | Some num => if num <? 0 then (None, [Filter.msgMaxLength])
                      else (Some num, [])
        | None => (None, [Filter.msgMaxLength])
        end
    end.
Proof.
  cbv zeta. unfold Filter.check_max_length.
  destruct (filters !! "max_length"%string) as [raw|]; [|reflexivity].
  destruct (JS.parseInt raw) as [num|]; [|reflexivity].
  destruct (num <? 0); reflexivity.
Qed.

Lemma check_word_count_outcome filters :
  let st := Filter.check_word_count filters (Filter.noFilters, []) in
  (Filter.word_count st.1, st.2)
  = match filters !! "word_count"%string with
    | None => (None, [])
    | Some raw =>
        match JS.parseInt raw with
        | Some num => if num <? 1 then (None, [Filter.msgWordCount])
                      else (Some num, [])
        | None => (None, [Filter.msgWordCount])
        end
    end.
Proof.
  cbv zeta. unfold Filter.check_word_count.
  destruct (filters !! "word_count"%string) as [raw|]; [|reflexivity].
  destruct (JS.parseInt raw) as [num|]; [|reflexivity].
  destruct (num <? 1); reflexivity.
Qed.

Lemma check_contains_character_outcome filters :
  let st := Filter.check_contains_character filters (Filter.noFilters, []) in
  (Filter.contains_character st.1, st.2)
  = match filters !! "contains_character"%string with
    | None => (None, [])
    | Some raw =>
        let char := JS.ToString raw in
        if Z.of_nat (List.length char) =? 1
        then (Some (JS.toLowerCase char), [])
        else if 1 <? Z.of_nat (List.length char) then
          let firstChar := JS.charAt0 (JS.trim (JS.toLowerCase char)) in
          if JS.matchLowerAlnum firstChar then (Some firstChar, [])
          else (None, [Filter.msgNotSimplified])
        else (None, [Filter.msgNotSingle])
    end.
Proof.
  cbv zeta. unfold Filter.check_contains_character.
  destruct (filters !! "contains_character"%string) as [raw|]; [|reflexivity].
  cbv zeta. destruct (Z.of_nat _ =? 1); cbn [negb]; [reflexivity|].
  destruct (1 <? _); [|reflexivity].
  destruct (JS.matchLowerAlnum _); reflexivity.
Qed.

End ValidationFacts.

Lemma filterData_validate {host : Host} data filters :
  Filter.filterData data filters
  = match (Filter.validate filters).2 with
    | [] =>
        Filter.Filtered (Filter.applyFilters (Filter.validate filters).1 data)
                        (Filter.validate filters).1
    | _ :: _ => Filter.Invalid 400 "Invalid filter values in interpreted query"
                               (Filter.validate filters).2
    end.
Proof.
  unfold Filter.filterData.
  destruct (Filter.validate filters) as [parsedFilters [|e errors]];
    reflexivity.
Qed.

(** C4.  Compilation of the filters is all or nothing.  Each recognized key
    that is present in the raw map is validated, and on its own: it yields
    either its typed filter or its message, never both and never neither,
    which of the two and what filter being decided by its raw value alone
    (as spelled out for a raw value that is read exactly), and an absent
    key yields neither.  The messages of all the keys are collected and
    returned together, in the order of the source: a raw map with five bad
    values gives five messages.  If there is a message the result is the
    error with all of them and no data, also when other keys are valid; if
    there is none the result is the data filtered by the typed filters.  A
    key that is not recognized changes nothing, and the empty raw map gives
    the data as they are, with no filter set. *)
Theorem filterData_all_or_nothing {host : Host}
  (data : list AnalysisRecord) (filters : gmap string JS.value) :
  let st := Filter.validate filters in
  let part key := Filter.validate (Filter.only key filters) in
  let invalid details :=
    Filter.Invalid 400 "Invalid filter values in interpreted query" details in
  let validated {A} (key : string) (typed : option A)
                (messages : list string)
                (decided : JS.value -> option A * list string) :=
    match filters !! key with
    | None => typed = None /\ (part key).2 = []
    | Some raw =>
        ((is_Some typed /\ (part key).2 = [])
         \/ (typed = None
             /\ exists message, In message messages
                                /\ (part key).2 = [message]))
        /\ (JS.safe raw -> (typed, (part key).2) = decided raw)
    end in
  st.2 = (part "is_palindrome").2 ++ (part "min_length").2
         ++ (part "max_length").2 ++ (part "word_count").2
         ++ (part "contains_character").2
  /\ Filter.is_palindrome st.1 = Filter.is_palindrome (part "is_palindrome").1
  /\ Filter.min_length st.1 = Filter.min_length (part "min_length").1
  /\ Filter.max_length st.1 = Filter.max_length (part "max_length").1
  /\ Filter.word_count st.1 = Filter.word_count (part "word_count").1
  /\ Filter.contains_character st.1
     = Filter.contains_character (part "contains_character").1
  /\ validated "is_palindrome" (Filter.is_palindrome st.1)
       [Filter.msgIsPalindrome]
       (fun raw =>
          let val := JS.toLowerCase (JS.ToString raw) in
          if bool_decide (val = js "true") || JS.strictEqBool raw true
          then (Some true, [])
          else if bool_decide (val = js "false") || JS.strictEqBool raw false
          then (Some false, [])
          else (None, [Filter.msgIsPalindrome]))
  /\ validated "min_length" (Filter.min_length st.1) [Filter.msgMinLength]
       (fun raw =>
          match JS.parseInt raw with
          | Some num => if num <? 0 then (None, [Filter.msgMinLength])
                        else (Some num, [])
          | None => (None, [Filter.msgMinLength])
          end)
  /\ validated "max_length" (Filter.max_length st.1) [Filter.msgMaxLength]
       (fun raw =>
          match JS.parseInt raw with
          | Some num => if num <? 0 then (None, [Filter.msgMaxLength])
                        else (Some num, [])
          | None => (None, [Filter.msgMaxLength])
          end)
  /\ validated "word_count" (Filter.word_count st.1) [Filter.msgWordCount]
       (fun raw =>
          match JS.parseInt raw with
          | Some num => if num <? 1 then (None, [Filter.msgWordCount])
                        else (Some num, [])
          | None => (None, [Filter.msgWordCount])
          end)
  /\ validated "contains_character" (Filter.contains_character st.1)
       [Filter.msgNotSimplified; Filter.msgNotSingle]
       (fun raw =>
          let char := JS.ToString raw in
          if Z.of_nat (List.length char) =? 1
          then (Some (JS.toLowerCase char), [])
          else if 1 <? Z.of_nat (List.length char) then
            let firstChar := JS.charAt0 (JS.trim (JS.toLowerCase char)) in
            if JS.matchLowerAlnum firstChar then (Some firstChar, [])
            else (None, [Filter.msgNotSimplified])
          else (None, [Filter.msgNotSingle]))
  /\ (st.2 <> [] -> Filter.filterData data filters = invalid st.2)
  /\ (st.2 = [] ->
      Filter.filterData data filters
      = Filter.Filtered (Filter.applyFilters st.1 data) st.1)
  /\ Filter.filterData data
       (<[ "is_palindrome"%string := JS.VStr (js "maybe") ]>
          (<[ "min_length"%string := JS.VStr (js "-1") ]>
             (<[ "max_length"%string := JS.VStr (js "x") ]>
                (<[ "word_count"%string := JS.VNum 0 ]>
                   {[ "contains_character"%string := JS.VStr [] ]}))))
     = invalid [Filter.msgIsPalindrome; Filter.msgMinLength;
                Filter.msgMaxLength; Filter.msgWordCount;
                Filter.msgNotSingle]
  /\ Filter.filterData data
       (<[ "is_palindrome"%string := JS.VStr (js "true") ]>
          {[ "min_length"%string := JS.VStr (js "-1") ]})
     = invalid [Filter.msgMinLength]
  /\ (forall key raw, ~ In key Filter.recognized ->
      Filter.filterData data (<[ key := raw ]> filters)
      = Filter.filterData data filters)
  /\ Filter.filterData data ∅ = Filter.Filtered data Filter.noFilters.
Proof.
  cbv beta zeta.
  rewrite validate_only_is_palindrome, validate_only_min_length,
    validate_only_max_length, validate_only_word_count,
    validate_only_contains_character.
  split; [apply validate_errors|].
  split; [apply validate_is_palindrome|].
  split; [apply validate_min_length|].
  split; [apply validate_max_length|].
  split; [apply validate_word_count|].
  split; [apply validate_contains_character|].
  assert (Hblock : forall {A} (typed : option A) (errors messages : list string)
                          (outcome : option A * list string),
    (typed, errors) = outcome ->
    ((is_Some outcome.1 /\ outcome.2 = [])
     \/ (outcome.1 = None
         /\ exists message, In message messages /\ outcome.2 = [message])) ->
    ((is_Some typed /\ errors = [])
     \/ (typed = None
         /\ exists message, In message messages /\ errors = [message]))
    /\ (typed, errors) = outcome).
  { intros A typed errors messages outcome <- H. split; [exact H|reflexivity]. }
  split; [|split; [|split; [|split; [|split]]]].
  - rewrite validate_is_palindrome.
    pose proof (check_is_palindrome_outcome filters) as H. cbv zeta in H.
    destruct (filters !! "is_palindrome"%string) as [raw|];
      [|now injection H as -> ->].
    apply (Hblock _ _ _ [Filter.msgIsPalindrome]) in H as [H ->];
      [split; [exact H | reflexivity]|].
    destruct (_ || _); [left; cbn; eauto|].
    destruct (_ || _); [left; cbn; eauto|].
    right. split; [reflexivity|]. eexists. split; [|reflexivity]. now left.
  - rewrite validate_min_length.
    pose proof (check_min_length_outcome filters) as H. cbv zeta in H.
    destruct (filters !! "min_length"%string) as [raw|];
      [|now injection H as -> ->].
    apply (Hblock _ _ _ [Filter.msgMinLength]) in H as [H ->];
      [split; [exact H | reflexivity]|].
    destruct (JS.parseInt raw) as [num|];
      [destruct (num <? 0)|]; first [ left; cbn; now eauto | right ];
      (split; [reflexivity|]; eexists; split; [|reflexivity]; now left).
  - rewrite validate_max_length.
    pose proof (check_max_length_outcome filters) as H. cbv zeta in H.
    destruct (filters !! "max_length"%string) as [raw|];
      [|now injection H as -> ->].
    apply (Hblock _ _ _ [Filter.msgMaxLength]) in H as [H ->];
      [split; [exact H | reflexivity]|].
    destruct (JS.parseInt raw) as [num|];
      [destruct (num <? 0)|]; first [ left; cbn; now eauto | right ];
      (split; [reflexivity|]; eexists; split; [|reflexivity]; now left).
  - rewrite validate_word_count.
    pose proof (check_word_count_outcome filters) as H. cbv zeta in H.
    destruct (filters !! "word_count"%string) as [raw|];
      [|now injection H as -> ->].
    apply (Hblock _ _ _ [Filter.msgWordCount]) in H as [H ->];
      [split; [exact H | reflexivity]|].
    destruct (JS.parseInt raw) as [num|];
      [destruct (num <? 1)|]; first [ left; cbn; now eauto | right ];
      (split; [reflexivity|]; eexists; split; [|reflexivity]; now left).
  - rewrite validate_contains_character.
    pose proof (check_contains_character_outcome filters) as H.
    cbv zeta in H.
    destruct (filters !! "contains_character"%string) as [raw|];
      [|now injection H as -> ->].
    apply (Hblock _ _ _ [Filter.msgNotSimplified; Filter.msgNotSingle])
      in H as [H ->]; [split; [exact H | reflexivity]|].
    destruct (_ =? 1); [left; cbn; now eauto|].
    destruct (1 <? _); [destruct (JS.matchLowerAlnum _)|];
      first [ left; cbn; now eauto | right ];
      (split; [reflexivity|]; eexists; split; [|reflexivity]; cbn; tauto).
  - split; [|split; [|split; [|split; [|split]]]].
    + intros Herr. rewrite filterData_validate.
      destruct (Filter.validate filters).2; [contradiction|reflexivity].
    + intros Herr. rewrite filterData_validate. now rewrite Herr.
    + rewrite filterData_validate.
      match goal with
      | |- context [Filter.validate ?m] =>
          replace (Filter.validate m)
            with (Filter.noFilters,
                  [Filter.msgIsPalindrome; Filter.msgMinLength;
                   Filter.msgMaxLength; Filter.msgWordCount;
                   Filter.msgNotSingle])
            by (vm_compute; reflexivity)
      end.
      reflexivity.
    + rewrite filterData_validate.
      match goal with
      | |- context [Filter.validate ?m] =>
          replace (Filter.validate m)
            with ({| Filter.is_palindrome := Some true;
                     Filter.min_length := None; Filter.max_length := None;
                     Filter.word_count := None;
                     Filter.contains_character := None |},
                  [Filter.msgMinLength])
            by (vm_compute; reflexivity)
      end.
      reflexivity.
    + intros key raw Hkey. unfold Filter.filterData.
      rewrite (validate_ext (<[ key := raw ]> filters) filters);
        [reflexivity|].
      intros key' Hin. apply lookup_insert_ne. intros ->. contradiction.
    + reflexivity.
Qed.

Lemma filterData_all_or_nothing_witness :
  Filter.filterData (host := asciiHost) []
    (<[ "is_palindrome"%string := JS.VStr (js "true") ]>
       (<[ "max_length"%string := JS.VStr (js "ten") ]>
          {[ "word_count"%string := JS.VStr (js "0") ]}))
  = Filter.Invalid 400 "Invalid filter values in interpreted query"
                   [Filter.msgMaxLength; Filter.msgWordCount].
Proof.
  refine (proj1 (proj2 (proj2 (proj2 (proj2 (proj2 (proj2 (proj2 (proj2
    (proj2 (proj2 (proj2
      (filterData_all_or_nothing (host := asciiHost) []
         (<[ "is_palindrome"%string := JS.VStr (js "true") ]>
            (<[ "max_length"%string := JS.VStr (js "ten") ]>
               {[ "word_count"%string := JS.VStr (js "0") ]}))))))))))))))
    _).
  discriminate.
Defined.

(** ** The character filter *)

Lemma trimStart_In s d : In d (JS.trimStart s) -> In d s.
Proof.
  induction s as [|c s IH]; simpl; [tauto|].
  destruct (JS.isWhiteSpace c); simpl; tauto.
Qed.

Lemma trim_In s d : In d (JS.trim s) -> In d s.
Proof.
  unfold JS.trim. rewrite <- in_rev. intros H.
  apply trimStart_In in H. rewrite <- in_rev in H.
  now apply trimStart_In.
Qed.

(** The test of line 125 on the first character of a lower-cased string is
    the test "is an ASCII letter or digit" of the specification. *)
Lemma matchLowerAlnum_firstChar {host : Host} (char : jsstring) :
  let firstChar := JS.charAt0 (JS.trim (JS.toLowerCase char)) in
  JS.matchLowerAlnum firstChar
  = forallb Spec.isAsciiLetterOrDigit firstChar
    && negb (bool_decide (firstChar = [])).
Proof.
  cbv zeta. destruct (JS.trim (JS.toLowerCase char)) as [|c rest] eqn:Htrim;
    [reflexivity|].
  assert (Hc : ~ (65 <= c <= 90)).
  { apply (toLowerCase_not_capital char), trim_In. rewrite Htrim. now left. }
  cbn [JS.charAt0 JS.matchLowerAlnum existsb forallb].
  rewrite bool_decide_eq_false_2 by discriminate.
  unfold JS.isLowerAlnum, Spec.isAsciiLetterOrDigit. lia.
Qed.

Lemma validate_error_invalid {host : Host} data filters msg :
  In msg (Filter.validate filters).2 ->
  Filter.filterData data filters
  = Filter.Invalid 400 "Invalid filter values in interpreted query"
                   (Filter.validate filters).2.
Proof.
  intros Hin. rewrite filterData_validate.
  destruct (Filter.validate filters).2; [destruct Hin | reflexivity].
Qed.

(** C2 (as the code has it).  The raw value of [contains_character] is
    first converted to a string.  A string of one character is coerced to
    that character lower-cased.  A longer string is lower-cased and trimmed
    of white space at both ends, and the first character of what remains is
    the filter when it is an ASCII letter or digit; otherwise, and when
    nothing remains, the field fails and so does the compilation.  The empty
    string fails.  The raw value "the letter x" is coerced to "t", and "Z"
    to "z". *)
Theorem contains_character_coercion {host : Host}
  (data : list AnalysisRecord) (filters : gmap string JS.value)
  (raw : JS.value) :
  filters !! "contains_character"%string = Some raw ->
  let char := JS.ToString raw in
  let firstChar := JS.charAt0 (JS.trim (JS.toLowerCase char)) in
  let accepted :=
    forallb Spec.isAsciiLetterOrDigit firstChar
    && negb (bool_decide (firstChar = [])) in
  let st := Filter.validate filters in
  let invalid :=
    Filter.filterData data filters
    = Filter.Invalid 400 "Invalid filter values in interpreted query" st.2 in
  (List.length char = 1%nat ->
     Filter.contains_character st.1 = Some (JS.toLowerCase char))
  /\ ((1 < List.length char)%nat -> accepted = true ->
     Filter.contains_character st.1 = Some firstChar)
  /\ ((1 < List.length char)%nat -> accepted = false ->
     Filter.contains_character st.1 = None
     /\ In Filter.msgNotSimplified st.2 /\ invalid)
  /\ (List.length char = 0%nat ->
     Filter.contains_character st.1 = None
     /\ In Filter.msgNotSingle st.2 /\ invalid)
  /\ Filter.contains_character
       (Filter.validate
          {[ "contains_character"%string := JS.VStr (js "the letter x") ]}).1
     = Some (js "t")
  /\ Filter.contains_character
       (Filter.validate
          {[ "contains_character"%string := JS.VStr (js "Z") ]}).1
     = Some (js "z").
Proof.
  intros Hraw. cbv zeta.
  rewrite <- matchLowerAlnum_firstChar.
  assert (Herr : forall msg,
    In msg (Filter.check_contains_character filters (Filter.noFilters, [])).2 ->
    In msg (Filter.validate filters).2).
  { intros msg Hin. rewrite validate_errors, !in_app_iff. tauto. }
  rewrite validate_contains_character.
  unfold Filter.check_contains_character in *. rewrite Hraw in *.
  assert (Hlong : (1 < List.length (JS.ToString raw))%nat ->
    negb (Z.of_nat (List.length (JS.ToString raw)) =? 1) = true
    /\ (1 <? Z.of_nat (List.length (JS.ToString raw))) = true).
  { intros Hlen. split; [apply negb_true_iff, Z.eqb_neq | apply Z.ltb_lt];
      lia. }
  split; [|split; [|split; [|split; [|split]]]].
  - intros Hlen. rewrite Hlen. reflexivity.
  - intros [Hne Hlt]%Hlong Hacc. now rewrite Hne, Hlt, Hacc.
  - intros [Hne Hlt]%Hlong Hacc. rewrite Hne, Hlt, Hacc in *.
    split; [reflexivity|].
    split; [|apply (validate_error_invalid data filters Filter.msgNotSimplified)];
      apply Herr; now left.
  - intros Hlen. rewrite Hlen in *.
    split; [reflexivity|].
    split; [|apply (validate_error_invalid data filters Filter.msgNotSingle)];
      apply Herr; now left.
  - reflexivity.
  - reflexivity.
Qed.

Lemma contains_character_coercion_witness :
  Filter.contains_character
    (Filter.validate (host := asciiHost)
       {[ "contains_character"%string := JS.VStr (js "  xy") ]}).1
  = Some (js "x").
Proof.
  refine (proj1 (proj2
    (contains_character_coercion (host := asciiHost) []
       {[ "contains_character"%string := JS.VStr (js "  xy") ]}
       (JS.VStr (js "  xy")) _)) _ _).
  - reflexivity.
  - vm_compute. lia.
  - reflexivity.
Defined.

(** C2 as the specification words it fails on a value that starts with
    white space: the first character of " x" is a space, which is not
    alphanumeric, so the field should fail; the code trims the space and
    takes "x". *)
Lemma contains_character_first_character_counterexample :
  Spec.coerceCharacter (host := asciiHost) (js " x") = None
  /\ Filter.contains_character
       (Filter.validate (host := asciiHost)
          {[ "contains_character"%string := JS.VStr (js " x") ]}).1
     = Some (js "x")
  /\ Filter.filterData (host := asciiHost) []
       {[ "contains_character"%string := JS.VStr (js " x") ]}
     = Filter.Filtered []
         {| Filter.is_palindrome := None; Filter.min_length := None;
            Filter.max_length := None; Filter.word_count := None;
            Filter.contains_character := Some (js "x") |}.
Proof. repeat split. Qed.

(** ** The numeric filters *)

Lemma digitsValue_snoc radix ds d :
  JS.digitsValue radix (ds ++ [d])
  = JS.digitsValue radix ds * radix + JS.digitValue d.
Proof. unfold JS.digitsValue. now rewrite fold_left_app. Qed.

Lemma decDigitsFuel_S fuel n acc :
  JS.decDigitsFuel (S fuel) n acc
  = if n <? 10 then (48 + n mod 10) :: acc
    else JS.decDigitsFuel fuel (n / 10) ((48 + n mod 10) :: acc).
Proof. reflexivity. Qed.

Lemma decDigitsFuel_acc fuel n acc :
  JS.decDigitsFuel fuel n acc = JS.decDigitsFuel fuel n [] ++ acc.
Proof.
  revert n acc. induction fuel as [|fuel IH]; intros n acc; [reflexivity|].
  cbn [JS.decDigitsFuel]. destruct (n <? 10); [reflexivity|].
  rewrite IH, (IH _ [_]), <- app_assoc. reflexivity.
Qed.

Lemma digitValue_dec d : 0 <= d <= 9 -> JS.digitValue (48 + d) = d.
Proof.
  intros Hd. unfold JS.digitValue, JS.isDecDigit.
  destruct ((48 <=? 48 + d) && (48 + d <=? 57)) eqn:H; lia.
Qed.

Lemma isDecDigit_dec d : 0 <= d <= 9 -> JS.isDecDigit (48 + d) = true.
Proof. unfold JS.isDecDigit. lia. Qed.

(** With enough fuel the digits are decimal digits, there is at least one,
    and they denote the number. *)
Lemma decDigitsFuel_spec fuel n :
  0 <= n < 2 ^ Z.of_nat (S fuel) ->
  forallb JS.isDecDigit (JS.decDigitsFuel (S fuel) n []) = true
  /\ JS.decDigitsFuel (S fuel) n [] <> []
  /\ JS.digitsValue 10 (JS.decDigitsFuel (S fuel) n []) = n.
Proof.
  revert n. induction fuel as [|fuel IH]; intros n Hn.
  - assert (n = 0 \/ n = 1) as [-> | ->]
      by (change (2 ^ Z.of_nat 1) with 2 in Hn; lia);
      repeat split; discriminate.
  - rewrite decDigitsFuel_S. destruct (Z.ltb_spec n 10) as [Hlt|Hge].
    + pose proof (Z.mod_small n 10 ltac:(lia)) as Hmod. rewrite Hmod.
      cbn [forallb]. rewrite isDecDigit_dec by lia.
      repeat split; [discriminate|].
      unfold JS.digitsValue. cbn [fold_left]. rewrite digitValue_dec; lia.
    + rewrite decDigitsFuel_acc.
      assert (Hdiv : 0 <= n / 10 < 2 ^ Z.of_nat (S fuel)).
      { split; [apply Z.div_pos; lia|].
        apply Z.div_lt_upper_bound; [lia|].
        rewrite Nat2Z.inj_succ, Z.pow_succ_r in Hn by lia. lia. }
      destruct (IH _ Hdiv) as (Hall & Hne & Hval).
      pose proof (Z.mod_pos_bound n 10 ltac:(lia)) as Hmod.
      rewrite forallb_app, Hall. cbn [forallb].
      rewrite isDecDigit_dec by lia.
      repeat split.
      * intros Happ. apply app_eq_nil in Happ as [? ?]. discriminate.
      * rewrite digitsValue_snoc, Hval, digitValue_dec by lia.
        pose proof (Z.div_mod n 10 ltac:(lia)). lia.
Qed.

Lemma decDigits_spec n :
  0 <= n ->
  forallb JS.isDecDigit (JS.decDigits n) = true
  /\ JS.decDigits n <> []
  /\ JS.digitsValue 10 (JS.decDigits n) = n.
Proof.
  intros Hn. apply decDigitsFuel_spec. split; [assumption|].
  rewrite Nat2Z.inj_succ, Z2Nat.id by apply Z.log2_nonneg.
  destruct (Z.eq_dec n 0) as [->|Hne]; [reflexivity|].
  apply Z.log2_spec. lia.
Qed.

Lemma digitPrefix_all isDigit ds :
  forallb isDigit ds = true -> JS.digitPrefix isDigit ds = ds.
Proof.
  induction ds as [|d ds IH]; [reflexivity|].
  cbn [forallb JS.digitPrefix]. intros [Hd Hds]%andb_true_iff.
  rewrite Hd, IH; auto.
Qed.

Lemma isDecDigit_not_space c :
  JS.isDecDigit c = true -> JS.isWhiteSpace c = false.
Proof. unfold JS.isDecDigit, JS.isWhiteSpace. lia. Qed.

(** [parseInt] on a string of decimal digits. *)
Lemma parseInt_digits ds :
  ds <> [] -> forallb JS.isDecDigit ds = true ->
  JS.parseInt (JS.VStr ds) = Some (JS.digitsValue 10 ds).
Proof.
  intros Hne Hall. destruct ds as [|c0 rest]; [contradiction|].
  pose proof Hall as Hall'. cbn [forallb] in Hall'.
  apply andb_true_iff in Hall' as [Hc0 Hrest].
  unfold JS.parseInt. cbn [JS.ToString JS.trimStart].
  rewrite (isDecDigit_not_space c0 Hc0).
  assert (H45 : (c0 =? 45) = false) by (unfold JS.isDecDigit in Hc0; lia).
  assert (H43 : (c0 =? 43) = false) by (unfold JS.isDecDigit in Hc0; lia).
  rewrite H45, H43.
  assert (Hradix :
    match c0 :: rest with
    | c0 :: c1 :: rest' =>
        if (c0 =? 48) && ((c1 =? 120) || (c1 =? 88))
        then (16, JS.isHexDigit, rest') else (10, JS.isDecDigit, c0 :: rest)
    | _ => (10, JS.isDecDigit, c0 :: rest)
    end = (10, JS.isDecDigit, c0 :: rest)).
  { destruct rest as [|c1 rest']; [reflexivity|].
    cbn [forallb] in Hrest. apply andb_true_iff in Hrest as [Hc1 _].
    replace ((c1 =? 120) || (c1 =? 88)) with false
      by (unfold JS.isDecDigit in Hc1; lia).
    now rewrite andb_false_r. }
  rewrite Hradix, (digitPrefix_all _ _ Hall), Z.mul_1_l. reflexivity.
Qed.

(** [parseInt] on a minus sign and decimal digits. *)
Lemma parseInt_minus_digits ds :
  ds <> [] -> forallb JS.isDecDigit ds = true ->
  JS.parseInt (JS.VStr (45 :: ds)) = Some (- JS.digitsValue 10 ds).
Proof.
  intros Hne Hall. destruct ds as [|c0 rest]; [contradiction|].
  pose proof Hall as Hall'. cbn [forallb] in Hall'.
  apply andb_true_iff in Hall' as [Hc0 Hrest].
  unfold JS.parseInt. cbn [JS.ToString JS.trimStart].
  change (JS.isWhiteSpace 45) with false. cbv iota.
  change (45 =? 45) with true. cbv iota.
  assert (Hradix :
    match c0 :: rest with
    | c0 :: c1 :: rest' =>
        if (c0 =? 48) && ((c1 =? 120) || (c1 =? 88))
        then (16, JS.isHexDigit, rest') else (10, JS.isDecDigit, c0 :: rest)
    | _ => (10, JS.isDecDigit, c0 :: rest)
    end = (10, JS.isDecDigit, c0 :: rest)).
  { destruct rest as [|c1 rest']; [reflexivity|].
    cbn [forallb] in Hrest. apply andb_true_iff in Hrest as [Hc1 _].
    replace ((c1 =? 120) || (c1 =? 88)) with false
      by (unfold JS.isDecDigit in Hc1; lia).
    now rewrite andb_false_r. }
  rewrite Hradix, (digitPrefix_all _ _ Hall). f_equal; lia.
Qed.

(** An integer is printed and read back as itself. *)
Lemma parseInt_number n : JS.parseInt (JS.VNum n) = Some n.
Proof.
  change (JS.parseInt (JS.VNum n))
    with (JS.parseInt (JS.VStr (JS.numberToString n))).
  unfold JS.numberToString. destruct (Z.ltb_spec n 0) as [Hneg|Hpos].
  - destruct (decDigits_spec (- n) ltac:(lia)) as (Hall & Hne & Hval).
    rewrite parseInt_minus_digits, Hval by assumption. f_equal. lia.
  - destruct (decDigits_spec n Hpos) as (Hall & Hne & Hval).
    rewrite parseInt_digits, Hval by assumption. reflexivity.
Qed.

(** What denotes an integer for the specification is read as that integer
    by [parseInt]. *)
Lemma parseInt_denotedInteger raw n :
  Spec.denotedInteger raw = Some n -> JS.parseInt raw = Some n.
Proof.
  assert (Hdigits : forall ds v, Spec.denotedDigits ds = Some v ->
    ds <> [] /\ forallb JS.isDecDigit ds = true /\ v = JS.digitsValue 10 ds).
  { intros ds v. unfold Spec.denotedDigits. destruct ds as [|d ds];
      [discriminate|].
    destruct (forallb JS.isDecDigit (d :: ds)); [|discriminate].
    intros [= <-]. repeat split. discriminate. }
  destruct raw as [s|m|b|]; cbn [Spec.denotedInteger]; try discriminate.
  - destruct s as [|c rest].
    + intros (Hne & _)%Hdigits. contradiction.
    + destruct (Z.eq_dec c 45) as [->|Hc].
      * destruct (Spec.denotedDigits rest) as [v|] eqn:Hv; [|discriminate].
        apply Hdigits in Hv as (Hne & Hall & ->).
        intros [= <-]. now apply parseInt_minus_digits.
      * assert (Hden : Spec.denotedInteger (JS.VStr (c :: rest))
                       = Spec.denotedDigits (c :: rest)).
        { cbn [Spec.denotedInteger].
          destruct c as [|p|p]; try reflexivity.
          do 6 (destruct p as [p|p|]; try reflexivity). contradiction. }
        cbn [Spec.denotedInteger] in Hden. rewrite Hden.
        intros (Hne & Hall & ->)%Hdigits. now apply parseInt_digits.
  - intros [= <-]. apply parseInt_number.
Qed.

(** ** What [parseInt] reads *)

Lemma trimStart_spaces ws s :
  forallb JS.isWhiteSpace ws = true -> JS.trimStart (ws ++ s) = JS.trimStart s.
Proof.
  induction ws as [|c ws IH]; [reflexivity|].
  cbn [forallb app JS.trimStart]. intros [Hc Hws]%andb_true_iff.
  rewrite Hc. auto.
Qed.

Lemma trimStart_start c s :
  JS.isWhiteSpace c = false -> JS.trimStart (c :: s) = c :: s.
Proof. intros Hc. cbn [JS.trimStart]. now rewrite Hc. Qed.

Lemma parseInt_spaces ws s :
  forallb JS.isWhiteSpace ws = true ->
  JS.parseInt (JS.VStr (ws ++ s)) = JS.parseInt (JS.VStr s).
Proof.
  intros Hws. unfold JS.parseInt. cbn [JS.ToString].
  now rewrite trimStart_spaces.
Qed.

Lemma digitPrefix_app isDigit ds rest :
  forallb isDigit ds = true ->
  match rest with c :: _ => isDigit c = false | [] => True end ->
  JS.digitPrefix isDigit (ds ++ rest) = ds.
Proof.
  intros Hds Hrest. induction ds as [|d ds IH].
  - destruct rest as [|c rest]; [reflexivity|].
    cbn [app JS.digitPrefix]. now rewrite Hrest.
  - cbn [forallb] in Hds. apply andb_true_iff in Hds as [Hd Hds].
    cbn [app JS.digitPrefix]. rewrite Hd, IH; auto.
Qed.

Lemma parseInt_decimal_prefix ds rest :
  ds <> [] -> forallb JS.isDecDigit ds = true ->
  match rest with
  | c :: _ => JS.isDecDigit c = false /\ (ds = [48] -> c <> 120 /\ c <> 88)
  | [] => True
  end ->
  JS.parseInt (JS.VStr (ds ++ rest)) = Some (JS.digitsValue 10 ds).
Proof.
  intros Hne Hall Hrest. destruct ds as [|c0 ds0]; [contradiction|].
  pose proof Hall as Hall'. cbn [forallb] in Hall'.
  apply andb_true_iff in Hall' as [Hc0 Hds0].
  unfold JS.parseInt. cbn [JS.ToString app].
  rewrite (trimStart_start c0) by now apply isDecDigit_not_space.
  assert (H45 : (c0 =? 45) = false) by (unfold JS.isDecDigit in Hc0; lia).
  assert (H43 : (c0 =? 43) = false) by (unfold JS.isDecDigit in Hc0; lia).
  rewrite H45, H43.
  assert (Hradix :
    match c0 :: ds0 ++ rest with
    | c0 :: c1 :: rest' =>
        if (c0 =? 48) && ((c1 =? 120) || (c1 =? 88))
        then (16, JS.isHexDigit, rest')
        else (10, JS.isDecDigit, c0 :: ds0 ++ rest)
    | _ => (10, JS.isDecDigit, c0 :: ds0 ++ rest)
    end = (10, JS.isDecDigit, c0 :: ds0 ++ rest)).
  { destruct (ds0 ++ rest) as [|c1 rest'] eqn:Htail; [reflexivity|].
    replace ((c0 =? 48) && ((c1 =? 120) || (c1 =? 88))) with false;
      [reflexivity|].
    destruct ds0 as [|d ds1].
    - cbn [app] in Htail. subst rest. destruct Hrest as [_ Hx].
      destruct (Z.eqb_spec c0 48) as [->|]; [|reflexivity].
      destruct (Hx eq_refl). cbn [andb]. lia.
    - cbn [app] in Htail. injection Htail as -> _.
      cbn [forallb] in Hds0. apply andb_true_iff in Hds0 as [Hd _].
      unfold JS.isDecDigit in Hd.
      replace ((c1 =? 120) || (c1 =? 88)) with false by lia.
      now rewrite andb_false_r. }
  rewrite Hradix.
  change (c0 :: ds0 ++ rest) with ((c0 :: ds0) ++ rest).
  rewrite (digitPrefix_app _ (c0 :: ds0) rest Hall), Z.mul_1_l;
    [reflexivity|].
  destruct rest as [|c rest]; [exact I | apply Hrest].
Qed.

Lemma parseInt_hexadecimal_prefix x hs rest :
  x = 120 \/ x = 88 ->
  hs <> [] -> forallb JS.isHexDigit hs = true ->
  match rest with c :: _ => JS.isHexDigit c = false | [] => True end ->
  JS.parseInt (JS.VStr (48 :: x :: hs ++ rest))
  = Some (JS.digitsValue 16 hs).
Proof.
  intros Hx Hne Hall Hrest. unfold JS.parseInt. cbn [JS.ToString].
  rewrite (trimStart_start 48) by reflexivity.
  change (48 =? 45) with false. change (48 =? 43) with false. cbv iota.
  replace ((48 =? 48) && ((x =? 120) || (x =? 88))) with true
    by (destruct Hx; subst x; reflexivity).
  cbv beta iota zeta. rewrite (digitPrefix_app _ hs rest Hall Hrest).
  destruct hs; [contradiction|]. now rewrite Z.mul_1_l.
Qed.

Lemma parseInt_no_digit s :
  match JS.trimStart s with
  | c :: _ => JS.isDecDigit c = false /\ c <> 45 /\ c <> 43
  | [] => True
  end ->
  JS.parseInt (JS.VStr s) = None.
Proof.
  intros Hhead. unfold JS.parseInt. cbn [JS.ToString].
  destruct (JS.trimStart s) as [|c rest]; [reflexivity|].
  destruct Hhead as (Hdigit & H45 & H43).
  replace (c =? 45) with false by lia. replace (c =? 43) with false by lia.
  assert (Hradix :
    match c :: rest with
    | c0 :: c1 :: rest' =>
        if (c0 =? 48) && ((c1 =? 120) || (c1 =? 88))
        then (16, JS.isHexDigit, rest') else (10, JS.isDecDigit, c :: rest)
    | _ => (10, JS.isDecDigit, c :: rest)
    end = (10, JS.isDecDigit, c :: rest)).
  { destruct rest as [|c1 rest']; [reflexivity|].
    replace (c =? 48) with false; [reflexivity|].
    unfold JS.isDecDigit in Hdigit. lia. }
  rewrite Hradix. cbn [JS.digitPrefix]. now rewrite Hdigit.
Qed.

Lemma digitValue_nonneg d : JS.isHexDigit d = true -> 0 <= JS.digitValue d.
Proof.
  unfold JS.isHexDigit, JS.digitValue, JS.isDecDigit. intros Hd.
  destruct ((48 <=? d) && (d <=? 57)) eqn:H1; [lia|].
  destruct ((97 <=? d) && (d <=? 102)) eqn:H2; lia.
Qed.

Lemma digitsValue_nonneg radix ds :
  0 <= radix -> forallb JS.isHexDigit ds = true ->
  0 <= JS.digitsValue radix ds.
Proof.
  intros Hradix. unfold JS.digitsValue.
  enough (H : forall acc, 0 <= acc -> forallb JS.isHexDigit ds = true ->
            0 <= fold_left (fun acc d => acc * radix + JS.digitValue d) ds acc)
    by (apply H; lia).
  induction ds as [|d ds IH]; intros acc Hacc Hall; [exact Hacc|].
  cbn [forallb] in Hall. apply andb_true_iff in Hall as [Hd Hds].
  cbn [fold_left]. apply IH; [|exact Hds].
  pose proof (digitValue_nonneg d Hd). nia.
Qed.

Lemma isDecDigit_hex ds :
  forallb JS.isDecDigit ds = true -> forallb JS.isHexDigit ds = true.
Proof.
  induction ds as [|d ds IH]; [reflexivity|].
  cbn [forallb]. intros [Hd Hds]%andb_true_iff.
  rewrite IH by assumption. unfold JS.isHexDigit. now rewrite Hd.
Qed.

(** The prefix 0x or 0X with no hexadecimal digit after it gives no
    number. *)
Lemma parseInt_hexadecimal_empty x rest :
  x = 120 \/ x = 88 ->
  match rest with c :: _ => JS.isHexDigit c = false | [] => True end ->
  JS.parseInt (JS.VStr (48 :: x :: rest)) = None.
Proof.
  intros Hx Hrest. unfold JS.parseInt. cbn [JS.ToString].
  rewrite (trimStart_start 48) by reflexivity.
  change (48 =? 45) with false. change (48 =? 43) with false. cbv iota.
  replace ((48 =? 48) && ((x =? 120) || (x =? 88))) with true
    by (destruct Hx; subst x; reflexivity).
  cbv beta iota zeta. destruct rest as [|c rest]; [reflexivity|].
  cbn [JS.digitPrefix]. now rewrite Hrest.
Qed.

(** A sign in front of a digit: the number that follows is read, and
    negated after a minus sign. *)
Lemma parseInt_sign (c d : Z) (body : jsstring) :
  JS.isDecDigit d = true ->
  JS.parseInt (JS.VStr (c :: d :: body))
  = if c =? 45 then Z.opp <$> JS.parseInt (JS.VStr (d :: body))
    else if c =? 43 then JS.parseInt (JS.VStr (d :: body))
    else JS.parseInt (JS.VStr (c :: d :: body)).
Proof.
  intros Hd.
  destruct (Z.eqb_spec c 45) as [->|H45];
    [|destruct (Z.eqb_spec c 43) as [->|H43]; [|reflexivity]].
  - unfold JS.parseInt. cbn [JS.ToString].
    rewrite (trimStart_start 45) by reflexivity.
    rewrite (trimStart_start d) by now apply isDecDigit_not_space.
    change (45 =? 45) with true. cbv iota.
    replace (d =? 45) with false by (unfold JS.isDecDigit in Hd; lia).
    replace (d =? 43) with false by (unfold JS.isDecDigit in Hd; lia).
    destruct body as [|c1 rest'];
      [|destruct ((d =? 48) && ((c1 =? 120) || (c1 =? 88)))];
      cbv beta iota zeta;
      (match goal with
       | |- context [JS.digitPrefix ?f ?s] => destruct (JS.digitPrefix f s)
       end;
       [reflexivity
       |cbn [fmap option_fmap option_map]; apply (f_equal Some); lia]).
  - unfold JS.parseInt. cbn [JS.ToString].
    rewrite (trimStart_start 43) by reflexivity.
    rewrite (trimStart_start d) by now apply isDecDigit_not_space.
    change (43 =? 45) with false. change (43 =? 43) with true. cbv iota.
    replace (d =? 45) with false by (unfold JS.isDecDigit in Hd; lia).
    replace (d =? 43) with false by (unfold JS.isDecDigit in Hd; lia).
    reflexivity.
Qed.

(** After a sign, a text that does not go on with a digit gives no
    number. *)
Lemma parseInt_sign_no_digit (c : Z) (body : jsstring) :
  c = 45 \/ c = 43 ->
  match body with d :: _ => JS.isDecDigit d = false | [] => True end ->
  JS.parseInt (JS.VStr (c :: body)) = None.
Proof.
  intros Hc Hbody. unfold JS.parseInt. cbn [JS.ToString].
  rewrite (trimStart_start c) by (destruct Hc; subst c; reflexivity).
  assert (Hsign : (if c =? 45 then (-1, body)
                   else if c =? 43 then (1, body) else (1, c :: body))
                  = (if c =? 45 then -1 else 1, body)).
  { destruct Hc; subst c; reflexivity. }
  rewrite Hsign. destruct body as [|d body]; [reflexivity|].
  assert (Hradix :
    match d :: body with
    | c0 :: c1 :: rest' =>
        if (c0 =? 48) && ((c1 =? 120) || (c1 =? 88))
        then (16, JS.isHexDigit, rest') else (10, JS.isDecDigit, d :: body)
    | _ => (10, JS.isDecDigit, d :: body)
    end = (10, JS.isDecDigit, d :: body)).
  { destruct body as [|c1 rest']; [reflexivity|].
    replace (d =? 48) with false; [reflexivity|].
    unfold JS.isDecDigit in Hbody. lia. }
  rewrite Hradix. cbn [JS.digitPrefix]. now rewrite Hbody.
Qed.

(** The readings of a text, put together: white space, one optional sign
    ([sigma] is -1 after a minus sign and 1 otherwise), then decimal digits,
    or hexadecimal digits after 0x or 0X, or no digit at all. *)
Lemma parseInt_text (ws sign : jsstring) (sigma : Z) :
  forallb JS.isWhiteSpace ws = true ->
  In (sign, sigma) [([], 1); ([43], 1); ([45], -1)] ->
  (forall ds rest,
     ds <> [] -> forallb JS.isDecDigit ds = true ->
     match rest with
     | c :: _ => JS.isDecDigit c = false
                 /\ (ds = [48] -> c <> 120 /\ c <> 88)
     | [] => True
     end ->
     JS.parseInt (JS.VStr (ws ++ sign ++ ds ++ rest))
     = Some (sigma * JS.digitsValue 10 ds))
  /\ (forall x hs rest,
     x = 120 \/ x = 88 ->
     hs <> [] -> forallb JS.isHexDigit hs = true ->
     match rest with c :: _ => JS.isHexDigit c = false | [] => True end ->
     JS.parseInt (JS.VStr (ws ++ sign ++ 48 :: x :: hs ++ rest))
     = Some (sigma * JS.digitsValue 16 hs))
  /\ (forall x rest,
     x = 120 \/ x = 88 ->
     match rest with c :: _ => JS.isHexDigit c = false | [] => True end ->
     JS.parseInt (JS.VStr (ws ++ sign ++ 48 :: x :: rest)) = None)
  /\ (forall rest,
     match rest with
     | c :: _ => JS.isDecDigit c = false
                 /\ (sign = [] -> JS.isWhiteSpace c = false
                                  /\ c <> 45 /\ c <> 43)
     | [] => True
     end ->
     JS.parseInt (JS.VStr (ws ++ sign ++ rest)) = None).
Proof.
  intros Hws Hsign.
  assert (Hread : forall d body,
    JS.isDecDigit d = true ->
    JS.parseInt (JS.VStr (ws ++ sign ++ d :: body))
    = (fun v => sigma * v) <$> JS.parseInt (JS.VStr (d :: body))).
  { intros d body Hd. rewrite parseInt_spaces by assumption.
    cbn [In] in Hsign.
    destruct Hsign as [[= <- <-]|[[= <- <-]|[[= <- <-]|[]]]]; cbn [app].
    - destruct (JS.parseInt _); [|reflexivity]. cbn.
      apply (f_equal Some). lia.
    - rewrite (parseInt_sign 43 d body Hd).
      change (43 =? 45) with false. change (43 =? 43) with true. cbv iota.
      destruct (JS.parseInt _); [|reflexivity]. cbn.
      apply (f_equal Some). lia.
    - rewrite (parseInt_sign 45 d body Hd).
      change (45 =? 45) with true. cbv iota.
      destruct (JS.parseInt _); [|reflexivity]. cbn.
      apply (f_equal Some). lia. }
  split; [|split; [|split]].
  - intros ds rest Hne Hall Hrest.
    destruct ds as [|d ds0] eqn:Hds; [contradiction|]. rewrite <- Hds in *.
    assert (Hd : JS.isDecDigit d = true).
    { rewrite Hds in Hall. cbn [forallb] in Hall.
      now apply andb_true_iff in Hall as [? _]. }
    replace (ws ++ sign ++ ds ++ rest)
      with (ws ++ sign ++ d :: (ds0 ++ rest)) by now rewrite Hds.
    rewrite (Hread d (ds0 ++ rest) Hd).
    change (d :: ds0 ++ rest) with ((d :: ds0) ++ rest). rewrite <- Hds.
    now rewrite (parseInt_decimal_prefix ds rest Hne Hall Hrest).
  - intros x hs rest Hx Hne Hall Hrest.
    rewrite (Hread 48 (x :: hs ++ rest) eq_refl).
    now rewrite (parseInt_hexadecimal_prefix x hs rest Hx Hne Hall Hrest).
  - intros x rest Hx Hrest.
    rewrite (Hread 48 (x :: rest) eq_refl).
    now rewrite (parseInt_hexadecimal_empty x rest Hx Hrest).
  - intros rest Hrest. rewrite parseInt_spaces by assumption.
    cbn [In] in Hsign.
    destruct Hsign as [[= <- <-]|[[= <- <-]|[[= <- <-]|[]]]]; cbn [app].
    + apply parseInt_no_digit. destruct rest as [|c rest']; [exact I|].
      destruct Hrest as [Hdigit Hplain].
      destruct (Hplain eq_refl) as (Hspace & H45 & H43).
      rewrite (trimStart_start c) by assumption. tauto.
    + apply parseInt_sign_no_digit; [now right|].
      destruct rest as [|c rest']; [exact I | apply Hrest].
    + apply parseInt_sign_no_digit; [now left|].
      destruct rest as [|c rest']; [exact I | apply Hrest].
Qed.

Ltac numeric_block Hraw :=
  unfold Filter.check_min_length, Filter.check_max_length,
    Filter.check_word_count;
  rewrite Hraw;
  match goal with
  | |- context [JS.parseInt ?raw] => destruct (JS.parseInt raw) as [num|]
  end;
  try match goal with
      | |- context [?num <? ?bound] => destruct (Z.ltb_spec num bound)
      end;
  cbn [fst snd Filter.push Filter.set_min_length Filter.set_max_length
       Filter.set_word_count Filter.min_length Filter.max_length
       Filter.word_count Filter.noFilters app];
  (split; [intros n; split|]);
  try (intros [= <-]; split; [reflexivity|lia]);
  try (intros [[= <-] Hn]; first [reflexivity | lia]);
  try (intros [[=] _]);
  try discriminate;
  try (intros _; now left).

Section NumericFacts.
Context {host : Host}.

Lemma check_min_length_result filters raw :
  filters !! "min_length"%string = Some raw ->
  let st := Filter.check_min_length filters (Filter.noFilters, []) in
  (forall n, Filter.min_length st.1 = Some n
             <-> JS.parseInt raw = Some n /\ 0 <= n)
  /\ (Filter.min_length st.1 = None -> In Filter.msgMinLength st.2).
Proof. intros Hraw. cbv zeta. numeric_block Hraw. Qed.

Lemma check_max_length_result filters raw :
  filters !! "max_length"%string = Some raw ->
  let st := Filter.check_max_length filters (Filter.noFilters, []) in
  (forall n, Filter.max_length st.1 = Some n
             <-> JS.parseInt raw = Some n /\ 0 <= n)
  /\ (Filter.max_length st.1 = None -> In Filter.msgMaxLength st.2).
Proof. intros Hraw. cbv zeta. numeric_block Hraw. Qed.

Lemma check_word_count_result filters raw :
  filters !! "word_count"%string = Some raw ->
  let st := Filter.check_word_count filters (Filter.noFilters, []) in
  (forall n, Filter.word_count st.1 = Some n
             <-> JS.parseInt raw = Some n /\ 1 <= n)
  /\ (Filter.word_count st.1 = None -> In Filter.msgWordCount st.2).
Proof. intros Hraw. cbv zeta. numeric_block Hraw. Qed.

End NumericFacts.

(** C3 (as the code has it).  For a raw [min_length], [max_length] or
    [word_count] that is read exactly (the number read from it is a safe
    integer, below 2^53 in magnitude), the coercion gives the integer [n]
    exactly when [parseInt] reads [n] from the raw value and [n] is not
    negative (at least 1 for [word_count]); otherwise the field gives its
    message and the compilation fails.  [parseInt] reads an integer, or a
    string made of an optional minus sign and decimal digits, as the integer
    it denotes, so on these the coercion is the one of the specification.
    More generally, after optional white space and one optional sign, it
    reads the decimal digits that the text starts with and ignores what
    follows them, except that after the prefix 0x or 0X it reads hexadecimal
    digits and reads nothing when there is none; a text with no digit at that
    place gives no number.  Compiling min_length "5" with is_palindrome
    "true" gives the typed filters 5 and true, and compiling min_length "-1"
    fails with the message that names min_length. *)
Theorem numeric_filter_coercion {host : Host}
  (data : list AnalysisRecord) (filters : gmap string JS.value) :
  let st := Filter.validate filters in
  let invalid :=
    Filter.filterData data filters
    = Filter.Invalid 400 "Invalid filter values in interpreted query" st.2 in
  (forall raw, filters !! "min_length"%string = Some raw -> JS.safe raw ->
     (forall n, Filter.min_length st.1 = Some n
                <-> JS.parseInt raw = Some n /\ 0 <= n)
     /\ (Filter.min_length st.1 = None ->
           In Filter.msgMinLength st.2 /\ invalid)
     /\ (forall m, Spec.denotedInteger raw = Some m ->
           Filter.min_length st.1 = Spec.coerceInteger 0 raw))
  /\ (forall raw, filters !! "max_length"%string = Some raw -> JS.safe raw ->
     (forall n, Filter.max_length st.1 = Some n
                <-> JS.parseInt raw = Some n /\ 0 <= n)
     /\ (Filter.max_length st.1 = None ->
           In Filter.msgMaxLength st.2 /\ invalid)
     /\ (forall m, Spec.denotedInteger raw = Some m ->
           Filter.max_length st.1 = Spec.coerceInteger 0 raw))
  /\ (forall raw, filters !! "word_count"%string = Some raw -> JS.safe raw ->
     (forall n, Filter.word_count st.1 = Some n
                <-> JS.parseInt raw = Some n /\ 1 <= n)
     /\ (Filter.word_count st.1 = None ->
           In Filter.msgWordCount st.2 /\ invalid)
     /\ (forall m, Spec.denotedInteger raw = Some m ->
           Filter.word_count st.1 = Spec.coerceInteger 1 raw))
  /\ (forall n, JS.safeInteger n -> JS.parseInt (JS.VNum n) = Some n)
  /\ (forall raw m, Spec.denotedInteger raw = Some m -> JS.safeInteger m ->
     JS.parseInt raw = Some m)
  /\ (forall ws sign sigma,
     forallb JS.isWhiteSpace ws = true ->
     In (sign, sigma) [([], 1); ([43], 1); ([45], -1)] ->
     (forall ds rest,
        ds <> [] -> forallb JS.isDecDigit ds = true ->
        match rest with
        | c :: _ => JS.isDecDigit c = false
                    /\ (ds = [48] -> c <> 120 /\ c <> 88)
        | [] => True
        end ->
        JS.safeInteger (JS.digitsValue 10 ds) ->
        JS.parseInt (JS.VStr (ws ++ sign ++ ds ++ rest))
        = Some (sigma * JS.digitsValue 10 ds))
     /\ (forall x hs rest,
        x = 120 \/ x = 88 ->
        hs <> [] -> forallb JS.isHexDigit hs = true ->
        match rest with c :: _ => JS.isHexDigit c = false | [] => True end ->
        JS.safeInteger (JS.digitsValue 16 hs) ->
        JS.parseInt (JS.VStr (ws ++ sign ++ 48 :: x :: hs ++ rest))
        = Some (sigma * JS.digitsValue 16 hs))
     /\ (forall x rest,
        x = 120 \/ x = 88 ->
        match rest with c :: _ => JS.isHexDigit c = false | [] => True end ->
        JS.parseInt (JS.VStr (ws ++ sign ++ 48 :: x :: rest)) = None)
     /\ (forall rest,
        match rest with
        | c :: _ => JS.isDecDigit c = false
                    /\ (sign = [] -> JS.isWhiteSpace c = false
                                     /\ c <> 45 /\ c <> 43)
        | [] => True
        end ->
        JS.parseInt (JS.VStr (ws ++ sign ++ rest)) = None))
  /\ Filter.filterData data
       (<[ "is_palindrome"%string := JS.VStr (js "true") ]>
          {[ "min_length"%string := JS.VStr (js "5") ]})
     = Filter.Filtered
         (Filter.applyFilters
            {| Filter.is_palindrome := Some true; Filter.min_length := Some 5;
               Filter.max_length := None; Filter.word_count := None;
               Filter.contains_character := None |} data)
         {| Filter.is_palindrome := Some true; Filter.min_length := Some 5;
            Filter.max_length := None; Filter.word_count := None;
            Filter.contains_character := None |}
  /\ Filter.filterData data {[ "min_length"%string := JS.VStr (js "-1") ]}
     = Filter.Invalid 400 "Invalid filter values in interpreted query"
                      [Filter.msgMinLength].
Proof.
  cbv zeta.
  assert (Hspec : forall bound raw m (typed : option Z),
    Spec.denotedInteger raw = Some m ->
    (forall n, typed = Some n <-> JS.parseInt raw = Some n /\ bound <= n) ->
    typed = Spec.coerceInteger bound raw).
  { intros bound raw m typed Hm Htyped. unfold Spec.coerceInteger.
    rewrite Hm. apply parseInt_denotedInteger in Hm.
    destruct (Z.leb_spec bound m) as [Hle|Hgt].
    - now apply Htyped.
    - destruct typed as [n|]; [|reflexivity].
      destruct (proj1 (Htyped n) eq_refl) as [Hn Hbound].
      rewrite Hm in Hn. injection Hn as <-. lia. }
  assert (Herr : forall msg, In msg (Filter.validate filters).2 ->
    In msg (Filter.validate filters).2
    /\ Filter.filterData data filters
       = Filter.Invalid 400 "Invalid filter values in interpreted query"
                        (Filter.validate filters).2).
  { intros msg Hin. split; [assumption|].
    now apply (validate_error_invalid data filters msg). }
  rewrite validate_min_length, validate_max_length, validate_word_count.
  split; [|split; [|split; [|split; [|split; [|split; [|split]]]]]].
  - intros raw Hraw _.
    destruct (check_min_length_result filters raw Hraw) as [Hiff Hnone].
    split; [exact Hiff|].
    split; [|intros m Hm; exact (Hspec 0 raw m _ Hm Hiff)].
    intros Hn%Hnone. apply Herr. rewrite validate_errors, !in_app_iff. tauto.
  - intros raw Hraw _.
    destruct (check_max_length_result filters raw Hraw) as [Hiff Hnone].
    split; [exact Hiff|].
    split; [|intros m Hm; exact (Hspec 0 raw m _ Hm Hiff)].
    intros Hn%Hnone. apply Herr. rewrite validate_errors, !in_app_iff. tauto.
  - intros raw Hraw _.
    destruct (check_word_count_result filters raw Hraw) as [Hiff Hnone].
    split; [exact Hiff|].
    split; [|intros m Hm; exact (Hspec 1 raw m _ Hm Hiff)].
    intros Hn%Hnone. apply Herr. rewrite validate_errors, !in_app_iff. tauto.
  - intros n _. apply parseInt_number.
  - intros raw m Hm _. now apply parseInt_denotedInteger.
  - intros ws sign sigma Hws Hsign.
    destruct (parseInt_text ws sign sigma Hws Hsign)
      as (Hdec & Hhex & Hempty & Hnone).
    split; [|split; [|split]].
    + intros ds rest Hne Hall Hrest _. now apply Hdec.
    + intros x hs rest Hx Hne Hall Hrest _. now apply Hhex.
    + exact Hempty.
    + exact Hnone.
  - reflexivity.
  - reflexivity.
Qed.

Lemma numeric_filter_coercion_witness :
  Filter.word_count
    (Filter.validate (host := asciiHost)
       {[ "word_count"%string := JS.VNum 2 ]}).1
  = Spec.coerceInteger 1 (JS.VNum 2).
Proof.
  refine (proj2 (proj2 (proj1 (proj2 (proj2
    (numeric_filter_coercion (host := asciiHost) []
       {[ "word_count"%string := JS.VNum 2 ]}))) (JS.VNum 2) _ _)) 2 _);
    [reflexivity | | reflexivity].
  intros n Hn. injection Hn as <-. unfold JS.safeInteger.
  split; reflexivity.
Defined.

(** C3 as the specification words it fails on a text that only starts with
    digits: "5abc" is neither an integer nor a numeric string, so the field
    should fail; the code compiles it to 5. *)
Lemma numeric_filter_prefix_counterexample :
  Spec.coerceInteger 0 (JS.VStr (js "5abc")) = None
  /\ Filter.min_length
       (Filter.validate (host := asciiHost)
          {[ "min_length"%string := JS.VStr (js "5abc") ]}).1
     = Some 5
  /\ Filter.filterData (host := asciiHost) []
       {[ "min_length"%string := JS.VStr (js "5abc") ]}
     = Filter.Filtered []
         {| Filter.is_palindrome := None; Filter.min_length := Some 5;
            Filter.max_length := None; Filter.word_count := None;
            Filter.contains_character := None |}.
Proof. repeat split. Qed.

(** ** Applying the filters *)

Lemma filter_filter {A} (f g : A -> bool) (l : list A) :
  List.filter g (List.filter f l) = List.filter (fun x => f x && g x) l.
Proof.
  induction l as [|x l IH]; [reflexivity|].
  cbn [List.filter]. destruct (f x); cbn [List.filter andb]; rewrite IH;
    reflexivity.
Qed.

Lemma filter_all {A} (f : A -> bool) (l : list A) :
  (forall x, f x = true) -> List.filter f l = l.
Proof.
  intros Hf. induction l as [|x l IH]; [reflexivity|].
  cbn [List.filter]. now rewrite Hf, IH.
Qed.

Lemma filter_sublist {A} (f : A -> bool) (l : list A) :
  sublist (List.filter f l) l.
Proof.
  induction l as [|x l IH]; [constructor|].
  cbn [List.filter]. destruct (f x); now constructor.
Qed.

Lemma hasKey_is_Some (m : gmap jsstring Z) (char : jsstring) :
  Filter.hasKey m char = bool_decide (is_Some (m !! char)).
Proof.
  unfold Filter.hasKey. destruct (m !! char) eqn:H.
  - symmetry. apply bool_decide_eq_true_2. eauto.
  - symmetry. apply bool_decide_eq_false_2. intros [? ?]. discriminate.
Qed.

(** The passes of [filterData] keep the records that pass every test that
    is set, in the order of the input. *)
Lemma applyFilters_filter typed data :
  Filter.applyFilters typed data = List.filter (Spec.satisfiesb typed) data.
Proof.
  unfold Filter.applyFilters, Spec.satisfiesb.
  destruct typed as [[b|] [n1|] [n2|] [n3|] [c|]];
    cbn [Filter.is_palindrome Filter.min_length Filter.max_length
         Filter.word_count Filter.contains_character Spec.whenSet];
    rewrite ?filter_filter;
    first [ apply filter_ext; intros r
          | symmetry; apply filter_all; intros r ];
    rewrite ?Z.geb_leb, ?hasKey_is_Some, ?andb_true_r, ?andb_assoc;
    reflexivity.
Qed.

Lemma satisfiesb_satisfies typed r :
  Spec.satisfiesb typed r = true <-> Spec.satisfies typed r.
Proof.
  unfold Spec.satisfiesb, Spec.satisfies.
  rewrite !andb_true_iff.
  destruct typed as [ob on1 on2 on3 oc];
    cbn [Filter.is_palindrome Filter.min_length Filter.max_length
         Filter.word_count Filter.contains_character].
  assert (Hopt : forall {A} (o : option A) (test : A -> bool) (P : A -> Prop),
    (forall a, test a = true <-> P a) ->
    (Spec.whenSet o test = true <-> forall a, o = Some a -> P a)).
  { intros A o test P Htest. destruct o as [a|]; cbn [Spec.whenSet].
    - rewrite Htest. split; [intros H a' [= <-]; exact H | auto].
    - split; [intros _ a [=] | reflexivity]. }
  rewrite (Hopt _ ob _ (fun b => Analyzer.is_palindrome (properties r) = b)),
    (Hopt _ on1 _ (fun n => Analyzer.length (properties r) >= n)),
    (Hopt _ on2 _ (fun n => Analyzer.length (properties r) <= n)),
    (Hopt _ on3 _ (fun n => Analyzer.word_count (properties r) = n)),
    (Hopt _ oc _ (fun c =>
       is_Some (Analyzer.character_frequency_map (properties r) !! c))).
  - tauto.
  - intros c. apply bool_decide_eq_true.
  - intros n. apply Z.eqb_eq.
  - intros n. apply Z.leb_le.
  - intros n. rewrite Z.leb_le. lia.
  - intros b. apply Bool.eqb_true_iff.
Qed.

Lemma run_bind {A B} model (m : Adapter.Prog A) (f : A -> Adapter.Prog B) :
  Adapter.run model (Adapter.bind m f)
  = Adapter.run model (f (Adapter.run model m)).
Proof. induction m as [a|q k IH]; [reflexivity|]. cbn. apply IH. Qed.

Section ReadOnly.
Context {host : Host}.

(** The handlers that list and filter leave the store as it is. *)
Lemma get_strings_store db filters : (Service.get_strings db filters).2 = db.
Proof.
  unfold Service.get_strings.
  destruct (Filter.filterData _ filters); reflexivity.
Qed.

Lemma filter_by_natural_language_store db userQuery model :
  (Adapter.run model (Service.filter_by_natural_language db userQuery)).2 = db.
Proof.
  unfold Service.filter_by_natural_language.
  destruct userQuery as [[|c q]|]; try reflexivity.
  rewrite run_bind. cbn [Adapter.run].
  destruct (Adapter.run model (Adapter.interpret (c :: q))) as [[| |]|parsed];
    try reflexivity.
  destruct (_ && _); [reflexivity|].
  destruct (Filter.filterData _ parsed); reflexivity.
Qed.

Lemma get_string_store db requestedHash :
  (Service.get_string db requestedHash).2 = db.
Proof.
  unfold Service.get_string. destruct (db !! requestedHash); [reflexivity|].
  destruct (existsb _ _); reflexivity.
Qed.

End ReadOnly.

(** C5.  For every sequence of records and every typed filter set, a record
    is in the result exactly when it is in the input and satisfies every
    predicate that is present: equal [is_palindrome], length at least
    [min_length], length at most [max_length], equal [word_count], and the
    character of [contains_character] a key of its frequency map.  The
    result is the input with the other records left out, so the order is
    kept.  The handlers that filter return the store unchanged, and a
    compilation without error gives a result, also when no record is
    left. *)
Theorem applyFilters_conjunction {host : Host}
  (data : list AnalysisRecord) (typed : Filter.TypedFilters) :
  (forall r, In r (Filter.applyFilters typed data)
             <-> In r data /\ Spec.satisfies typed r)
  /\ Filter.applyFilters typed data = List.filter (Spec.satisfiesb typed) data
  /\ sublist (Filter.applyFilters typed data) data
  /\ (forall filters, (Filter.validate filters).2 = [] ->
        Filter.filterData data filters
        = Filter.Filtered
            (Filter.applyFilters (Filter.validate filters).1 data)
            (Filter.validate filters).1)
  /\ (forall db filters, (Service.get_strings db filters).2 = db)
  /\ (forall db userQuery model,
        (Adapter.run model
           (Service.filter_by_natural_language db userQuery)).2 = db).
Proof.
  split; [|split; [|split; [|split; [|split]]]].
  - intros r. rewrite applyFilters_filter, filter_In, satisfiesb_satisfies.
    reflexivity.
  - apply applyFilters_filter.
  - rewrite applyFilters_filter. apply filter_sublist.
  - intros filters Herr. rewrite filterData_validate. now rewrite Herr.
  - apply get_strings_store.
  - apply filter_by_natural_language_store.
Qed.

Lemma applyFilters_conjunction_witness :
  Filter.filterData (host := asciiHost) []
    {[ "word_count"%string := JS.VStr (js "2") ]}
  = Filter.Filtered []
      {| Filter.is_palindrome := None; Filter.min_length := None;
         Filter.max_length := None; Filter.word_count := Some 2;
         Filter.contains_character := None |}.
Proof.
  refine (proj1 (proj2 (proj2 (proj2
    (applyFilters_conjunction (host := asciiHost) [] Filter.noFilters))))
    {[ "word_count"%string := JS.VStr (js "2") ]} _).
  reflexivity.
Defined.

(** ** The store *)

Arguments Sha256.sha256Hex : simpl never.

Section StoreFacts.
Context {host : Host}.

Lemma analyzeString_hash v :
  Analyzer.sha256_hash (Analyzer.analyzeStringBody v) = Sha256.sha256Hex v.
Proof. reflexivity. Qed.

(** What POST /strings does with a string: the outcome of the call on
    line 199 first, then the store. *)
Lemma post_strings_uncaught db now s :
  Scope.providesCreateHash = false ->
  exists error,
    Service.post_strings db now (Some (JS.VStr s))
    = ({| Service.status := 500; Service.body := Service.Uncaught error |},
       db).
Proof.
  intros Hnone. unfold Service.post_strings.
  rewrite analyzeString_call, Hnone. eauto.
Qed.

Lemma post_strings_conflict db now s r :
  Scope.providesCreateHash = true ->
  db !! Sha256.sha256Hex s = Some r ->
  Service.post_strings db now (Some (JS.VStr s))
  = ({| Service.status := 409;
        Service.body :=
          Service.ConflictBody "Conflict: String already exists in the system"
                               (Sha256.sha256Hex s) |}, db).
Proof.
  intros Hcall Hr. unfold Service.post_strings.
  rewrite analyzeString_call, Hcall, analyzeString_hash, Hr. reflexivity.
Qed.

Lemma post_strings_created db now s :
  Scope.providesCreateHash = true ->
  db !! Sha256.sha256Hex s = None ->
  let result := {| id := Sha256.sha256Hex s; value := s;
                   properties := Analyzer.analyzeStringBody s;
                   created_at := now |} in
  Service.post_strings db now (Some (JS.VStr s))
  = ({| Service.status := 201; Service.body := Service.RecordBody result |},
     <[ Sha256.sha256Hex s := result ]> db).
Proof.
  intros Hcall Hr. unfold Service.post_strings.
  rewrite analyzeString_call, Hcall, analyzeString_hash, Hr. reflexivity.
Qed.

(** A request that is not answered 201 leaves the store as it is. *)
Lemma post_strings_unchanged db now value :
  Service.status (Service.post_strings db now value).1 <> 201 ->
  (Service.post_strings db now value).2 = db.
Proof.
  destruct value as [[s|n|b|]|]; try reflexivity.
  destruct Scope.providesCreateHash eqn:Hcall.
  - destruct (db !! Sha256.sha256Hex s) as [r|] eqn:Hr.
    + now rewrite (post_strings_conflict db now s r Hcall Hr).
    + rewrite (post_strings_created db now s Hcall Hr). cbn. contradiction.
  - destruct (post_strings_uncaught db now s Hcall) as [error ->].
    reflexivity.
Qed.

(** What DELETE /strings/:stringValue does once the parameter is decoded. *)
Lemma delete_strings_uncaught db rawStringValue :
  Scope.providesCreateHash = false ->
  exists error,
    Service.delete_strings db rawStringValue
    = ({| Service.status := 500; Service.body := Service.Uncaught error |},
       db).
Proof.
  intros Hnone. unfold Service.delete_strings.
  destruct (decodeURIComponent rawStringValue) as [s|]; [|eauto].
  rewrite analyzeString_call, Hnone. eauto.
Qed.

Lemma delete_strings_decoded db rawStringValue s :
  Scope.providesCreateHash = true ->
  decodeURIComponent rawStringValue = Some s ->
  Service.delete_strings db rawStringValue
  = match db !! Sha256.sha256Hex s with
    | None =>
        ({| Service.status := 404;
            Service.body := Service.ErrorMessage
              "Not Found: String does not exist in the system" |}, db)
    | Some _ =>
        ({| Service.status := 204; Service.body := Service.EmptyBody |},
         delete (Sha256.sha256Hex s) db)
    end.
Proof.
  intros Hcall Hdecode. unfold Service.delete_strings.
  now rewrite Hdecode, analyzeString_call, Hcall, analyzeString_hash.
Qed.

Lemma storeInvariant_empty : Spec.storeInvariant ∅.
Proof. intros key r H. rewrite lookup_empty in H. discriminate. Qed.

Lemma post_strings_invariant db now value :
  Spec.storeInvariant db ->
  Spec.storeInvariant (Service.post_strings db now value).2.
Proof.
  intros Hinv. destruct value as [[s|n|b|]|]; try exact Hinv.
  destruct Scope.providesCreateHash eqn:Hcall.
  - destruct (db !! Sha256.sha256Hex s) as [r|] eqn:Hr.
    + now rewrite (post_strings_conflict db now s r Hcall Hr).
    + rewrite (post_strings_created db now s Hcall Hr). cbn [snd].
      intros key r. rewrite lookup_insert.
      destruct (decide (Sha256.sha256Hex s = key)) as [<-|Hne].
      * intros [= <-]. repeat split.
      * apply Hinv.
  - destruct (post_strings_uncaught db now s Hcall) as [error ->].
    exact Hinv.
Qed.

Lemma delete_strings_invariant db rawStringValue :
  Spec.storeInvariant db ->
  Spec.storeInvariant (Service.delete_strings db rawStringValue).2.
Proof.
  intros Hinv. destruct Scope.providesCreateHash eqn:Hcall.
  - destruct (decodeURIComponent rawStringValue) as [s|] eqn:Hdecode.
    + rewrite (delete_strings_decoded db rawStringValue s Hcall Hdecode).
      destruct (db !! Sha256.sha256Hex s); [|exact Hinv].
      cbn [snd]. intros key r. rewrite lookup_delete.
      destruct (decide (Sha256.sha256Hex s = key)); [discriminate|].
      apply Hinv.
    + unfold Service.delete_strings. rewrite Hdecode. exact Hinv.
  - destruct (delete_strings_uncaught db rawStringValue Hcall) as [error ->].
    exact Hinv.
Qed.

Lemma handle_invariant db req :
  Spec.storeInvariant db -> Spec.storeInvariant (Service.handle db req).2.
Proof.
  intros Hinv. destruct req as [now value|filters|q model|raw|hash];
    cbn [Service.handle].
  - now apply post_strings_invariant.
  - now rewrite get_strings_store.
  - now rewrite filter_by_natural_language_store.
  - now apply delete_strings_invariant.
  - now rewrite get_string_store.
Qed.

Lemma reachable_invariant db : Service.reachable db -> Spec.storeInvariant db.
Proof.
  induction 1 as [|db req Hreach IH].
  - apply storeInvariant_empty.
  - now apply handle_invariant.
Qed.

(** Without a [createHash] no request changes the store, which is empty
    for ever. *)
Lemma handle_without_createHash db req :
  Scope.providesCreateHash = false -> (Service.handle db req).2 = db.
Proof.
  intros Hnone. destruct req as [now value|filters|q model|raw|hash];
    cbn [Service.handle].
  - destruct value as [[s|n|b|]|]; try reflexivity.
    now destruct (post_strings_uncaught db now s Hnone) as [error ->].
  - apply get_strings_store.
  - apply filter_by_natural_language_store.
  - now destruct (delete_strings_uncaught db raw Hnone) as [error ->].
  - apply get_string_store.
Qed.

Lemma reachable_without_createHash db :
  Scope.providesCreateHash = false -> Service.reachable db -> db = ∅.
Proof.
  intros Hnone. induction 1 as [|db req Hreach IH]; [reflexivity|].
  now rewrite handle_without_createHash.
Qed.

(** Under the invariant a value is stored at most once. *)
Lemma storeInvariant_unique db key1 key2 r1 r2 :
  Spec.storeInvariant db ->
  db !! key1 = Some r1 -> db !! key2 = Some r2 -> value r1 = value r2 ->
  key1 = key2 /\ r1 = r2.
Proof.
  intros Hinv H1 H2 Hval.
  destruct (Hinv _ _ H1) as (Hk1 & Hid1 & _).
  destruct (Hinv _ _ H2) as (Hk2 & Hid2 & _).
  assert (key1 = key2) as <- by congruence.
  split; [reflexivity | congruence].
Qed.

End StoreFacts.

(** C6.  The invariant of the store holds in every store the service can
    reach from the empty one, in every runtime: each record is stored under
    its [id], which is the digest of its [value] (and its properties are the
    analysis of its [value]), and two records with the same [value] are the
    same entry.  POST /strings and DELETE /strings/:stringValue both
    preserve it.  In a runtime whose global [crypto] has no [createHash]
    both handlers end with the exception of line 51 and the store stays
    empty; in one that has it, POST stores a new string under its digest. *)
Theorem store_invariant {host : Host} (db : gmap jsstring AnalysisRecord) :
  (Service.reachable db -> Spec.storeInvariant db)
  /\ (Spec.storeInvariant db ->
      (forall now value,
         Spec.storeInvariant (Service.post_strings db now value).2)
      /\ (forall rawStringValue,
         Spec.storeInvariant (Service.delete_strings db rawStringValue).2)
      /\ (forall req, Spec.storeInvariant (Service.handle db req).2)
      /\ (forall key1 key2 r1 r2,
         db !! key1 = Some r1 -> db !! key2 = Some r2 ->
         value r1 = value r2 -> key1 = key2 /\ r1 = r2))
  /\ (Scope.providesCreateHash = false -> Service.reachable db -> db = ∅)
  /\ (Scope.providesCreateHash = true ->
      forall now s, db !! Sha256.sha256Hex s = None ->
        exists r,
          (Service.post_strings db now (Some (JS.VStr s))).2
            !! Sha256.sha256Hex s = Some r
          /\ value r = s /\ id r = Sha256.sha256Hex s).
Proof.
  split; [apply reachable_invariant|].
  split; [|split].
  - intros Hinv. split; [|split; [|split]].
    + intros. now apply post_strings_invariant.
    + intros. now apply delete_strings_invariant.
    + intros. now apply handle_invariant.
    + intros key1 key2 r1 r2. now apply storeInvariant_unique.
  - apply reachable_without_createHash.
  - intros Hcall now s Hfree.
    rewrite (post_strings_created db now s Hcall Hfree). cbn [snd].
    eexists. split; [apply lookup_insert_eq|]. split; reflexivity.
Qed.

Lemma store_invariant_witness :
  Spec.storeInvariant (host := asciiHost)
    (Service.handle (host := asciiHost) ∅
       (Service.PostString (js "t0") (Some (JS.VStr (js "racecar"))))).2
  /\ Spec.storeInvariant (host := cryptoHost)
       (Service.handle (host := cryptoHost) ∅
          (Service.PostString (js "t0") (Some (JS.VStr (js "racecar"))))).2.
Proof.
  split.
  - apply (proj1 (store_invariant (host := asciiHost) _)).
    apply Service.reachable_handle, Service.reachable_start.
  - apply (proj1 (store_invariant (host := cryptoHost) _)).
    apply Service.reachable_handle, Service.reachable_start.
Defined.

(** C7 (where the code departs from it).  In a runtime of Node.js the
    call of [analyzeString] on line 199 throws, so POST /strings answers 500
    to a string whatever the store holds: a second insert of the same string
    is answered 500 like the first, where the claim has it answered with
    Conflict, and nothing is stored.  Only in a runtime whose global
    [crypto] has a [createHash] does the handler reach line 202; there an
    insert whose content address is already a key answers 409 Conflict with
    that address, which is the [id] of the stored record, and leaves the
    store as it is, and after a first insert that stored the string the
    second answers Conflict with the [id] that the first returned. *)
Theorem insert_conflict {host : Host}
  (db : gmap jsstring AnalysisRecord) (now now' s : jsstring) :
  let conflict :=
    {| Service.status := 409;
       Service.body :=
         Service.ConflictBody "Conflict: String already exists in the system"
                              (Sha256.sha256Hex s) |} in
  let first := Service.post_strings db now (Some (JS.VStr s)) in
  let second := Service.post_strings first.2 now' (Some (JS.VStr s)) in
  (Scope.providesCreateHash = false ->
     Service.status first.1 = 500 /\ first.2 = db
     /\ Service.status second.1 = 500 /\ second.2 = db)
  /\ (Scope.providesCreateHash = true ->
      (forall r, db !! Sha256.sha256Hex s = Some r ->
         first = (conflict, db)
         /\ (Spec.storeInvariant db -> id r = Sha256.sha256Hex s))
      /\ (db !! Sha256.sha256Hex s = None ->
         exists r,
           first = ({| Service.status := 201;
                       Service.body := Service.RecordBody r |},
                    <[ Sha256.sha256Hex s := r ]> db)
           /\ id r = Sha256.sha256Hex s /\ value r = s)
      /\ second = (conflict, first.2))
  /\ (let posted :=
        Service.post_strings (host := asciiHost) ∅ now
          (Some (JS.VStr (js "abc"))) in
      posted
      = ({| Service.status := 500;
            Service.body := Service.Uncaught
              "TypeError: crypto.createHash is not a function" |}, ∅)
      /\ Service.post_strings (host := asciiHost) posted.2 now'
           (Some (JS.VStr (js "abc")))
         = ({| Service.status := 500;
               Service.body := Service.Uncaught
                 "TypeError: crypto.createHash is not a function" |}, ∅)).
Proof.
  cbv zeta. split; [|split].
  - intros Hnone.
    destruct (post_strings_uncaught db now s Hnone) as [error ->].
    cbn [fst snd Service.status].
    destruct (post_strings_uncaught db now' s Hnone) as [error' ->].
    repeat split.
  - intros Hcall. split; [|split].
    + intros r Hr.
      split; [exact (post_strings_conflict db now s r Hcall Hr)|].
      intros Hinv. now destruct (Hinv _ _ Hr) as (-> & _).
    + intros Hfree. rewrite (post_strings_created db now s Hcall Hfree).
      eexists. split; [reflexivity|]. split; reflexivity.
    + destruct (db !! Sha256.sha256Hex s) as [r|] eqn:Hr.
      * rewrite (post_strings_conflict db now s r Hcall Hr). cbn [snd].
        exact (post_strings_conflict db now' s r Hcall Hr).
      * rewrite (post_strings_created db now s Hcall Hr). cbn [snd].
        erewrite post_strings_conflict;
          [reflexivity | exact Hcall | apply lookup_insert_eq].
  - split; reflexivity.
Qed.

(** ** The natural-language adapter *)

Lemma startsWith_prefix t s :
  JS.startsWith t s = true <-> exists after, s = t ++ after.
Proof.
  revert s. induction t as [|a t IH]; intros s.
  - split; [intros _; now exists s | reflexivity].
  - destruct s as [|b s]; cbn [JS.startsWith].
    + split; [discriminate | intros [after [=]]].
    + rewrite andb_true_iff, Z.eqb_eq, IH. split.
      * intros [-> [after ->]]. now exists after.
      * intros [after [= -> ->]]. split; [reflexivity | now exists after].
Qed.

Lemma includes_contains s t : JS.includes s t = true <-> Spec.contains s t.
Proof.
  unfold Spec.contains. induction s as [|b s IH]; cbn [JS.includes].
  - rewrite orb_false_r, startsWith_prefix. split.
    + intros [after ->]. now exists [], after.
    + intros (before & after & H). symmetry in H.
      apply app_eq_nil in H as [-> H]. now exists after.
  - rewrite orb_true_iff, startsWith_prefix, IH. split.
    + intros [[after ->] | (before & after & ->)].
      * now exists [], after.
      * now exists (b :: before), after.
    + intros ([|b' before] & after & H).
      * left. now exists after.
      * right. injection H as -> ->. now exists before, after.
Qed.

Lemma includes_not_contains s t :
  JS.includes s t = false <-> ~ Spec.contains s t.
Proof. rewrite <- includes_contains. now destruct (JS.includes s t). Qed.

(** C8 (as the code has it).  With [LLM_DEBUG_MODE] set, the query is
    interpreted by three rules on the text as it was received, capitals
    included: a text that contains both "single word" and "palindromic" gives
    the raw filters word_count 1 and is_palindrome true; failing that, a text
    that contains "two words" gives word_count 2; any other text gives the
    empty map.  The language model is never called, neither by the
    interpretation nor by the handler as a whole. *)
Theorem interpret_debug_rules {host : Host} (userQuery : jsstring) :
  let both :=
    Spec.contains userQuery (js "single word")
    /\ Spec.contains userQuery (js "palindromic") in
  let two := Spec.contains userQuery (js "two words") in
  (both ->
     Adapter.interpret userQuery
     = Adapter.Done (inr (<[ "is_palindrome"%string := JS.VBool true ]>
                            {[ "word_count"%string := JS.VNum 1 ]})))
  /\ (~ both -> two ->
     Adapter.interpret userQuery
     = Adapter.Done (inr {[ "word_count"%string := JS.VNum 2 ]}))
  /\ (~ both -> ~ two -> Adapter.interpret userQuery = Adapter.Done (inr ∅))
  /\ (forall model, Adapter.calls model (Adapter.interpret userQuery) = O)
  /\ (forall db model,
        Adapter.calls model
          (Service.filter_by_natural_language db (Some userQuery)) = O).
Proof.
  cbv zeta. unfold Adapter.interpret. cbn [Adapter.LLM_DEBUG_MODE].
  rewrite <- !includes_contains.
  split; [|split; [|split; [|split]]].
  - intros [-> ->]. reflexivity.
  - intros Hboth ->.
    destruct (JS.includes userQuery (js "single word")),
      (JS.includes userQuery (js "palindromic")); try reflexivity.
    now destruct Hboth.
  - intros Hboth Htwo.
    destruct (JS.includes userQuery (js "single word")),
      (JS.includes userQuery (js "palindromic")),
      (JS.includes userQuery (js "two words")); try reflexivity;
      solve [now destruct Hboth | now destruct Htwo].
  - intros model.
    destruct (_ && _); [reflexivity|]. destruct (JS.includes _ _);
      reflexivity.
  - intros db model. unfold Service.filter_by_natural_language.
    destruct userQuery as [|c q]; [reflexivity|].
    unfold Adapter.interpret. cbn [Adapter.LLM_DEBUG_MODE].
    destruct (_ && _); [reflexivity|]. destruct (JS.includes _ _);
      reflexivity.
Qed.

Lemma interpret_debug_rules_witness :
  Adapter.interpret (js "all single word palindromic strings")
  = Adapter.Done (inr (<[ "is_palindrome"%string := JS.VBool true ]>
                         {[ "word_count"%string := JS.VNum 1 ]})).
Proof.
  apply (proj1 (interpret_debug_rules (host := asciiHost)
                  (js "all single word palindromic strings"))).
  split; apply includes_contains; vm_compute; reflexivity.
Defined.

(** C8 as the specification words it fails on capitals: the lower-casing of
    "Single Word, Palindromic" contains both phrases, and the code, which
    looks in the text as received, finds neither and gives the empty map. *)
Lemma interpret_case_counterexample :
  let userQuery := js "Single Word, Palindromic" in
  JS.includes (JS.toLowerCase (host := asciiHost) userQuery) (js "single word")
  = true
  /\ JS.includes (JS.toLowerCase (host := asciiHost) userQuery)
       (js "palindromic") = true
  /\ Adapter.interpret userQuery = Adapter.Done (inr ∅)
  /\ Adapter.interpret userQuery
     <> Adapter.Done (inr (<[ "is_palindrome"%string := JS.VBool true ]>
                             {[ "word_count"%string := JS.VNum 1 ]})).
Proof.
  cbv zeta. split; [reflexivity|]. split; [reflexivity|].
  split; [reflexivity|].
  intros H. apply (f_equal (fun p =>
    match p with
    | Adapter.Done (inr m) => m !! "word_count"%string
    | _ => None
    end)) in H.
  vm_compute in H. discriminate.
Qed.

(** ** A character filter that no record can match *)

Section CharacterKeys.
Context {host : Host}.

(** The keys of a frequency map are single characters of the class
    [a-z0-9]. *)
Lemma frequency_keys (v k : jsstring) :
  is_Some (Analyzer.character_frequency_map (Analyzer.analyzeStringBody v) !! k) ->
  exists d, k = [d] /\ JS.isLowerAlnum d = true.
Proof.
  cbn [Analyzer.analyzeStringBody Analyzer.character_frequency_map].
  rewrite countCharacters_lookup. unfold Spec.frequency.
  destruct k as [|d [|d' k']].
  - intros [? Hnone]. discriminate.
  - destruct (Z.eqb_spec (Spec.occurrences d (Analyzer.normalize v)) 0)
      as [|Hocc]; [intros [? Hnone]; discriminate|].
    intros _. exists d. split; [reflexivity|].
    destruct (decide (d ∈ Analyzer.normalize v)) as [Hin|Hnot].
    + apply list_elem_of_In in Hin.
      unfold Analyzer.normalize, JS.stripNonAlnum in Hin.
      now apply filter_In in Hin.
    + exfalso. apply Hocc. now apply occurrences_zero.
  - intros [? Hnone]. discriminate.
Qed.

(** A filter on a character outside that class keeps no record whose
    frequency map has its keys in the class. *)
Lemma applyFilters_no_match typed data char :
  Filter.contains_character typed = Some char ->
  (forall d, char = [d] -> JS.isLowerAlnum d = false) ->
  Forall (fun r => forall k,
            is_Some (Analyzer.character_frequency_map (properties r) !! k) ->
            exists d, k = [d] /\ JS.isLowerAlnum d = true) data ->
  Filter.applyFilters typed data = [].
Proof.
  intros Hchar Hclass Hdata. rewrite applyFilters_filter.
  induction Hdata as [|r data Hr Hdata IH]; [reflexivity|].
  cbn [List.filter]. rewrite IH.
  destruct (Spec.satisfiesb typed r) eqn:Hsat; [|reflexivity].
  apply satisfiesb_satisfies in Hsat.
  destruct Hsat as (_ & _ & _ & _ & Hkey).
  specialize (Hkey char Hchar).
  apply Hr in Hkey as (d & -> & Hd).
  rewrite (Hclass d eq_refl) in Hd. discriminate.
Qed.

Lemma objectValues_invariant db :
  Spec.storeInvariant db ->
  Forall (fun r => properties r = Analyzer.analyzeStringBody (value r))
         (Service.objectValues db).
Proof.
  intros Hinv. apply Forall_forall. intros r Hr.
  unfold Service.objectValues in Hr.
  apply list_elem_of_fmap in Hr as ([key r'] & -> & Hin).
  apply elem_of_map_to_list in Hin. now destruct (Hinv _ _ Hin) as (_ & _ & ?).
Qed.

Lemma objectValues_keys db :
  Service.reachable db ->
  Forall (fun r => forall k,
            is_Some (Analyzer.character_frequency_map (properties r) !! k) ->
            exists d, k = [d] /\ JS.isLowerAlnum d = true)
         (Service.objectValues db).
Proof.
  intros Hreach.
  pose proof (objectValues_invariant db (reachable_invariant db Hreach))
    as Hvalues.
  induction Hvalues as [|r data Hr Hdata IH]; constructor; [|exact IH].
  intros k. rewrite Hr. apply frequency_keys.
Qed.

End CharacterKeys.

(** C10 (as the code has it).  A raw [contains_character] whose string is
    exactly one character compiles, without any test of the character, to
    that character lower-cased: "!" compiles to "!".  Every key of the
    frequency map that [analyzeString] returns, and so of every stored
    record, is one character of the class a-z0-9.  So when the lower-cased
    character is not of that class, as for every raw ASCII character that
    is not a letter or digit, the filter keeps no record whose map has its
    keys in the class, and GET /strings answers with an empty list whatever
    the store holds. *)
Theorem single_character_filter {host : Host}
  (data : list AnalysisRecord) (raw : JS.value) (c : Z) :
  JS.ToString raw = [c] ->
  let filters : gmap string JS.value :=
    {[ "contains_character"%string := raw ]} in
  let typed :=
    {| Filter.is_palindrome := None; Filter.min_length := None;
       Filter.max_length := None; Filter.word_count := None;
       Filter.contains_character := Some (JS.toLowerCase [c]) |} in
  let outside :=
    forall d, JS.toLowerCase [c] = [d] -> JS.isLowerAlnum d = false in
  let keysInClass (p : Analyzer.Properties) :=
    forall k, is_Some (Analyzer.character_frequency_map p !! k) ->
              exists d, k = [d] /\ JS.isLowerAlnum d = true in
  Filter.validate filters = (typed, [])
  /\ Filter.filterData data filters
     = Filter.Filtered (Filter.applyFilters typed data) typed
  /\ Filter.validate {[ "contains_character"%string := JS.VStr (js "!") ]}
     = ({| Filter.is_palindrome := None; Filter.min_length := None;
           Filter.max_length := None; Filter.word_count := None;
           Filter.contains_character := Some (js "!") |}, [])
  /\ (forall v p, Scope.analyzeString v = Scope.Normal p -> keysInClass p)
  /\ (forall db, Service.reachable db ->
      Forall (fun r => keysInClass (properties r)) (Service.objectValues db))
  /\ (c < 128 -> Spec.isAsciiLetterOrDigit c = false -> outside)
  /\ (outside ->
      Forall (fun r => keysInClass (properties r)) data ->
      Filter.filterData data filters = Filter.Filtered [] typed)
  /\ (outside -> forall db, Service.reachable db ->
      Service.get_strings db filters
      = ({| Service.status := 200;
            Service.body := Service.ListBody [] 0 typed |}, db)).
Proof.
  intros Hraw. cbv zeta.
  assert (Hvalidate :
    Filter.validate {[ "contains_character"%string := raw ]}
    = ({| Filter.is_palindrome := None; Filter.min_length := None;
          Filter.max_length := None; Filter.word_count := None;
          Filter.contains_character := Some (JS.toLowerCase [c]) |}, [])).
  { unfold Filter.validate, Filter.check_word_count, Filter.check_max_length,
      Filter.check_min_length, Filter.check_is_palindrome.
    rewrite !lookup_singleton_ne by discriminate.
    unfold Filter.check_contains_character.
    rewrite lookup_singleton_eq, Hraw. reflexivity. }
  assert (Hfilter : forall data',
    Filter.filterData data' {[ "contains_character"%string := raw ]}
    = Filter.Filtered
        (Filter.applyFilters
           {| Filter.is_palindrome := None; Filter.min_length := None;
              Filter.max_length := None; Filter.word_count := None;
              Filter.contains_character := Some (JS.toLowerCase [c]) |} data')
        {| Filter.is_palindrome := None; Filter.min_length := None;
           Filter.max_length := None; Filter.word_count := None;
           Filter.contains_character := Some (JS.toLowerCase [c]) |}).
  { intros data'. rewrite filterData_validate, Hvalidate. reflexivity. }
  split; [exact Hvalidate|]. split; [apply Hfilter|].
  split; [reflexivity|].
  split; [intros v p Hp k; apply analyzeString_returns in Hp as [_ ->];
          apply frequency_keys|].
  split; [apply objectValues_keys|].
  split; [|split].
  - intros Hascii Hclass d.
    unfold JS.toLowerCase, JS.lowerUnit. cbn [flat_map].
    destruct ((65 <=? c) && (c <=? 90)) eqn:Hcap.
    + unfold Spec.isAsciiLetterOrDigit in Hclass. lia.
    + replace (c <? 128) with true by lia. cbn [app]. intros [= <-].
      unfold Spec.isAsciiLetterOrDigit in Hclass. unfold JS.isLowerAlnum. lia.
  - intros Hout Hdata. rewrite Hfilter.
    now rewrite (applyFilters_no_match _ data (JS.toLowerCase [c])).
  - intros Hout db Hreach. unfold Service.get_strings. rewrite Hfilter.
    rewrite (applyFilters_no_match _ _ (JS.toLowerCase [c]));
      try reflexivity; try assumption.
    now apply objectValues_keys.
Qed.

Lemma single_character_filter_witness :
  let db := (Service.handle (host := cryptoHost) ∅
               (Service.PostString (js "t0")
                  (Some (JS.VStr (js "wow!"))))).2 in
  size db = 1%nat
  /\ Service.get_strings (host := cryptoHost) db
       {[ "contains_character"%string := JS.VStr (js "!") ]}
     = ({| Service.status := 200;
           Service.body :=
             Service.ListBody [] 0
               {| Filter.is_palindrome := None; Filter.min_length := None;
                  Filter.max_length := None; Filter.word_count := None;
                  Filter.contains_character := Some (js "!") |} |}, db).
Proof.
  cbv zeta. split; [vm_compute; reflexivity|].
  refine (proj2 (proj2 (proj2 (proj2 (proj2 (proj2 (proj2
    (single_character_filter (host := cryptoHost) [] (JS.VStr (js "!")) 33
       _)))))))
    _ _ _).
  - reflexivity.
  - intros d [= <-]. reflexivity.
  - apply Service.reachable_handle, Service.reachable_start.
Defined.

(** C10 as the specification words it fails on a character outside ASCII
    whose lower-casing is an ASCII letter.  The Kelvin sign U+212A is one
    character and not ASCII alphanumeric; the single-character path
    lower-cases it to "k", and the filter then keeps a record of "kayak",
    whose frequency map has the keys k, a and y only. *)
Lemma single_character_kelvin_counterexample :
  let kayak :=
    {| id := Sha256.sha256Hex (js "kayak"); value := js "kayak";
       properties :=
         {| Analyzer.length := 5; Analyzer.is_palindrome := true;
            Analyzer.unique_characters := 3; Analyzer.word_count := 1;
            Analyzer.sha256_hash := Sha256.sha256Hex (js "kayak");
            Analyzer.character_frequency_map :=
              <[ js "k" := 2 ]> (<[ js "a" := 2 ]> {[ js "y" := 1 ]}) |};
       created_at := js "2025-10-21T00:00:00.000Z" |} in
  let raw := JS.VStr [0x212A] in
  List.length (JS.ToString raw) = 1%nat
  /\ Spec.isAsciiLetterOrDigit 0x212A = false
  /\ properties kayak
     = Analyzer.analyzeStringBody (host := kelvinHost) (js "kayak")
  /\ (forall k,
        is_Some (Analyzer.character_frequency_map (properties kayak) !! k) ->
        exists d, k = [d] /\ JS.isLowerAlnum d = true)
  /\ Filter.filterData (host := kelvinHost) [kayak]
       {[ "contains_character"%string := raw ]}
     = Filter.Filtered [kayak]
         {| Filter.is_palindrome := None; Filter.min_length := None;
            Filter.max_length := None; Filter.word_count := None;
            Filter.contains_character := Some (js "k") |}
  /\ Filter.filterData (host := kelvinHost) [kayak]
       {[ "contains_character"%string := raw ]}
     <> Filter.Filtered []
          {| Filter.is_palindrome := None; Filter.min_length := None;
             Filter.max_length := None; Filter.word_count := None;
             Filter.contains_character := Some (js "k") |}.
Proof.
  cbv zeta.
  assert (Hprops :
    {| Analyzer.length := 5; Analyzer.is_palindrome := true;
       Analyzer.unique_characters := 3; Analyzer.word_count := 1;
       Analyzer.sha256_hash := Sha256.sha256Hex (js "kayak");
       Analyzer.character_frequency_map :=
         <[ js "k" := 2 ]> (<[ js "a" := 2 ]> {[ js "y" := 1 ]}) |}
    = Analyzer.analyzeStringBody (host := kelvinHost) (js "kayak"))
    by (vm_compute; reflexivity).
  split; [reflexivity|]. split; [reflexivity|].
  split; [exact Hprops|].
  split; [cbn [properties]; rewrite Hprops; apply frequency_keys|].
  assert (Hresult :
    Filter.filterData (host := kelvinHost)
      [{| id := Sha256.sha256Hex (js "kayak"); value := js "kayak";
          properties :=
            {| Analyzer.length := 5; Analyzer.is_palindrome := true;
               Analyzer.unique_characters := 3; Analyzer.word_count := 1;
               Analyzer.sha256_hash := Sha256.sha256Hex (js "kayak");
               Analyzer.character_frequency_map :=
                 <[ js "k" := 2 ]> (<[ js "a" := 2 ]> {[ js "y" := 1 ]}) |};
          created_at := js "2025-10-21T00:00:00.000Z" |}]
      {[ "contains_character"%string := JS.VStr [0x212A] ]}
    = Filter.Filtered
        [{| id := Sha256.sha256Hex (js "kayak"); value := js "kayak";
            properties :=
              {| Analyzer.length := 5; Analyzer.is_palindrome := true;
                 Analyzer.unique_characters := 3; Analyzer.word_count := 1;
                 Analyzer.sha256_hash := Sha256.sha256Hex (js "kayak");
                 Analyzer.character_frequency_map :=
                   <[ js "k" := 2 ]> (<[ js "a" := 2 ]> {[ js "y" := 1 ]}) |};
            created_at := js "2025-10-21T00:00:00.000Z" |}]
        {| Filter.is_palindrome := None; Filter.min_length := None;
           Filter.max_length := None; Filter.word_count := None;
           Filter.contains_character := Some (js "k") |}).
  { vm_compute. reflexivity. }
  split; [exact Hresult|]. rewrite Hresult. discriminate.
Qed.

(** ** The digest and the call of the analysis *)

Lemma hexWord_length x : List.length (Sha256.hexWord x) = 8%nat.
Proof. reflexivity. Qed.

(** The digest is printed on 64 characters. *)
Lemma sha256Hex_length s : List.length (Sha256.sha256Hex s) = 64%nat.
Proof.
  unfold Sha256.sha256Hex, Sha256.digestWords. cbv zeta.
  cbn [flat_map]. rewrite !length_app, !hexWord_length. reflexivity.
Qed.

(** The digests of the empty string and of "abc" are those of FIPS 180-4. *)
Lemma sha256Hex_vectors :
  Sha256.sha256Hex []
  = js "e3b0c44298fc1c149afbf4c8996fb92427ae41e4649b934ca495991b7852b855"
  /\ Sha256.sha256Hex (js "abc")
     = js "ba7816bf8f01cfea414140de5dae2223b00361a396177a9cb410ff61f20015ad".
Proof. split; vm_compute; reflexivity. Qed.

(** C9 (where the code departs from it).  The body of [analyzeString] is a
    total function of the string, and its digest is the SHA-256 of the UTF-8
    bytes on 64 hexadecimal digits.  But server.js never binds [crypto]: in
    a runtime without a global of that name the call throws a
    ReferenceError, and in one whose global [crypto] is the Web Crypto
    object it throws a TypeError, for every string, the empty one and "abc"
    included. *)
Theorem analyzeString_call_throws {host : Host} (value : jsstring) :
  Scope.analyzeStringCall None value
  = Scope.Throw "ReferenceError: crypto is not defined"
  /\ Scope.analyzeStringCall (Some Scope.webCrypto) value
     = Scope.Throw "TypeError: crypto.createHash is not a function"
  /\ Analyzer.sha256_hash (Analyzer.analyzeStringBody value)
     = Sha256.sha256Hex value
  /\ List.length (Analyzer.sha256_hash (Analyzer.analyzeStringBody value))
     = 64%nat.
Proof.
  split; [reflexivity|]. split; [reflexivity|]. split; [reflexivity|].
  apply sha256Hex_length.
Qed.

(** ** The examples of the specification (section 8) *)

Section Examples.
Context {host : Host}.

Example panama_is_palindrome :
  Analyzer.is_palindrome
    (Analyzer.analyzeStringBody (js "A man, a plan, a canal: Panama")) = true.
Proof. vm_compute. reflexivity. Qed.

Example hello_is_not_palindrome :
  Analyzer.is_palindrome (Analyzer.analyzeStringBody (js "hello")) = false.
Proof. vm_compute. reflexivity. Qed.

Example panama_counts :
  let p := Analyzer.analyzeStringBody (js "A man, a plan, a canal: Panama") in
  Analyzer.length p = 30 /\ Analyzer.word_count p = 7
  /\ Analyzer.unique_characters p = 6
  /\ Analyzer.character_frequency_map p !! js "a" = Some 10
  /\ Analyzer.character_frequency_map p !! js "A" = None.
Proof. vm_compute. repeat split. Qed.

End Examples.

(** In a runtime of Node.js the insertion of "racecar" is answered 500 and
    the listing stays empty. *)
Example racecar_uncaught :
  let posted := Service.post_strings (host := asciiHost) ∅
                  (js "2025-10-21T00:00:00.000Z")
                  (Some (JS.VStr (js "racecar"))) in
  Service.status posted.1 = 500
  /\ posted.2 = ∅
  /\ (Service.get_strings (host := asciiHost) posted.2 ∅).1
     = {| Service.status := 200;
          Service.body := Service.ListBody [] 0 Filter.noFilters |}.
Proof. vm_compute. repeat split. Qed.

(** In a runtime that provides [createHash]: after the insertion of
    "racecar", the filter is_palindrome true with word_count 1 returns that
    record alone and the filter word_count 2 returns nothing. *)
Example racecar_end_to_end :
  let db := (Service.post_strings (host := cryptoHost) ∅
               (js "2025-10-21T00:00:00.000Z")
               (Some (JS.VStr (js "racecar")))).2 in
  (exists r typed,
     (Service.get_strings (host := cryptoHost) db
        (<[ "is_palindrome"%string := JS.VStr (js "true") ]>
           {[ "word_count"%string := JS.VStr (js "1") ]})).1
     = {| Service.status := 200;
          Service.body := Service.ListBody [r] 1 typed |}
     /\ value r = js "racecar")
  /\ (exists typed,
     (Service.get_strings (host := cryptoHost) db
        {[ "word_count"%string := JS.VStr (js "2") ]}).1
     = {| Service.status := 200;
          Service.body := Service.ListBody [] 0 typed |}).
Proof.
  vm_compute. split.
  - eexists. eexists. split; reflexivity.
  - eexists. reflexivity.
Qed.

(** There, deleting a value that is not stored answers 404, and so does
    deleting it again after a successful deletion. *)
Example delete_twice :
  let db := (Service.post_strings (host := cryptoHost) ∅ (js "t0")
               (Some (JS.VStr (js "racecar")))).2 in
  let first := Service.delete_strings (host := cryptoHost) db (js "racecar") in
  Service.status first.1 = 204
  /\ Service.status
       (Service.delete_strings (host := cryptoHost) first.2 (js "racecar")).1
     = 404
  /\ Service.status
       (Service.delete_strings (host := cryptoHost) ∅ (js "kayak")).1 = 404.
Proof. vm_compute. repeat split. Qed.
(** * Further properties of the code *)

(** ** The retry loop *)

Lemma loop_spec fetch maxRetries fuel i :
  0 <= i -> Z.of_nat fuel = maxRetries - i -> (0 < fuel)%nat ->
  exists n : nat,
    (0 < n <= fuel)%nat
    /\ (Backoff.loop fuel fetch maxRetries i).2 = Backoff.calls n i
    /\ (forall j, i <= j < i + Z.of_nat n - 1 ->
          Backoff.retryable (fetch j) = true)
    /\ (Backoff.loop fuel fetch maxRetries i).1
       = match fetch (i + Z.of_nat n - 1) with
         | Backoff.Responded response => Backoff.Return (Some response)
         | Backoff.Failed error => Backoff.Throw error
         end
    /\ (Backoff.retryable (fetch (i + Z.of_nat n - 1)) = true -> n = fuel).
Proof.
  revert i. induction fuel as [|fuel IH]; intros i Hi Hfuel Hpos; [lia|].
  cbn [Backoff.loop].
  destruct (Z.ltb_spec i maxRetries) as [Hlt|]; [|lia].
  destruct (Z.ltb_spec i (maxRetries - 1)) as [Hmore|Hlast].
  - assert (Hfuel' : Z.of_nat fuel = maxRetries - (i + 1)) by lia.
    assert (Hpos' : (0 < fuel)%nat) by lia.
    destruct (IH (i + 1) ltac:(lia) Hfuel' Hpos')
      as (n & Hn & Hev & Hretry & Hres & Hfull).
    assert (Hshape : forall k, (0 < k)%nat ->
      Backoff.Fetch i :: Backoff.Pause i (2 ^ i * 1000)
        :: Backoff.calls k (i + 1) = Backoff.calls (S k) i).
    { intros [|k] Hk; [lia | reflexivity]. }
    destruct (Backoff.retryable (fetch i)) eqn:Hri.
    + exists (S n).
      replace (i + Z.of_nat (S n) - 1) with (i + 1 + Z.of_nat n - 1) by lia.
      destruct (Backoff.loop fuel fetch maxRetries (i + 1)) as [res evs].
      cbn [fst snd] in *.
      destruct (fetch i) as [response|error] eqn:Hfi.
      * cbn [Backoff.retryable] in Hri. rewrite Hri. cbn [fst snd].
        split; [lia|]. split; [rewrite Hev; apply Hshape; lia|].
        split.
        { intros j Hj. destruct (Z.eq_dec j i) as [->|];
            [rewrite Hfi; exact Hri | apply Hretry; lia]. }
        split; [exact Hres|]. intros H. specialize (Hfull H). lia.
      * cbn [fst snd].
        split; [lia|]. split; [rewrite Hev; apply Hshape; lia|].
        split.
        { intros j Hj. destruct (Z.eq_dec j i) as [->|];
            [rewrite Hfi; reflexivity | apply Hretry; lia]. }
        split; [exact Hres|]. intros H. specialize (Hfull H). lia.
    + exists 1%nat. replace (i + Z.of_nat 1 - 1) with i by lia.
      destruct (fetch i) as [response|error]; [|discriminate].
      cbn [Backoff.retryable] in Hri. rewrite Hri. cbn [fst snd].
      split; [lia|]. split; [reflexivity|].
      split; [intros j Hj; lia|]. split; [reflexivity|].
      cbn [Backoff.retryable]. rewrite Hri. discriminate.
  - exists 1%nat. replace (i + Z.of_nat 1 - 1) with i by lia.
    assert (fuel = O) as -> by lia.
    destruct (fetch i) as [response|error].
    + destruct (Backoff.status response =? 429); cbn [fst snd];
        (split; [lia|]); (split; [reflexivity|]);
        (split; [intros j Hj; lia|]); (split; [reflexivity|]); reflexivity.
    + cbn [fst snd]. split; [lia|]. split; [reflexivity|].
      split; [intros j Hj; lia|]. split; reflexivity.
Qed.

Lemma leastWait_calls n i :
  0 <= i -> (0 < n)%nat ->
  Backoff.leastWait (Backoff.calls n i)
  = (2 ^ (i + Z.of_nat n - 1) - 2 ^ i) * 1000.
Proof.
  revert i. induction n as [|n IH]; intros i Hi Hn; [lia|].
  destruct n as [|n].
  - change (Backoff.leastWait (Backoff.calls 1 i)) with 0.
    replace (i + Z.of_nat 1 - 1) with i by lia. lia.
  - change (Backoff.calls (S (S n)) i)
      with (Backoff.Fetch i :: Backoff.Pause i (2 ^ i * 1000)
              :: Backoff.calls (S n) (i + 1)).
    cbn [Backoff.leastWait fold_right].
    change (fold_right _ 0 (Backoff.calls (S n) (i + 1)))
      with (Backoff.leastWait (Backoff.calls (S n) (i + 1))).
    rewrite IH by lia.
    replace (i + 1 + Z.of_nat (S n) - 1) with (i + Z.of_nat (S (S n)) - 1)
      by lia.
    rewrite (Z.pow_add_r 2 i 1) by lia. change (2 ^ 1) with 2. lia.
Qed.

(** X1.  [fetchWithBackoff] with no retry allowed makes no call and returns
    nothing.  With [maxRetries] at least 1 it calls [fetch] at least once
    and at most [maxRetries] times, in iterations 0, 1, 2, ..., pausing
    after each call but the last; the pause after iteration [i] lasts at
    least 2^i seconds, so that the pauses of [n] calls add up to at least
    (2^(n-1) - 1) seconds and the function never waits for more than
    [maxRetries - 1] pauses. *)
Theorem fetchWithBackoff_effort (fetch : Z -> Backoff.Outcome)
  (maxRetries : Z) :
  (maxRetries <= 0 ->
     Backoff.fetchWithBackoff fetch maxRetries = (Backoff.Return None, []))
  /\ (1 <= maxRetries ->
      exists n : nat,
        1 <= Z.of_nat n <= maxRetries
        /\ (Backoff.fetchWithBackoff fetch maxRetries).2 = Backoff.calls n 0
        /\ Backoff.leastWait (Backoff.fetchWithBackoff fetch maxRetries).2
           = (2 ^ (Z.of_nat n - 1) - 1) * 1000
        /\ Backoff.leastWait (Backoff.fetchWithBackoff fetch maxRetries).2
           <= (2 ^ (maxRetries - 1) - 1) * 1000).
Proof.
  unfold Backoff.fetchWithBackoff. split.
  - intros Hmax. replace (Z.to_nat maxRetries) with O by lia. reflexivity.
  - intros Hmax.
    destruct (loop_spec fetch maxRetries (Z.to_nat maxRetries) 0)
      as (n & Hn & Hev & _); try lia.
    exists n. split; [lia|]. split; [exact Hev|].
    rewrite Hev, leastWait_calls by lia.
    replace (0 + Z.of_nat n - 1) with (Z.of_nat n - 1) by lia.
    split; [reflexivity|].
    assert (2 ^ (Z.of_nat n - 1) <= 2 ^ (maxRetries - 1))
      by (apply Z.pow_le_mono_r; lia).
    lia.
Qed.

Lemma fetchWithBackoff_effort_witness :
  exists n : nat,
    1 <= Z.of_nat n <= 5
    /\ (Backoff.fetchWithBackoff
          (fun i => if i <? 2 then Backoff.Failed (js "ECONNRESET")
                    else Backoff.Responded
                           {| Backoff.status := 200;
                              Backoff.payload := js "{}" |}) 5).2
       = Backoff.calls n 0
    /\ Backoff.leastWait
         (Backoff.fetchWithBackoff
            (fun i => if i <? 2 then Backoff.Failed (js "ECONNRESET")
                      else Backoff.Responded
                             {| Backoff.status := 200;
                                Backoff.payload := js "{}" |}) 5).2
       = (2 ^ (Z.of_nat n - 1) - 1) * 1000
    /\ Backoff.leastWait
         (Backoff.fetchWithBackoff
            (fun i => if i <? 2 then Backoff.Failed (js "ECONNRESET")
                      else Backoff.Responded
                             {| Backoff.status := 200;
                                Backoff.payload := js "{}" |}) 5).2
       <= (2 ^ (5 - 1) - 1) * 1000.
Proof.
  apply (proj2 (fetchWithBackoff_effort _ 5)). lia.
Defined.

(** X2.  [fetchWithBackoff] returns the first response whose status is not
    429, right after the call that gave it: if the calls of the iterations
    before [k] all threw or answered 429 and the call of iteration [k]
    answers otherwise, that response is returned after [k + 1] calls.  If
    every call up to the last allowed one threw or answered 429, all
    [maxRetries] calls are made and the last outcome stands: the 429
    response is returned, or the exception is thrown. *)
Theorem fetchWithBackoff_result (fetch : Z -> Backoff.Outcome)
  (maxRetries k : Z) :
  0 <= k < maxRetries ->
  (forall j, 0 <= j < k -> Backoff.retryable (fetch j) = true) ->
  (Backoff.retryable (fetch k) = false ->
     exists response,
       fetch k = Backoff.Responded response
       /\ Backoff.fetchWithBackoff fetch maxRetries
          = (Backoff.Return (Some response),
             Backoff.calls (Z.to_nat (k + 1)) 0))
  /\ (k = maxRetries - 1 ->
      Backoff.fetchWithBackoff fetch maxRetries
      = (match fetch k with
         | Backoff.Responded response => Backoff.Return (Some response)
         | Backoff.Failed error => Backoff.Throw error
         end, Backoff.calls (Z.to_nat maxRetries) 0)).
Proof.
  intros Hk Hbefore. unfold Backoff.fetchWithBackoff.
  destruct (loop_spec fetch maxRetries (Z.to_nat maxRetries) 0)
    as (n & Hn & Hev & Hretry & Hres & Hfull); try lia.
  replace (0 + Z.of_nat n - 1) with (Z.of_nat n - 1) in * by lia.
  destruct (Backoff.loop (Z.to_nat maxRetries) fetch maxRetries 0)
    as [res evs]. cbn [fst snd] in *. subst res evs.
  split.
  - intros Hstop.
    assert (Z.of_nat n - 1 = k) as Hnk.
    { destruct (Z.lt_trichotomy (Z.of_nat n - 1) k) as [Hlt|[Heq|Hgt]].
      - specialize (Hfull (Hbefore (Z.of_nat n - 1) ltac:(lia))). lia.
      - exact Heq.
      - rewrite (Hretry k ltac:(lia)) in Hstop. discriminate. }
    rewrite Hnk. replace (Z.to_nat (k + 1)) with n by lia.
    destruct (fetch k) as [response|error]; [|discriminate].
    exists response. split; reflexivity.
  - intros Hlast.
    assert (Z.of_nat n - 1 = k) as Hnk.
    { destruct (Z.lt_trichotomy (Z.of_nat n - 1) k) as [Hlt|[Heq|Hgt]].
      - specialize (Hfull (Hbefore (Z.of_nat n - 1) ltac:(lia))). lia.
      - exact Heq.
      - lia. }
    rewrite Hnk. replace (Z.to_nat maxRetries) with n by lia. reflexivity.
Qed.

Lemma fetchWithBackoff_result_witness :
  Backoff.fetchWithBackoff
    (fun _ => Backoff.Responded
                {| Backoff.status := 429; Backoff.payload := [] |}) 3
  = (Backoff.Return
       (Some {| Backoff.status := 429; Backoff.payload := [] |}),
     Backoff.calls 3 0).
Proof.
  refine (proj2 (fetchWithBackoff_result _ 3 2 _ _) _).
  - lia.
  - intros j Hj. reflexivity.
  - reflexivity.
Defined.

(** ** Further properties of the analysis *)

Section AnalysisFacts.
Context {host : Host}.

Lemma word_count_code (v : jsstring) :
  Analyzer.word_count (Analyzer.analyzeStringBody v)
  = Z.of_nat (Spec.tokenStarts true v).
Proof.
  cbn [Analyzer.analyzeStringBody Analyzer.word_count]. unfold JS.splitWs.
  rewrite splitWsFrom_count by discriminate. reflexivity.
Qed.

(** The palindrome test, the frequency map and the number of its keys are
    read off the normalized string. *)
Lemma analyzeString_normalize (v w : jsstring) :
  Analyzer.normalize v = Analyzer.normalize w ->
  Analyzer.is_palindrome (Analyzer.analyzeStringBody v)
  = Analyzer.is_palindrome (Analyzer.analyzeStringBody w)
  /\ Analyzer.character_frequency_map (Analyzer.analyzeStringBody v)
     = Analyzer.character_frequency_map (Analyzer.analyzeStringBody w)
  /\ Analyzer.unique_characters (Analyzer.analyzeStringBody v)
     = Analyzer.unique_characters (Analyzer.analyzeStringBody w).
Proof.
  intros Hn. unfold Analyzer.analyzeStringBody.
  cbn [Analyzer.is_palindrome Analyzer.character_frequency_map
       Analyzer.unique_characters].
  rewrite Hn. repeat split.
Qed.

Lemma toLowerCase_app (a b : jsstring) :
  JS.toLowerCase (a ++ b) = JS.toLowerCase a ++ JS.toLowerCase b.
Proof. unfold JS.toLowerCase. apply flat_map_app. Qed.

Lemma normalize_app (a b : jsstring) :
  Analyzer.normalize (a ++ b) = Analyzer.normalize a ++ Analyzer.normalize b.
Proof.
  unfold Analyzer.normalize, JS.stripNonAlnum.
  now rewrite toLowerCase_app, List.filter_app.
Qed.

Lemma normalize_cons (c : Z) (b : jsstring) :
  Analyzer.normalize (c :: b) = Analyzer.normalize [c] ++ Analyzer.normalize b.
Proof. apply (normalize_app [c] b). Qed.

(** An ASCII character that is no letter and no digit leaves no trace in
    the normalized string. *)
Lemma normalize_other (c : Z) :
  c < 128 -> Spec.isAsciiLetterOrDigit c = false -> Analyzer.normalize [c] = [].
Proof.
  intros Hc Hclass. unfold Analyzer.normalize, JS.stripNonAlnum,
    JS.toLowerCase, JS.lowerUnit. cbn [flat_map].
  unfold Spec.isAsciiLetterOrDigit in Hclass.
  replace ((65 <=? c) && (c <=? 90)) with false by lia.
  replace (c <? 128) with true by lia.
  cbn [app List.filter]. unfold JS.isLowerAlnum.
  replace ((97 <=? c) && (c <=? 122) || (48 <=? c) && (c <=? 57))
    with false by lia.
  reflexivity.
Qed.

(** A capital and its small letter are normalized alike. *)
Lemma normalize_capital (c : Z) :
  65 <= c <= 90 -> Analyzer.normalize [c] = Analyzer.normalize [c + 32].
Proof.
  intros Hc. unfold Analyzer.normalize, JS.toLowerCase, JS.lowerUnit.
  cbn [flat_map].
  replace ((65 <=? c) && (c <=? 90)) with true by lia.
  replace ((65 <=? c + 32) && (c + 32 <=? 90)) with false by lia.
  replace (c + 32 <? 128) with true by lia. reflexivity.
Qed.

(** The count of token starts looks at the characters only to tell white
    space from the rest. *)
Lemma tokenStarts_same_spaces b (s t : jsstring) :
  Forall2 (fun x y => JS.isWhiteSpace x = JS.isWhiteSpace y) s t ->
  Spec.tokenStarts b s = Spec.tokenStarts b t.
Proof.
  intros H. revert b. induction H as [|x y s t Hxy Hst IH]; intros b;
    [reflexivity|].
  cbn [Spec.tokenStarts]. rewrite Hxy. destruct (JS.isWhiteSpace y);
    now rewrite IH.
Qed.

Lemma Forall2_same_spaces_refl (s : jsstring) :
  Forall2 (fun x y => JS.isWhiteSpace x = JS.isWhiteSpace y) s s.
Proof. induction s; constructor; auto. Qed.

End AnalysisFacts.

Lemma analyzeString_case_insensitive_body {host : Host}
  (a b : jsstring) (c : Z) :
  65 <= c <= 90 ->
  let p := Analyzer.analyzeStringBody (a ++ c :: b) in
  let q := Analyzer.analyzeStringBody (a ++ (c + 32) :: b) in
  Analyzer.length p = Analyzer.length q
  /\ Analyzer.is_palindrome p = Analyzer.is_palindrome q
  /\ Analyzer.word_count p = Analyzer.word_count q
  /\ Analyzer.character_frequency_map p = Analyzer.character_frequency_map q
  /\ Analyzer.unique_characters p = Analyzer.unique_characters q.
Proof.
  intros Hc. cbv zeta.
  assert (Hn : Analyzer.normalize (a ++ c :: b)
               = Analyzer.normalize (a ++ (c + 32) :: b)).
  { rewrite !normalize_app, (normalize_cons c), (normalize_cons (c + 32)).
    now rewrite normalize_capital. }
  destruct (analyzeString_normalize _ _ Hn) as (Hpal & Hmap & Huniq).
  split.
  { cbn [Analyzer.analyzeStringBody Analyzer.length].
    now rewrite !length_app. }
  split; [exact Hpal|]. split; [|split; assumption].
  rewrite !word_count_code. f_equal. apply tokenStarts_same_spaces.
  apply Forall2_app; [apply Forall2_same_spaces_refl|].
  constructor; [|apply Forall2_same_spaces_refl].
  unfold JS.isWhiteSpace. lia.
Qed.

(** X3.  When [analyzeString] returns for a string and for the same string
    with one capital ASCII letter changed into its small letter, the two
    records differ in the digest at most: the length, the palindrome test,
    the word count, the frequency map and the number of unique characters
    are the same. *)
Theorem analyzeString_case_insensitive {host : Host}
  (a b : jsstring) (c : Z) (p q : Analyzer.Properties) :
  65 <= c <= 90 ->
  Scope.analyzeString (a ++ c :: b) = Scope.Normal p ->
  Scope.analyzeString (a ++ (c + 32) :: b) = Scope.Normal q ->
  Analyzer.length p = Analyzer.length q
  /\ Analyzer.is_palindrome p = Analyzer.is_palindrome q
  /\ Analyzer.word_count p = Analyzer.word_count q
  /\ Analyzer.character_frequency_map p = Analyzer.character_frequency_map q
  /\ Analyzer.unique_characters p = Analyzer.unique_characters q.
Proof.
  intros Hc Hp Hq.
  apply analyzeString_returns in Hp as [_ ->].
  apply analyzeString_returns in Hq as [_ ->].
  now apply analyzeString_case_insensitive_body.
Qed.

Lemma analyzeString_case_insensitive_witness :
  Analyzer.is_palindrome
    (Analyzer.analyzeStringBody (host := cryptoHost) (js "Racecar"))
  = Analyzer.is_palindrome
      (Analyzer.analyzeStringBody (host := cryptoHost) (js "racecar")).
Proof.
  refine (proj1 (proj2
    (analyzeString_case_insensitive (host := cryptoHost)
       [] (js "acecar") 82 _ _ _ _ _))); [lia | reflexivity | reflexivity].
Defined.


Lemma analyzeString_ignores_punctuation_body {host : Host}
  (a b : jsstring) (c : Z) :
  c < 128 -> Spec.isAsciiLetterOrDigit c = false ->
  let p := Analyzer.analyzeStringBody (a ++ c :: b) in
  let q := Analyzer.analyzeStringBody (a ++ b) in
  Analyzer.is_palindrome p = Analyzer.is_palindrome q
  /\ Analyzer.character_frequency_map p = Analyzer.character_frequency_map q
  /\ Analyzer.unique_characters p = Analyzer.unique_characters q.
Proof.
  intros Hc Hclass. cbv zeta. apply analyzeString_normalize.
  rewrite !normalize_app, (normalize_cons c), normalize_other by assumption.
  reflexivity.
Qed.

(** X4.  When [analyzeString] returns for a string and for the same string
    with one ASCII character that is neither a letter nor a digit (a space,
    a comma, ...) taken out, the two records have the same palindrome test,
    the same frequency map and the same number of unique characters. *)
Theorem analyzeString_ignores_punctuation {host : Host}
  (a b : jsstring) (c : Z) (p q : Analyzer.Properties) :
  c < 128 -> Spec.isAsciiLetterOrDigit c = false ->
  Scope.analyzeString (a ++ c :: b) = Scope.Normal p ->
  Scope.analyzeString (a ++ b) = Scope.Normal q ->
  Analyzer.is_palindrome p = Analyzer.is_palindrome q
  /\ Analyzer.character_frequency_map p = Analyzer.character_frequency_map q
  /\ Analyzer.unique_characters p = Analyzer.unique_characters q.
Proof.
  intros Hc Hclass Hp Hq.
  apply analyzeString_returns in Hp as [_ ->].
  apply analyzeString_returns in Hq as [_ ->].
  now apply analyzeString_ignores_punctuation_body.
Qed.

Lemma analyzeString_ignores_punctuation_witness :
  Analyzer.is_palindrome
    (Analyzer.analyzeStringBody (host := cryptoHost) (js "race car"))
  = Analyzer.is_palindrome
      (Analyzer.analyzeStringBody (host := cryptoHost) (js "racecar")).
Proof.
  refine (proj1
    (analyzeString_ignores_punctuation (host := cryptoHost)
       (js "race") (js "car") 32 _ _ _ _ _ _));
    [lia | reflexivity | reflexivity | reflexivity].
Defined.


Lemma tokenStarts_bound b (s : jsstring) :
  (2 * Spec.tokenStarts b s <= List.length s + (if b then 1 else 0))%nat.
Proof.
  revert b. induction s as [|c s IH]; intros b; [destruct b; cbn; lia|].
  cbn [Spec.tokenStarts List.length]. destruct (JS.isWhiteSpace c).
  - specialize (IH true). cbv iota in IH. destruct b; lia.
  - specialize (IH false). cbv iota in IH. destruct b; lia.
Qed.

Lemma tokenStarts_none (s : jsstring) :
  Spec.tokenStarts true s = O
  <-> Forall (fun c => JS.isWhiteSpace c = true) s.
Proof.
  induction s as [|c s IH]; [split; [constructor | reflexivity]|].
  cbn [Spec.tokenStarts]. destruct (JS.isWhiteSpace c) eqn:Hc.
  - rewrite IH. split; [now constructor | now inversion 1].
  - split; [discriminate|]. inversion 1; congruence.
Qed.

Lemma tokenStarts_app_space b (a : jsstring) (w : Z) (s : jsstring) :
  JS.isWhiteSpace w = true ->
  Spec.tokenStarts b (a ++ w :: s)
  = (Spec.tokenStarts b a + Spec.tokenStarts true s)%nat.
Proof.
  intros Hw. revert b. induction a as [|c a IH]; intros b.
  - cbn [app Spec.tokenStarts]. now rewrite Hw.
  - cbn [app Spec.tokenStarts]. destruct (JS.isWhiteSpace c);
      rewrite IH; lia.
Qed.

Lemma word_count_bounds_body {host : Host} (value : jsstring) :
  let p := Analyzer.analyzeStringBody value in
  0 <= Analyzer.word_count p
  /\ 2 * Analyzer.word_count p <= Analyzer.length p + 1
  /\ (Analyzer.word_count p = 0
      <-> Forall (fun c => JS.isWhiteSpace c = true) value).
Proof.
  cbv zeta. rewrite word_count_code.
  cbn [Analyzer.analyzeStringBody Analyzer.length].
  pose proof (tokenStarts_bound true value) as Hb. cbv iota in Hb.
  split; [lia|]. split; [lia|].
  rewrite <- tokenStarts_none. lia.
Qed.

(** X5.  The word count of a record that [analyzeString] returns is never
    negative and at most half of the length, rounded up; it is zero exactly
    for the strings made of white space only, the empty string among
    them. *)
Theorem word_count_bounds {host : Host}
  (value : jsstring) (p : Analyzer.Properties) :
  Scope.analyzeString value = Scope.Normal p ->
  0 <= Analyzer.word_count p
  /\ 2 * Analyzer.word_count p <= Analyzer.length p + 1
  /\ (Analyzer.word_count p = 0
      <-> Forall (fun c => JS.isWhiteSpace c = true) value).
Proof.
  intros Hp. apply analyzeString_returns in Hp as [_ ->].
  apply word_count_bounds_body.
Qed.

Lemma word_count_bounds_witness :
  2 * Analyzer.word_count
        (Analyzer.analyzeStringBody (host := cryptoHost) (js "a b c"))
  <= Analyzer.length
       (Analyzer.analyzeStringBody (host := cryptoHost) (js "a b c")) + 1.
Proof.
  refine (proj1 (proj2
    (word_count_bounds (host := cryptoHost) (js "a b c") _ _))).
  reflexivity.
Defined.

Lemma word_count_joined_body {host : Host} (a b : jsstring) (w : Z) :
  JS.isWhiteSpace w = true ->
  Analyzer.word_count (Analyzer.analyzeStringBody (a ++ w :: b))
  = Analyzer.word_count (Analyzer.analyzeStringBody a)
    + Analyzer.word_count (Analyzer.analyzeStringBody b).
Proof.
  intros Hw. rewrite !word_count_code, tokenStarts_app_space by assumption.
  lia.
Qed.

(** X6.  When [analyzeString] returns for two texts and for the two joined
    by a white-space character, the word count of the joined text is the
    sum of the word counts of the two, whatever white space the texts begin
    or end with. *)
Theorem word_count_joined {host : Host} (a b : jsstring) (w : Z)
  (p q r : Analyzer.Properties) :
  JS.isWhiteSpace w = true ->
  Scope.analyzeString a = Scope.Normal p ->
  Scope.analyzeString b = Scope.Normal q ->
  Scope.analyzeString (a ++ w :: b) = Scope.Normal r ->
  Analyzer.word_count r = Analyzer.word_count p + Analyzer.word_count q.
Proof.
  intros Hw Hp Hq Hr.
  apply analyzeString_returns in Hp as [_ ->].
  apply analyzeString_returns in Hq as [_ ->].
  apply analyzeString_returns in Hr as [_ ->].
  now apply word_count_joined_body.
Qed.

Lemma word_count_joined_witness :
  Analyzer.word_count
    (Analyzer.analyzeStringBody (host := cryptoHost) (js "a plan  a canal"))
  = Analyzer.word_count
      (Analyzer.analyzeStringBody (host := cryptoHost) (js "a plan "))
    + Analyzer.word_count
        (Analyzer.analyzeStringBody (host := cryptoHost) (js "a canal")).
Proof.
  refine (word_count_joined (host := cryptoHost)
            (js "a plan ") (js "a canal") 32 _ _ _ _ _ _ _);
    reflexivity.
Defined.


Lemma remove_dups_shorter (l : jsstring) :
  (List.length (remove_dups l) <= List.length l)%nat.
Proof.
  induction l as [|x l IH]; [reflexivity|].
  cbn [remove_dups List.length]. destruct (decide_rel elem_of x l);
    cbn [List.length]; lia.
Qed.

Lemma filter_shorter {A} (f : A -> bool) (l : list A) :
  (List.length (List.filter f l) <= List.length l)%nat.
Proof.
  induction l as [|x l IH]; [reflexivity|].
  cbn [List.filter List.length]. destruct (f x); cbn [List.length]; lia.
Qed.

Lemma unique_characters_bound_body {host : Host} (value : jsstring) :
  let p := Analyzer.analyzeStringBody value in
  let normalized := Analyzer.normalize value in
  0 <= Analyzer.unique_characters p <= 36
  /\ Analyzer.unique_characters p <= Z.of_nat (List.length normalized)
  /\ (forall k n, Analyzer.character_frequency_map p !! k = Some n ->
        1 <= n <= Z.of_nat (List.length normalized)).
Proof.
  cbv zeta. split; [|split].
  - cbn [Analyzer.analyzeStringBody Analyzer.unique_characters].
    unfold Analyzer.objectKeys. rewrite length_fmap, length_map_to_list.
    rewrite <- (size_dom (D := gset jsstring)).
    split; [lia|].
    pose (keys := (fun c => [c]) <$> (seqZ 48 10 ++ seqZ 97 26)).
    assert (Hsub : dom (Analyzer.countCharacters (Analyzer.normalize value))
                   ⊆ (list_to_set keys : gset jsstring)).
    { intros k Hk. apply elem_of_dom in Hk.
      apply (frequency_keys value k) in Hk as (d & -> & Hd).
      apply elem_of_list_to_set, list_elem_of_fmap. exists d.
      split; [reflexivity|].
      rewrite elem_of_app, !elem_of_seqZ. unfold JS.isLowerAlnum in Hd. lia. }
    apply subseteq_size in Hsub.
    assert (Hkeys : size (list_to_set keys : gset jsstring) = 36%nat).
    { rewrite size_list_to_set; [reflexivity|].
      apply NoDup_fmap_2; [intros x y [= ->]; reflexivity|].
      apply NoDup_app. split; [apply NoDup_seqZ|].
      split; [|apply NoDup_seqZ].
      intros x. rewrite !elem_of_seqZ. lia. }
    lia.
  - cbn [Analyzer.analyzeStringBody Analyzer.unique_characters].
    rewrite countCharacters_size. unfold Spec.distinct.
    pose proof (remove_dups_shorter (Analyzer.normalize value)).
    fold (Analyzer.normalize value). lia.
  - intros k n. cbn [Analyzer.analyzeStringBody Analyzer.character_frequency_map].
    rewrite countCharacters_lookup. unfold Spec.frequency.
    destruct k as [|d [|]]; try discriminate.
    destruct (Z.eqb_spec (Spec.occurrences d (Analyzer.normalize value)) 0);
      [discriminate|].
    intros [= <-]. pose proof (occurrences_nonneg d (Analyzer.normalize value)).
    split; [lia|]. unfold Spec.occurrences.
    pose proof (filter_shorter (Z.eqb d) (Analyzer.normalize value)). lia.
Qed.

(** X7.  A record that [analyzeString] returns is never credited with more
    than 36 unique characters: the keys of its frequency map are among a-z
    and 0-9.  Each frequency is at least 1, and the frequencies and the
    number of unique characters are at most the length of the normalized
    string. *)
Theorem unique_characters_bound {host : Host}
  (value : jsstring) (p : Analyzer.Properties) :
  Scope.analyzeString value = Scope.Normal p ->
  let normalized := Analyzer.normalize value in
  0 <= Analyzer.unique_characters p <= 36
  /\ Analyzer.unique_characters p <= Z.of_nat (List.length normalized)
  /\ (forall k n, Analyzer.character_frequency_map p !! k = Some n ->
        1 <= n <= Z.of_nat (List.length normalized)).
Proof.
  intros Hp. apply analyzeString_returns in Hp as [_ ->].
  apply unique_characters_bound_body.
Qed.

Lemma unique_characters_bound_witness :
  0 <= Analyzer.unique_characters
         (Analyzer.analyzeStringBody (host := cryptoHost)
            (js "The quick brown fox")) <= 36.
Proof.
  refine (proj1
    (unique_characters_bound (host := cryptoHost)
       (js "The quick brown fox") _ _)).
  reflexivity.
Defined.

Lemma analyzeString_nothing_to_compare_body {host : Host} (value : jsstring) :
  Forall (fun c => c < 128 /\ Spec.isAsciiLetterOrDigit c = false) value ->
  let p := Analyzer.analyzeStringBody value in
  Analyzer.is_palindrome p = true
  /\ Analyzer.unique_characters p = 0
  /\ Analyzer.character_frequency_map p = ∅.
Proof.
  intros Hall. cbv zeta.
  assert (Hn : Analyzer.normalize value = Analyzer.normalize []).
  { induction Hall as [|c s [Hc Hclass] Hs IH]; [reflexivity|].
    rewrite normalize_cons, normalize_other by assumption. exact IH. }
  destruct (analyzeString_normalize _ _ Hn) as (-> & -> & ->).
  repeat split.
Qed.

(** X8.  For a string of ASCII characters none of which is a letter or a
    digit, such as the empty string, blanks or punctuation, the record that
    [analyzeString] returns is a palindrome with no unique character and an
    empty frequency map. *)
Theorem analyzeString_nothing_to_compare {host : Host}
  (value : jsstring) (p : Analyzer.Properties) :
  Forall (fun c => c < 128 /\ Spec.isAsciiLetterOrDigit c = false) value ->
  Scope.analyzeString value = Scope.Normal p ->
  Analyzer.is_palindrome p = true
  /\ Analyzer.unique_characters p = 0
  /\ Analyzer.character_frequency_map p = ∅.
Proof.
  intros Hall Hp. apply analyzeString_returns in Hp as [_ ->].
  now apply analyzeString_nothing_to_compare_body.
Qed.

Lemma analyzeString_nothing_to_compare_witness :
  Analyzer.is_palindrome
    (Analyzer.analyzeStringBody (host := cryptoHost) (js "?! ...")) = true.
Proof.
  refine (proj1 (analyzeString_nothing_to_compare (host := cryptoHost)
                   (js "?! ...") _ _ _)); [|reflexivity].
  repeat constructor.
Defined.


(** Reading a string backwards. *)

Lemma tokenStarts_head (s : jsstring) :
  Spec.tokenStarts true s
  = (Spec.tokenStarts false s
     + match s with
       | [] => 0
       | c :: _ => if JS.isWhiteSpace c then 0 else 1
       end)%nat.
Proof.
  destruct s as [|c s]; [reflexivity|].
  cbn [Spec.tokenStarts]. destruct (JS.isWhiteSpace c); lia.
Qed.

Lemma tokenStarts_snoc b (s : jsstring) (c : Z) :
  Spec.tokenStarts b (s ++ [c])
  = (Spec.tokenStarts b s
     + if JS.isWhiteSpace c then 0
       else if from_option JS.isWhiteSpace b (last s) then 1 else 0)%nat.
Proof.
  revert b. induction s as [|x s IH]; intros b.
  - cbn. destruct (JS.isWhiteSpace c), b; reflexivity.
  - cbn [app Spec.tokenStarts].
    assert (Hlast : forall b',
      from_option JS.isWhiteSpace b' (last (x :: s))
      = from_option JS.isWhiteSpace (JS.isWhiteSpace x) (last s)).
    { clear IH. revert x.
      induction s as [|y s IHs]; intros x b'; [reflexivity|].
      now rewrite last_cons_cons, (IHs y b'), (IHs y (JS.isWhiteSpace x)). }
    rewrite Hlast. destruct (JS.isWhiteSpace x); rewrite IH; lia.
Qed.

Lemma tokenStarts_rev (s : jsstring) :
  Spec.tokenStarts true (rev s) = Spec.tokenStarts true s.
Proof.
  induction s as [|c s IH]; [reflexivity|].
  cbn [rev]. rewrite tokenStarts_snoc, IH.
  cbn [Spec.tokenStarts]. rewrite (tokenStarts_head s).
  assert (Hlast : from_option JS.isWhiteSpace true (last (rev s))
                  = match s with
                    | [] => true
                    | x :: _ => JS.isWhiteSpace x
                    end).
  { destruct s as [|x s']; [reflexivity|].
    cbn [rev]. now rewrite last_snoc. }
  rewrite Hlast.
  destruct (JS.isWhiteSpace c); [lia|].
  destruct s as [|x s']; [lia|]. destruct (JS.isWhiteSpace x); lia.
Qed.

Section Reversal.
Context {host : Host}.

Lemma normalize_ascii_unit (c : Z) :
  c < 128 -> rev (Analyzer.normalize [c]) = Analyzer.normalize [c].
Proof.
  intros Hc. unfold Analyzer.normalize, JS.stripNonAlnum, JS.toLowerCase,
    JS.lowerUnit. cbn [flat_map].
  destruct ((65 <=? c) && (c <=? 90)).
  - cbn [app List.filter]. now destruct (JS.isLowerAlnum (c + 32)).
  - replace (c <? 128) with true by lia.
    cbn [app List.filter]. now destruct (JS.isLowerAlnum c).
Qed.

Lemma normalize_rev (v : jsstring) :
  Forall (fun c => c < 128) v ->
  Analyzer.normalize (rev v) = rev (Analyzer.normalize v).
Proof.
  induction 1 as [|c v Hc Hv IH]; [reflexivity|].
  cbn [rev]. rewrite normalize_app, IH, (normalize_cons c v), rev_app_distr.
  now rewrite normalize_ascii_unit.
Qed.

Lemma occurrences_rev (d : Z) (s : jsstring) :
  Spec.occurrences d (rev s) = Spec.occurrences d s.
Proof.
  unfold Spec.occurrences. induction s as [|x s IH]; [reflexivity|].
  cbn [rev List.filter]. rewrite List.filter_app, length_app.
  cbn [List.filter]. destruct (d =? x); cbn [List.length] in *; lia.
Qed.

Lemma countCharacters_rev (s : jsstring) :
  Analyzer.countCharacters (rev s) = Analyzer.countCharacters s.
Proof.
  apply map_eq. intros k. rewrite !countCharacters_lookup.
  unfold Spec.frequency. destruct k as [|d [|]]; try reflexivity.
  now rewrite occurrences_rev.
Qed.

End Reversal.

Lemma analyzeString_reversed_body {host : Host} (value : jsstring) :
  Forall (fun c => c < 128) value ->
  let p := Analyzer.analyzeStringBody value in
  let q := Analyzer.analyzeStringBody (rev value) in
  Analyzer.length q = Analyzer.length p
  /\ Analyzer.word_count q = Analyzer.word_count p
  /\ Analyzer.is_palindrome q = Analyzer.is_palindrome p
  /\ Analyzer.character_frequency_map q = Analyzer.character_frequency_map p
  /\ Analyzer.unique_characters q = Analyzer.unique_characters p.
Proof.
  intros Hascii. cbv zeta.
  split; [cbn [Analyzer.analyzeStringBody Analyzer.length];
          now rewrite length_rev|].
  split; [now rewrite !word_count_code, tokenStarts_rev|].
  unfold Analyzer.analyzeStringBody.
  cbn [Analyzer.is_palindrome Analyzer.character_frequency_map
       Analyzer.unique_characters].
  rewrite !join_reverse_split, (normalize_rev value Hascii), rev_involutive,
    countCharacters_rev.
  split; [|split; reflexivity].
  apply bool_decide_ext. split; intros H.
  - now rewrite <- H at 1.
  - now rewrite <- H.
Qed.

(** X9.  When [analyzeString] returns for an ASCII string and for the
    string read backwards, the two records differ in the digest at most:
    the reversed string has the same length, the same word count, the same
    answer to the palindrome test, the same frequency map and the same
    number of unique characters. *)
Theorem analyzeString_reversed {host : Host}
  (value : jsstring) (p q : Analyzer.Properties) :
  Forall (fun c => c < 128) value ->
  Scope.analyzeString value = Scope.Normal p ->
  Scope.analyzeString (rev value) = Scope.Normal q ->
  Analyzer.length q = Analyzer.length p
  /\ Analyzer.word_count q = Analyzer.word_count p
  /\ Analyzer.is_palindrome q = Analyzer.is_palindrome p
  /\ Analyzer.character_frequency_map q = Analyzer.character_frequency_map p
  /\ Analyzer.unique_characters q = Analyzer.unique_characters p.
Proof.
  intros Hascii Hp Hq.
  apply analyzeString_returns in Hp as [_ ->].
  apply analyzeString_returns in Hq as [_ ->].
  now apply analyzeString_reversed_body.
Qed.

Lemma analyzeString_reversed_witness :
  Analyzer.word_count
    (Analyzer.analyzeStringBody (host := cryptoHost)
       (rev (js "never odd or even")))
  = Analyzer.word_count
      (Analyzer.analyzeStringBody (host := cryptoHost)
         (js "never odd or even")).
Proof.
  refine (proj1 (proj2 (analyzeString_reversed (host := cryptoHost)
                          (js "never odd or even") _ _ _ _ _)));
    [|reflexivity | reflexivity].
  repeat constructor.
Defined.


(** ** Further properties of the store and of its handlers *)

Lemma inherited_not_digest name (key : jsstring) :
  In name Service.inheritedNames -> List.length key = 64%nat ->
  bool_decide (js name = key) = false.
Proof.
  intros Hname Hlen. apply bool_decide_eq_false. intros <-.
  cbn [Service.inheritedNames In] in Hname.
  repeat (destruct Hname as [<-|Hname]; [discriminate Hlen|]).
  destruct Hname.
Qed.

Lemma inheritedNames_digest (key : jsstring) :
  List.length key = 64%nat ->
  existsb (fun name => bool_decide (js name = key)) Service.inheritedNames
  = false.
Proof.
  intros Hlen. apply not_true_is_false. intros Hex.
  apply existsb_exists in Hex as (name & Hin & Heq).
  now rewrite (inherited_not_digest name key Hin Hlen) in Heq.
Qed.

Section HandlerFacts.
Context {host : Host}.

Lemma get_string_key db (key : jsstring) :
  List.length key = 64%nat ->
  Service.get_string db key
  = match db !! key with
    | Some r =>
        ({| Service.status := 200; Service.body := Service.RecordBody r |}, db)
    | None =>
        ({| Service.status := 404;
            Service.body := Service.ErrorMessage
              "Not Found: String analysis does not exist in the system." |},
         db)
    end.
Proof.
  intros Hlen. unfold Service.get_string.
  destruct (db !! key); [reflexivity|].
  now rewrite inheritedNames_digest.
Qed.

Lemma get_string_digest db s :
  Service.get_string db (Sha256.sha256Hex s)
  = match db !! Sha256.sha256Hex s with
    | Some r =>
        ({| Service.status := 200; Service.body := Service.RecordBody r |}, db)
    | None =>
        ({| Service.status := 404;
            Service.body := Service.ErrorMessage
              "Not Found: String analysis does not exist in the system." |},
         db)
    end.
Proof. apply get_string_key, sha256Hex_length. Qed.

Lemma objectValues_lookup db (key : jsstring) r :
  db !! key = Some r -> In r (Service.objectValues db).
Proof.
  intros Hr. apply list_elem_of_In. unfold Service.objectValues.
  apply list_elem_of_fmap. exists (key, r).
  split; [reflexivity|]. now apply elem_of_map_to_list.
Qed.

Lemma objectValues_insert db (key : jsstring) r :
  db !! key = None ->
  Service.objectValues (<[ key := r ]> db) ≡ₚ r :: Service.objectValues db.
Proof.
  intros Hnone. unfold Service.objectValues.
  now rewrite (map_to_list_insert db key r Hnone).
Qed.

Lemma objectValues_length db :
  List.length (Service.objectValues db) = size db.
Proof.
  unfold Service.objectValues. now rewrite length_fmap, length_map_to_list.
Qed.

End HandlerFacts.

(** X10.  In a runtime of Node.js, where the global [crypto] has no
    [createHash], nothing is ever stored: every POST /strings of a string
    and every DELETE /strings/:stringValue is answered 500, no request
    changes the store, the store is empty in every state the service
    reaches, and GET /strings answers every accepted query with an empty
    list. *)
Theorem store_stays_empty {host : Host}
  (db : gmap jsstring AnalysisRecord) :
  Scope.providesCreateHash = false ->
  Service.reachable db ->
  db = ∅
  /\ (forall req, (Service.handle db req).2 = ∅)
  /\ (forall now s,
        Service.status
          (Service.post_strings db now (Some (JS.VStr s))).1 = 500)
  /\ (forall rawStringValue,
        Service.status (Service.delete_strings db rawStringValue).1 = 500)
  /\ (forall filters,
        (Filter.validate filters).2 = [] ->
        Service.get_strings db filters
        = ({| Service.status := 200;
              Service.body :=
                Service.ListBody [] 0 (Filter.validate filters).1 |}, db)).
Proof.
  intros Hnone Hreach.
  pose proof (reachable_without_createHash db Hnone Hreach) as ->.
  split; [reflexivity|]. split; [|split; [|split]].
  - intros req. now apply handle_without_createHash.
  - intros now s.
    now destruct (post_strings_uncaught ∅ now s Hnone) as [e ->].
  - intros raw.
    now destruct (delete_strings_uncaught ∅ raw Hnone) as [e ->].
  - intros filters Hvalid. unfold Service.get_strings.
    rewrite filterData_validate, Hvalid.
    replace (Service.objectValues ∅) with (@nil AnalysisRecord)
      by (unfold Service.objectValues; now rewrite map_to_list_empty).
    destruct (Filter.validate filters).1 as [[b|] [n1|] [n2|] [n3|] [c|]];
      reflexivity.
Qed.

Lemma store_stays_empty_witness :
  (Service.handle (host := asciiHost)
     (Service.handle (host := asciiHost) ∅
        (Service.PostString (js "t0") (Some (JS.VStr (js "abc"))))).2
     (Service.PostString (js "t1") (Some (JS.VStr (js "xyz"))))).2 = ∅.
Proof.
  refine (proj1 (proj2
    (store_stays_empty (host := asciiHost) _ _ _)) _); [reflexivity|].
  apply Service.reachable_handle, Service.reachable_start.
Defined.

(** X11.  POST /strings answers 201, 400, 409, 422 or 500.  It answers 500
    exactly when the value is a string and the global [crypto] of the
    runtime has no [createHash], as in every runtime of Node.js, and 201
    exactly when the value is a string, a [createHash] is provided and the
    digest of the string is not yet a key.  Only a 201 changes the store:
    it adds one record, the one of the response, stamped with the reading
    of the clock, and leaves the records already stored as they were. *)
Theorem post_strings_effect {host : Host}
  (db : gmap jsstring AnalysisRecord) (now : jsstring)
  (raw : option JS.value) :
  let response := (Service.post_strings db now raw).1 in
  let db' := (Service.post_strings db now raw).2 in
  In (Service.status response) [201; 400; 409; 422; 500]
  /\ (Service.status response = 500
      <-> (exists s, raw = Some (JS.VStr s))
          /\ Scope.providesCreateHash = false)
  /\ (Service.status response = 201
      <-> exists s, raw = Some (JS.VStr s)
                    /\ Scope.providesCreateHash = true
                    /\ db !! Sha256.sha256Hex s = None)
  /\ (Service.status response <> 201 -> db' = db)
  /\ (Service.status response = 201 ->
      exists r, Service.body response = Service.RecordBody r
                /\ raw = Some (JS.VStr (value r))
                /\ created_at r = now
                /\ db !! id r = None
                /\ db' = <[ id r := r ]> db
                /\ Service.objectValues db' ≡ₚ r :: Service.objectValues db
                /\ size db' = S (size db)).
Proof.
  cbv zeta.
  split; [|split; [|split; [|split; [apply post_strings_unchanged|]]]].
  - destruct raw as [[s|n|b|]|]; try (cbn; tauto).
    destruct Scope.providesCreateHash eqn:Hcall.
    + destruct (db !! Sha256.sha256Hex s) as [r|] eqn:Hr.
      * rewrite (post_strings_conflict db now s r Hcall Hr). cbn. tauto.
      * rewrite (post_strings_created db now s Hcall Hr). cbn. tauto.
    + destruct (post_strings_uncaught db now s Hcall) as [error ->].
      cbn. tauto.
  - destruct raw as [[s|n|b|]|];
      try (cbn; split; [discriminate | intros [[s' [=]] _]]).
    destruct Scope.providesCreateHash eqn:Hcall.
    + split; [|intros [_ [=]]].
      destruct (db !! Sha256.sha256Hex s) as [r|] eqn:Hr.
      * rewrite (post_strings_conflict db now s r Hcall Hr). discriminate.
      * rewrite (post_strings_created db now s Hcall Hr). discriminate.
    + destruct (post_strings_uncaught db now s Hcall) as [error ->].
      split; [eauto | reflexivity].
  - destruct raw as [[s|n|b|]|];
      try (cbn; split; [discriminate | intros (s' & [=] & _)]).
    destruct Scope.providesCreateHash eqn:Hcall.
    + destruct (db !! Sha256.sha256Hex s) as [r|] eqn:Hr.
      * rewrite (post_strings_conflict db now s r Hcall Hr).
        split; [discriminate|]. intros (s' & [= <-] & _ & Hfree). congruence.
      * rewrite (post_strings_created db now s Hcall Hr).
        split; [eauto | reflexivity].
    + destruct (post_strings_uncaught db now s Hcall) as [error ->].
      split; [discriminate | intros (s' & _ & [=] & _)].
  - destruct raw as [[s|n|b|]|]; try discriminate.
    destruct Scope.providesCreateHash eqn:Hcall.
    + destruct (db !! Sha256.sha256Hex s) as [r|] eqn:Hr.
      * rewrite (post_strings_conflict db now s r Hcall Hr). discriminate.
      * rewrite (post_strings_created db now s Hcall Hr).
        cbn [fst snd Service.status Service.body]. intros _.
        eexists. split; [reflexivity|]. cbn [value created_at id].
        split; [reflexivity|]. split; [reflexivity|]. split; [exact Hr|].
        split; [reflexivity|].
        split; [now apply objectValues_insert
               | now apply map_size_insert_None].
    + destruct (post_strings_uncaught db now s Hcall) as [error ->].
      discriminate.
Qed.

(** X12.  Round trip: when POST /strings has stored a string (201), GET
    /strings/:id with the [id] of the response answers 200 with that same
    record, which is among the values of the store; when it has answered
    409, GET /strings/:id with the [id] of the response answers 200 with
    the record stored before.  For a key of 64 characters that is not a key
    of the store GET /strings/:id answers 404. *)
Theorem post_strings_then_get_string {host : Host}
  (db : gmap jsstring AnalysisRecord) (now s : jsstring) :
  let posted := Service.post_strings db now (Some (JS.VStr s)) in
  (forall r,
     posted.1 = {| Service.status := 201;
                   Service.body := Service.RecordBody r |} ->
     Service.get_string posted.2 (id r)
     = ({| Service.status := 200; Service.body := Service.RecordBody r |},
        posted.2)
     /\ In r (Service.objectValues posted.2) /\ value r = s)
  /\ (forall error key,
     posted.1 = {| Service.status := 409;
                   Service.body := Service.ConflictBody error key |} ->
     exists r,
       Service.get_string posted.2 key
       = ({| Service.status := 200; Service.body := Service.RecordBody r |},
          posted.2)
       /\ In r (Service.objectValues posted.2))
  /\ (forall key : jsstring,
     List.length key = 64%nat -> db !! key = None ->
     Service.status (Service.get_string db key).1 = 404).
Proof.
  cbv zeta. split; [|split].
  - intros r Hposted.
    destruct Scope.providesCreateHash eqn:Hcall.
    + destruct (db !! Sha256.sha256Hex s) as [r'|] eqn:Hr.
      * rewrite (post_strings_conflict db now s r' Hcall Hr) in Hposted.
        discriminate.
      * rewrite (post_strings_created db now s Hcall Hr) in Hposted |- *.
        cbn [fst snd] in *. injection Hposted as <-. cbn [id value].
        rewrite get_string_digest, lookup_insert_eq.
        split; [reflexivity|]. split; [|reflexivity].
        apply (objectValues_lookup _ (Sha256.sha256Hex s)), lookup_insert_eq.
    + destruct (post_strings_uncaught db now s Hcall) as [e He].
      rewrite He in Hposted. discriminate.
  - intros error key Hposted.
    destruct Scope.providesCreateHash eqn:Hcall.
    + destruct (db !! Sha256.sha256Hex s) as [r'|] eqn:Hr.
      * rewrite (post_strings_conflict db now s r' Hcall Hr) in Hposted |- *.
        cbn [fst snd] in *. injection Hposted as _ <-.
        exists r'. rewrite get_string_digest, Hr.
        split; [reflexivity|].
        now apply (objectValues_lookup _ (Sha256.sha256Hex s)).
      * rewrite (post_strings_created db now s Hcall Hr) in Hposted.
        discriminate.
    + destruct (post_strings_uncaught db now s Hcall) as [e He].
      rewrite He in Hposted. discriminate.
  - intros key Hlen Hnone. now rewrite (get_string_key db key Hlen), Hnone.
Qed.

Lemma post_strings_then_get_string_witness :
  let posted := Service.post_strings (host := cryptoHost) ∅ (js "t0")
                  (Some (JS.VStr (js "abc"))) in
  exists r,
    Service.get_string posted.2 (id r)
    = ({| Service.status := 200; Service.body := Service.RecordBody r |},
       posted.2)
    /\ value r = js "abc".
Proof.
  cbv zeta. eexists.
  refine ((fun H => conj (proj1 H) (proj2 (proj2 H)))
    (proj1 (post_strings_then_get_string (host := cryptoHost)
              ∅ (js "t0") (js "abc")) _ _)).
  reflexivity.
Defined.

(** X13.  GET /strings/:id with one of the names that every JavaScript
    object inherits (constructor, toString, __proto__, ...) answers 200
    although nothing is stored under it, in every store whose keys are
    digests, hence in every store the service can reach. *)
Theorem get_string_inherited_name {host : Host}
  (db : gmap jsstring AnalysisRecord) (name : string) :
  Service.reachable db -> In name Service.inheritedNames ->
  Service.get_string db (js name)
  = ({| Service.status := 200; Service.body := Service.InheritedBody |}, db).
Proof.
  intros Hreach Hname. unfold Service.get_string.
  destruct (db !! js name) as [r|] eqn:Hr.
  - destruct (reachable_invariant db Hreach _ _ Hr) as (Hid & Hdigest & _).
    pose proof (inherited_not_digest name (js name) Hname) as Hlen.
    rewrite bool_decide_eq_true_2 in Hlen by reflexivity.
    enough (true = false) by discriminate. apply Hlen.
    rewrite <- Hid, Hdigest. apply sha256Hex_length.
  - replace (existsb _ _) with true; [reflexivity|].
    symmetry. apply existsb_exists. exists name.
    split; [assumption | now apply bool_decide_eq_true].
Qed.

Lemma get_string_inherited_name_witness :
  Service.status
    (Service.get_string ∅ (js "constructor")).1 = 200.
Proof.
  rewrite (get_string_inherited_name (host := asciiHost) ∅ "constructor").
  - reflexivity.
  - apply Service.reachable_start.
  - cbn. tauto.
Defined.

(** X14.  What DELETE /strings/:stringValue does once the parameter is
    decoded.  It answers 204, 404 or 500: 500 exactly when the global
    [crypto] of the runtime has no [createHash], as in every runtime of
    Node.js, and 204 exactly when a [createHash] is provided and the digest
    of the string is a key of the store.  A 204 removes that key, leaves
    every other key as it was and makes the store one record smaller; any
    other answer leaves the store as it was; and the same request again is
    never answered 204. *)
Theorem delete_strings_effect {host : Host}
  (db : gmap jsstring AnalysisRecord) (rawStringValue s : jsstring) :
  decodeURIComponent rawStringValue = Some s ->
  let response := (Service.delete_strings db rawStringValue).1 in
  let db' := (Service.delete_strings db rawStringValue).2 in
  In (Service.status response) [204; 404; 500]
  /\ (Service.status response = 500 <-> Scope.providesCreateHash = false)
  /\ (Service.status response = 204
      <-> Scope.providesCreateHash = true
          /\ is_Some (db !! Sha256.sha256Hex s))
  /\ (Service.status response = 204 ->
      db' = delete (Sha256.sha256Hex s) db
      /\ db' !! Sha256.sha256Hex s = None
      /\ (forall key, key <> Sha256.sha256Hex s -> db' !! key = db !! key)
      /\ S (size db') = size db)
  /\ (Service.status response <> 204 -> db' = db)
  /\ Service.status (Service.delete_strings db' rawStringValue).1 <> 204.
Proof.
  intros Hdecode. cbv zeta.
  destruct Scope.providesCreateHash eqn:Hcall.
  - rewrite (delete_strings_decoded db rawStringValue s Hcall Hdecode).
    destruct (db !! Sha256.sha256Hex s) as [r|] eqn:Hr;
      cbn [fst snd Service.status].
    + split; [cbn; tauto|]. split; [split; discriminate|].
      split; [split; [eauto | reflexivity]|].
      split; [|split; [contradiction|]].
      * intros _. split; [reflexivity|]. split; [apply lookup_delete_eq|].
        split; [intros key Hkey; now apply lookup_delete_ne|].
        rewrite map_size_delete_Some by (rewrite Hr; eauto).
        assert (size db <> 0%nat); [|lia].
        intros Hz. apply map_size_empty_inv in Hz. subst db.
        rewrite lookup_empty in Hr. discriminate.
      * rewrite (delete_strings_decoded _ rawStringValue s Hcall Hdecode).
        rewrite lookup_delete_eq. discriminate.
    + split; [cbn; tauto|]. split; [split; discriminate|].
      split; [split; [discriminate | intros [_ [? [=]]]]|].
      split; [discriminate|]. split; [reflexivity|].
      rewrite (delete_strings_decoded _ rawStringValue s Hcall Hdecode), Hr.
      discriminate.
  - destruct (delete_strings_uncaught db rawStringValue Hcall) as [e He].
    rewrite He. cbn [fst snd Service.status].
    split; [cbn; tauto|]. split; [split; reflexivity|].
    split; [split; [discriminate | intros [[=] _]]|].
    split; [discriminate|]. split; [reflexivity|].
    rewrite He. discriminate.
Qed.

Lemma delete_strings_effect_witness :
  Service.status
    (Service.delete_strings (host := asciiHost) ∅ (js "abc")).1 = 500
  /\ Service.status
       (Service.delete_strings (host := cryptoHost)
          (Service.post_strings (host := cryptoHost) ∅ (js "t0")
             (Some (JS.VStr (js "abc")))).2 (js "abc")).1 = 204.
Proof.
  split.
  - refine (proj2 (proj1 (proj2
      (delete_strings_effect (host := asciiHost) ∅ (js "abc") (js "abc") _)))
      _); reflexivity.
  - refine (proj2 (proj1 (proj2 (proj2
      (delete_strings_effect (host := cryptoHost) _ (js "abc") (js "abc") _))))
      _); [reflexivity|].
    split; [reflexivity|]. vm_compute. eauto.
Defined.

(** X15.  Round trip: a string that POST /strings has stored (201) and that
    DELETE /strings/:stringValue is then asked to remove is removed with a
    204, and the store is exactly as it was before the two requests. *)
Theorem post_strings_then_delete_strings {host : Host}
  (db : gmap jsstring AnalysisRecord) (now rawStringValue s : jsstring) :
  decodeURIComponent rawStringValue = Some s ->
  Service.status (Service.post_strings db now (Some (JS.VStr s))).1 = 201 ->
  Service.delete_strings
    (Service.post_strings db now (Some (JS.VStr s))).2 rawStringValue
  = ({| Service.status := 204; Service.body := Service.EmptyBody |}, db).
Proof.
  intros Hdecode Hcreated.
  destruct Scope.providesCreateHash eqn:Hcall.
  - destruct (db !! Sha256.sha256Hex s) as [r|] eqn:Hr.
    + rewrite (post_strings_conflict db now s r Hcall Hr) in Hcreated.
      discriminate.
    + rewrite (post_strings_created db now s Hcall Hr). cbn [snd].
      rewrite (delete_strings_decoded _ rawStringValue s Hcall Hdecode).
      rewrite lookup_insert_eq. now rewrite delete_insert_id.
  - destruct (post_strings_uncaught db now s Hcall) as [e He].
    rewrite He in Hcreated. discriminate.
Qed.

Lemma post_strings_then_delete_strings_witness :
  Service.delete_strings (host := cryptoHost)
    (Service.post_strings (host := cryptoHost) ∅ (js "now")
       (Some (JS.VStr (js "abc")))).2 (js "abc")
  = ({| Service.status := 204; Service.body := Service.EmptyBody |}, ∅).
Proof.
  apply (post_strings_then_delete_strings (host := cryptoHost)
           ∅ (js "now") (js "abc") (js "abc")); reflexivity.
Defined.

(** ** Further properties of the filters *)

(** X16.  The passes of [filterData] compose: filtering twice with the same
    filters is filtering once, two filter sets can be applied in either
    order, and filtering a concatenation is concatenating the filtered
    parts, so a record added to the data never removes another one from a
    result. *)
Theorem applyFilters_composition
  (typed typed' : Filter.TypedFilters) (data data' : list AnalysisRecord) :
  Filter.applyFilters typed (Filter.applyFilters typed data)
  = Filter.applyFilters typed data
  /\ Filter.applyFilters typed (Filter.applyFilters typed' data)
     = Filter.applyFilters typed' (Filter.applyFilters typed data)
  /\ Filter.applyFilters typed (data ++ data')
     = Filter.applyFilters typed data ++ Filter.applyFilters typed data'.
Proof.
  rewrite !applyFilters_filter, !filter_filter.
  split; [|split].
  - apply filter_ext. intros r. now destruct (Spec.satisfiesb typed r).
  - apply filter_ext. intros r. apply andb_comm.
  - apply List.filter_app.
Qed.

Lemma applyFilters_empty_range typed data a b :
  Filter.min_length typed = Some a -> Filter.max_length typed = Some b ->
  b < a -> Filter.applyFilters typed data = [].
Proof.
  intros Ha Hb Hlt. rewrite applyFilters_filter.
  induction data as [|r data IH]; [reflexivity|].
  cbn [List.filter]. rewrite IH.
  replace (Spec.satisfiesb typed r) with false; [reflexivity|].
  symmetry. unfold Spec.satisfiesb. rewrite Ha, Hb. cbn [Spec.whenSet].
  destruct (Z.leb_spec a (Analyzer.length (properties r)));
    destruct (Z.leb_spec (Analyzer.length (properties r)) b);
    rewrite ?andb_false_r, ?andb_false_l; try reflexivity.
  lia.
Qed.

(** X17.  Bounds that contradict each other are no error: when the
    validation accepts the filters with a [min_length] greater than the
    [max_length], [filterData] returns no record at all, and GET /strings
    answers 200 with an empty list and a count of 0. *)
Theorem filterData_empty_range {host : Host}
  (db : gmap jsstring AnalysisRecord) (data : list AnalysisRecord)
  (filters : gmap string JS.value) (a b : Z) :
  (Filter.validate filters).2 = [] ->
  Filter.min_length (Filter.validate filters).1 = Some a ->
  Filter.max_length (Filter.validate filters).1 = Some b ->
  b < a ->
  Filter.filterData data filters
  = Filter.Filtered [] (Filter.validate filters).1
  /\ Service.get_strings db filters
     = ({| Service.status := 200;
           Service.body :=
             Service.ListBody [] 0 (Filter.validate filters).1 |}, db).
Proof.
  intros Herr Ha Hb Hlt.
  assert (Hdata : forall d, Filter.filterData d filters
                            = Filter.Filtered [] (Filter.validate filters).1).
  { intros d. rewrite filterData_validate, Herr.
    now rewrite (applyFilters_empty_range _ d a b Ha Hb Hlt). }
  split; [apply Hdata|]. unfold Service.get_strings. now rewrite Hdata.
Qed.

Lemma filterData_empty_range_witness :
  Filter.filterData (host := asciiHost) []
    (<[ "min_length"%string := JS.VNum 9 ]>
       {[ "max_length"%string := JS.VNum 3 ]})
  = Filter.Filtered []
      {| Filter.is_palindrome := None; Filter.min_length := Some 9;
         Filter.max_length := Some 3; Filter.word_count := None;
         Filter.contains_character := None |}.
Proof.
  refine (proj1 (filterData_empty_range (host := asciiHost) ∅ []
                   (<[ "min_length"%string := JS.VNum 9 ]>
                      {[ "max_length"%string := JS.VNum 3 ]}) 9 3 _ _ _ _));
    [reflexivity | reflexivity | reflexivity | lia].
Defined.

Section MoreValidationFacts.
Context {host : Host}.

Lemma validate_unrecognized filters :
  (forall key, In key Filter.recognized -> filters !! key = None) ->
  Filter.validate filters = (Filter.noFilters, []).
Proof.
  intros Hnone. unfold Filter.validate, Filter.check_contains_character,
    Filter.check_word_count, Filter.check_max_length, Filter.check_min_length,
    Filter.check_is_palindrome.
  rewrite !Hnone by (cbn; tauto). reflexivity.
Qed.

(** One block: a key that is present gives one typed filter or one
    message, a key that is absent gives neither. *)
Lemma check_is_palindrome_account filters :
  let st := Filter.check_is_palindrome filters (Filter.noFilters, []) in
  (List.length st.2 + List.length (option_list (Filter.is_palindrome st.1))
   = match filters !! "is_palindrome"%string with Some _ => 1 | None => 0 end)%nat.
Proof.
  cbv zeta. unfold Filter.check_is_palindrome.
  destruct (filters !! "is_palindrome"%string) as [raw|]; [|reflexivity].
  cbv zeta. destruct (_ || _); [reflexivity|].
  destruct (_ || _); reflexivity.
Qed.

Lemma check_min_length_account filters :
  let st := Filter.check_min_length filters (Filter.noFilters, []) in
  (List.length st.2 + List.length (option_list (Filter.min_length st.1))
   = match filters !! "min_length"%string with Some _ => 1 | None => 0 end)%nat.
Proof.
  cbv zeta. unfold Filter.check_min_length.
  destruct (filters !! "min_length"%string) as [raw|]; [|reflexivity].
  destruct (JS.parseInt raw) as [num|]; [|reflexivity].
  destruct (num <? 0); reflexivity.
Qed.

Lemma check_max_length_account filters :
  let st := Filter.check_max_length filters (Filter.noFilters, []) in
  (List.length st.2 + List.length (option_list (Filter.max_length st.1))
   = match filters !! "max_length"%string with Some _ => 1 | None => 0 end)%nat.
Proof.
  cbv zeta. unfold Filter.check_max_length.
  destruct (filters !! "max_length"%string) as [raw|]; [|reflexivity].
  destruct (JS.parseInt raw) as [num|]; [|reflexivity].
  destruct (num <? 0); reflexivity.
Qed.

Lemma check_word_count_account filters :
  let st := Filter.check_word_count filters (Filter.noFilters, []) in
  (List.length st.2 + List.length (option_list (Filter.word_count st.1))
   = match filters !! "word_count"%string with Some _ => 1 | None => 0 end)%nat.
Proof.
  cbv zeta. unfold Filter.check_word_count.
  destruct (filters !! "word_count"%string) as [raw|]; [|reflexivity].
  destruct (JS.parseInt raw) as [num|]; [|reflexivity].
  destruct (num <? 1); reflexivity.
Qed.

Lemma check_contains_character_account filters :
  let st := Filter.check_contains_character filters (Filter.noFilters, []) in
  (List.length st.2
   + List.length (option_list (Filter.contains_character st.1))
   = match filters !! "contains_character"%string with Some _ => 1 | None => 0 end)%nat.
Proof.
  cbv zeta. unfold Filter.check_contains_character.
  destruct (filters !! "contains_character"%string) as [raw|]; [|reflexivity].
  cbv zeta. destruct (negb _); [|reflexivity].
  destruct (1 <? _); [|reflexivity].
  destruct (JS.matchLowerAlnum _); reflexivity.
Qed.

End MoreValidationFacts.

(** X18.  With no recognized filter in the query, whatever other parameters
    it carries, GET /strings answers 200 with every stored record, a count
    equal to the size of the store and no filter applied. *)
Theorem get_strings_unfiltered {host : Host}
  (db : gmap jsstring AnalysisRecord) (filters : gmap string JS.value) :
  (forall key, In key Filter.recognized -> filters !! key = None) ->
  Service.get_strings db filters
  = ({| Service.status := 200;
        Service.body :=
          Service.ListBody (Service.objectValues db) (Z.of_nat (size db))
                           Filter.noFilters |}, db).
Proof.
  intros Hnone. unfold Service.get_strings.
  rewrite filterData_validate, (validate_unrecognized filters Hnone).
  cbn [fst snd]. change (Filter.applyFilters Filter.noFilters ?d) with d.
  now rewrite objectValues_length.
Qed.

Lemma get_strings_unfiltered_witness :
  Service.status
    (Service.get_strings (host := asciiHost) ∅
       {[ "page"%string := JS.VStr (js "2") ]}).1 = 200.
Proof.
  rewrite (get_strings_unfiltered (host := asciiHost) ∅
             {[ "page"%string := JS.VStr (js "2") ]}).
  - reflexivity.
  - intros key Hkey. cbn in Hkey.
    repeat (destruct Hkey as [<-|Hkey]; [reflexivity|]). destruct Hkey.
Defined.

(** X19.  The validation accounts for every recognized key: each one that
    is present yields either its typed filter or one message, never both
    and never neither, and a key that is absent yields nothing.  So the
    messages and the typed filters together are as many as the recognized
    keys of the query, and there are at most five messages. *)
Theorem validate_accounts_for_every_key {host : Host}
  (filters : gmap string JS.value) :
  let st := Filter.validate filters in
  let present :=
    List.filter (fun key => bool_decide (is_Some (filters !! key)))
                Filter.recognized in
  (List.length st.2
   + (List.length (option_list (Filter.is_palindrome st.1))
      + List.length (option_list (Filter.min_length st.1))
      + List.length (option_list (Filter.max_length st.1))
      + List.length (option_list (Filter.word_count st.1))
      + List.length (option_list (Filter.contains_character st.1)))
   = List.length present)%nat
  /\ (List.length st.2 <= 5)%nat.
Proof.
  cbv zeta.
  assert (Hcount :
    (List.length (Filter.validate filters).2
     + (List.length (option_list (Filter.is_palindrome (Filter.validate filters).1))
        + List.length (option_list (Filter.min_length (Filter.validate filters).1))
        + List.length (option_list (Filter.max_length (Filter.validate filters).1))
        + List.length (option_list (Filter.word_count (Filter.validate filters).1))
        + List.length
            (option_list (Filter.contains_character (Filter.validate filters).1)))
     = List.length
         (List.filter (fun key => bool_decide (is_Some (filters !! key)))
                      Filter.recognized))%nat).
  { rewrite validate_errors, validate_is_palindrome, validate_min_length,
      validate_max_length, validate_word_count, validate_contains_character.
    rewrite !length_app.
    pose proof (check_is_palindrome_account filters) as H1.
    pose proof (check_min_length_account filters) as H2.
    pose proof (check_max_length_account filters) as H3.
    pose proof (check_word_count_account filters) as H4.
    pose proof (check_contains_character_account filters) as H5.
    cbv zeta in H1, H2, H3, H4, H5.
    assert (Hdec : forall o : option JS.value,
              bool_decide (is_Some o)
              = match o with Some _ => true | None => false end).
    { intros [v|]; [apply bool_decide_eq_true_2; eauto|].
      apply bool_decide_eq_false_2. intros [? [=]]. }
    cbn [Filter.recognized List.filter]. rewrite !Hdec.
    destruct (filters !! "is_palindrome"%string);
      destruct (filters !! "min_length"%string);
      destruct (filters !! "max_length"%string);
      destruct (filters !! "word_count"%string);
      destruct (filters !! "contains_character"%string);
      cbn [List.length]; lia. }
  split; [exact Hcount|].
  assert (Hle : (List.length
            (List.filter (fun key => bool_decide (is_Some (filters !! key)))
                         Filter.recognized) <= 5)%nat).
  { apply (filter_shorter _ Filter.recognized). }
  lia.
Qed.

(** ** What the numeric filters read *)

Section MoreNumericFacts.
Context {host : Host}.

Lemma validate_min_length_value filters raw n :
  filters !! "min_length"%string = Some raw ->
  JS.parseInt raw = Some n -> 0 <= n ->
  Filter.min_length (Filter.validate filters).1 = Some n.
Proof.
  intros Hraw Hparse Hn. rewrite validate_min_length.
  now apply (proj1 (check_min_length_result filters raw Hraw)).
Qed.

Lemma validate_max_length_value filters raw n :
  filters !! "max_length"%string = Some raw ->
  JS.parseInt raw = Some n -> 0 <= n ->
  Filter.max_length (Filter.validate filters).1 = Some n.
Proof.
  intros Hraw Hparse Hn. rewrite validate_max_length.
  now apply (proj1 (check_max_length_result filters raw Hraw)).
Qed.

Lemma validate_word_count_value filters raw n :
  filters !! "word_count"%string = Some raw ->
  JS.parseInt raw = Some n -> 1 <= n ->
  Filter.word_count (Filter.validate filters).1 = Some n.
Proof.
  intros Hraw Hparse Hn. rewrite validate_word_count.
  now apply (proj1 (check_word_count_result filters raw Hraw)).
Qed.

Lemma validate_min_length_refused filters raw :
  filters !! "min_length"%string = Some raw -> JS.parseInt raw = None ->
  In Filter.msgMinLength (Filter.validate filters).2.
Proof.
  intros Hraw Hparse. rewrite validate_errors.
  apply in_or_app. right. apply in_or_app. left.
  apply (proj2 (check_min_length_result filters raw Hraw)).
  destruct (Filter.min_length _) as [n|] eqn:Hn; [|reflexivity].
  apply (proj1 (check_min_length_result filters raw Hraw)) in Hn.
  destruct Hn as [Hn _]. congruence.
Qed.

Lemma validate_max_length_refused filters raw :
  filters !! "max_length"%string = Some raw -> JS.parseInt raw = None ->
  In Filter.msgMaxLength (Filter.validate filters).2.
Proof.
  intros Hraw Hparse. rewrite validate_errors.
  apply in_or_app. right. apply in_or_app. right. apply in_or_app. left.
  apply (proj2 (check_max_length_result filters raw Hraw)).
  destruct (Filter.max_length _) as [n|] eqn:Hn; [|reflexivity].
  apply (proj1 (check_max_length_result filters raw Hraw)) in Hn.
  destruct Hn as [Hn _]. congruence.
Qed.

Lemma validate_word_count_refused filters raw :
  filters !! "word_count"%string = Some raw -> JS.parseInt raw = None ->
  In Filter.msgWordCount (Filter.validate filters).2.
Proof.
  intros Hraw Hparse. rewrite validate_errors.
  apply in_or_app. right. apply in_or_app. right. apply in_or_app. right.
  apply in_or_app. left.
  apply (proj2 (check_word_count_result filters raw Hraw)).
  destruct (Filter.word_count _) as [n|] eqn:Hn; [|reflexivity].
  apply (proj1 (check_word_count_result filters raw Hraw)) in Hn.
  destruct Hn as [Hn _]. congruence.
Qed.

End MoreNumericFacts.

(** X20.  A numeric filter reads a prefix of its text: white space before
    the digits is skipped and what follows the decimal digits is ignored
    ([min_length= 12abc] selects 12 and [12x] selects 12), for numbers that
    JavaScript represents exactly.  The one exception is a lone 0 followed
    by x or X, which opens a hexadecimal text and is read by another rule
    (see the next property). *)
Theorem numeric_filter_reads_prefix {host : Host}
  (filters : gmap string JS.value) (ws ds rest : jsstring) :
  forallb JS.isWhiteSpace ws = true ->
  ds <> [] -> forallb JS.isDecDigit ds = true ->
  match rest with
  | c :: _ => JS.isDecDigit c = false /\ (ds = [48] -> c <> 120 /\ c <> 88)
  | [] => True
  end ->
  JS.digitsValue 10 ds < 2 ^ 53 ->
  let raw := JS.VStr (ws ++ ds ++ rest) in
  let n := JS.digitsValue 10 ds in
  JS.parseInt raw = Some n
  /\ (filters !! "min_length"%string = Some raw ->
      Filter.min_length (Filter.validate filters).1 = Some n)
  /\ (filters !! "max_length"%string = Some raw ->
      Filter.max_length (Filter.validate filters).1 = Some n)
  /\ (filters !! "word_count"%string = Some raw -> 1 <= n ->
      Filter.word_count (Filter.validate filters).1 = Some n).
Proof.
  intros Hws Hne Hall Hrest _. cbv zeta.
  assert (Hparse : JS.parseInt (JS.VStr (ws ++ ds ++ rest))
                   = Some (JS.digitsValue 10 ds)).
  { rewrite parseInt_spaces by assumption.
    now apply parseInt_decimal_prefix. }
  assert (Hpos : 0 <= JS.digitsValue 10 ds).
  { apply digitsValue_nonneg; [lia | now apply isDecDigit_hex]. }
  split; [exact Hparse|].
  split; [intros Hraw; now apply (validate_min_length_value filters _ _ Hraw)|].
  split; [intros Hraw; now apply (validate_max_length_value filters _ _ Hraw)|].
  intros Hraw Hn. now apply (validate_word_count_value filters _ _ Hraw).
Qed.

Lemma numeric_filter_reads_prefix_witness :
  Filter.min_length
    (Filter.validate (host := asciiHost)
       {[ "min_length"%string := JS.VStr (js " 12xyz") ]}).1 = Some 12.
Proof.
  refine (proj1 (proj2 (numeric_filter_reads_prefix (host := asciiHost)
    {[ "min_length"%string := JS.VStr (js " 12xyz") ]}
    (js " ") (js "12") (js "xyz") _ _ _ _ _)) _);
    first [ reflexivity | discriminate | idtac ].
  split; [reflexivity | discriminate].
Defined.

(** X21.  A numeric filter written with the prefix 0x or 0X is read in
    radix 16 ([min_length=0x1f] selects 31). *)
Theorem numeric_filter_reads_hexadecimal {host : Host}
  (filters : gmap string JS.value) (x : Z) (hs rest : jsstring) :
  x = 120 \/ x = 88 ->
  hs <> [] -> forallb JS.isHexDigit hs = true ->
  match rest with c :: _ => JS.isHexDigit c = false | [] => True end ->
  JS.digitsValue 16 hs < 2 ^ 53 ->
  let raw := JS.VStr (48 :: x :: hs ++ rest) in
  let n := JS.digitsValue 16 hs in
  JS.parseInt raw = Some n
  /\ (filters !! "min_length"%string = Some raw ->
      Filter.min_length (Filter.validate filters).1 = Some n)
  /\ (filters !! "max_length"%string = Some raw ->
      Filter.max_length (Filter.validate filters).1 = Some n)
  /\ (filters !! "word_count"%string = Some raw -> 1 <= n ->
      Filter.word_count (Filter.validate filters).1 = Some n).
Proof.
  intros Hx Hne Hall Hrest _. cbv zeta.
  pose proof (parseInt_hexadecimal_prefix x hs rest Hx Hne Hall Hrest)
    as Hparse.
  assert (Hpos : 0 <= JS.digitsValue 16 hs)
    by (apply digitsValue_nonneg; [lia | assumption]).
  split; [exact Hparse|].
  split; [intros Hraw; now apply (validate_min_length_value filters _ _ Hraw)|].
  split; [intros Hraw; now apply (validate_max_length_value filters _ _ Hraw)|].
  intros Hraw Hn. now apply (validate_word_count_value filters _ _ Hraw).
Qed.

Lemma numeric_filter_reads_hexadecimal_witness :
  Filter.min_length
    (Filter.validate (host := asciiHost)
       {[ "min_length"%string := JS.VStr (js "0x1f") ]}).1 = Some 31.
Proof.
  refine (proj1 (proj2 (numeric_filter_reads_hexadecimal (host := asciiHost)
    {[ "min_length"%string := JS.VStr (js "0x1f") ]}
    120 (js "1f") [] _ _ _ _ _)) _);
    first [ reflexivity | discriminate | (cbn; lia) | exact I
          | (left; reflexivity) ].
Defined.

(** X22.  A numeric filter whose text, after leading white space, does not
    start with a digit or a sign is refused with the message of its key:
    an empty or blank value and a word are errors, and the request is
    answered with the error object. *)
Theorem numeric_filter_needs_a_digit {host : Host}
  (data : list AnalysisRecord) (filters : gmap string JS.value)
  (s : jsstring) :
  match JS.trimStart s with
  | c :: _ => JS.isDecDigit c = false /\ c <> 45 /\ c <> 43
  | [] => True
  end ->
  let raw := JS.VStr s in
  let st := Filter.validate filters in
  let invalid :=
    Filter.filterData data filters
    = Filter.Invalid 400 "Invalid filter values in interpreted query" st.2 in
  JS.parseInt raw = None
  /\ (filters !! "min_length"%string = Some raw ->
      In Filter.msgMinLength st.2 /\ invalid)
  /\ (filters !! "max_length"%string = Some raw ->
      In Filter.msgMaxLength st.2 /\ invalid)
  /\ (filters !! "word_count"%string = Some raw ->
      In Filter.msgWordCount st.2 /\ invalid).
Proof.
  intros Hhead. cbv zeta. pose proof (parseInt_no_digit s Hhead) as Hparse.
  split; [exact Hparse|].
  split; [|split]; intros Hraw.
  - pose proof (validate_min_length_refused filters _ Hraw Hparse) as Hin.
    split; [exact Hin | exact (validate_error_invalid data filters _ Hin)].
  - pose proof (validate_max_length_refused filters _ Hraw Hparse) as Hin.
    split; [exact Hin | exact (validate_error_invalid data filters _ Hin)].
  - pose proof (validate_word_count_refused filters _ Hraw Hparse) as Hin.
    split; [exact Hin | exact (validate_error_invalid data filters _ Hin)].
Qed.

Lemma numeric_filter_needs_a_digit_witness :
  Filter.filterData (host := asciiHost) []
    {[ "word_count"%string := JS.VStr (js "  ") ]}
  = Filter.Invalid 400 "Invalid filter values in interpreted query"
                   [Filter.msgWordCount].
Proof.
  refine (proj2 (proj2 (proj2 (proj2
    (numeric_filter_needs_a_digit (host := asciiHost) []
       {[ "word_count"%string := JS.VStr (js "  ") ]} (js "  ") _))) _)).
  - exact I.
  - reflexivity.
Defined.

(** ** The boolean filter *)

Section BooleanFilter.
Context {host : Host}.

(** Any capitalisation of a lower-case ASCII word lower-cases to it. *)
Lemma toLowerCase_capitals (s t : jsstring) :
  Forall (fun d => 97 <= d <= 122) t ->
  Forall2 (fun c d => c = d \/ c = d - 32) s t ->
  JS.toLowerCase s = t.
Proof.
  intros Ht Hst. induction Hst as [|c d s t Hcd Hst IH]; [reflexivity|].
  apply Forall_cons in Ht as [Hd Ht].
  change (JS.toLowerCase (c :: s)) with (JS.lowerUnit c ++ JS.toLowerCase s).
  rewrite (IH Ht). unfold JS.lowerUnit.
  destruct Hcd as [->| ->].
  - replace ((65 <=? d) && (d <=? 90)) with false by lia.
    replace (d <? 128) with true by lia. reflexivity.
  - replace ((65 <=? d - 32) && (d - 32 <=? 90)) with true by lia.
    cbn [app]. f_equal. lia.
Qed.

(** The text of a number starts with a minus sign or a digit, also after
    lower-casing. *)
Lemma toLowerCase_number n :
  exists c rest, JS.toLowerCase (JS.numberToString n) = c :: rest
                 /\ 45 <= c <= 57.
Proof.
  assert (Hhead : exists c rest, JS.numberToString n = c :: rest
                                 /\ 45 <= c <= 57).
  { unfold JS.numberToString. destruct (Z.ltb_spec n 0) as [Hneg|Hpos].
    - exists 45, (JS.decDigits (- n)). split; [reflexivity | lia].
    - destruct (decDigits_spec n Hpos) as (Hall & Hne & _).
      destruct (JS.decDigits n) as [|c rest]; [contradiction|].
      exists c, rest. split; [reflexivity|].
      cbn [forallb] in Hall. apply andb_true_iff in Hall as [Hc _].
      unfold JS.isDecDigit in Hc. lia. }
  destruct Hhead as (c & rest & -> & Hc).
  exists c, (JS.toLowerCase rest). split; [|exact Hc].
  change (JS.toLowerCase (c :: rest))
    with (JS.lowerUnit c ++ JS.toLowerCase rest).
  unfold JS.lowerUnit.
  replace ((65 <=? c) && (c <=? 90)) with false by lia.
  replace (c <? 128) with true by lia. reflexivity.
Qed.

Lemma check_is_palindrome_result filters raw :
  filters !! "is_palindrome"%string = Some raw ->
  let st := Filter.check_is_palindrome filters (Filter.noFilters, []) in
  let val := JS.toLowerCase (JS.ToString raw) in
  Filter.is_palindrome st.1
  = (if bool_decide (val = js "true") || JS.strictEqBool raw true
     then Some true
     else if bool_decide (val = js "false") || JS.strictEqBool raw false
     then Some false else None)
  /\ (Filter.is_palindrome st.1 = None -> st.2 = [Filter.msgIsPalindrome]).
Proof.
  intros Hraw. cbv zeta. unfold Filter.check_is_palindrome.
  rewrite Hraw. cbv zeta.
  destruct (_ || _); [split; [reflexivity | discriminate]|].
  destruct (_ || _); [split; [reflexivity | discriminate]|].
  split; reflexivity.
Qed.

End BooleanFilter.

(** X23.  What [is_palindrome] accepts: a boolean is taken as it is, the
    words true and false are taken in any capitalisation, and a number or
    null is refused.  Whenever the key is present and yields no typed
    filter, its message is among the errors and the request is answered
    with the error object. *)
Theorem is_palindrome_coercion {host : Host}
  (data : list AnalysisRecord) (filters : gmap string JS.value)
  (raw : JS.value) :
  filters !! "is_palindrome"%string = Some raw ->
  let st := Filter.validate filters in
  let typed := Filter.is_palindrome st.1 in
  let spelling (s word : jsstring) :=
    Forall2 (fun c d => c = d \/ c = d - 32) s word in
  (forall b, raw = JS.VBool b -> typed = Some b)
  /\ (forall s, raw = JS.VStr s -> spelling s (js "true") ->
      typed = Some true)
  /\ (forall s, raw = JS.VStr s -> spelling s (js "false") ->
      typed = Some false)
  /\ (forall n, raw = JS.VNum n -> typed = None)
  /\ (raw = JS.VNull -> typed = None)
  /\ (typed = None ->
      In Filter.msgIsPalindrome st.2
      /\ Filter.filterData data filters
         = Filter.Invalid 400 "Invalid filter values in interpreted query"
                          st.2).
Proof.
  intros Hraw. cbv zeta. rewrite validate_is_palindrome.
  destruct (check_is_palindrome_result filters raw Hraw) as [Htyped Hnone].
  cbv zeta in Htyped, Hnone.
  assert (Hword : forall word, Forall (fun d => 97 <= d <= 122) (js word) ->
            forall s, Forall2 (fun c d => c = d \/ c = d - 32) s (js word) ->
            JS.toLowerCase s = js word).
  { intros word Hw s Hs. now apply toLowerCase_capitals. }
  assert (Htrue : Forall (fun d => 97 <= d <= 122) (js "true"))
    by (repeat (apply Forall_cons_2; [cbn; lia|]); apply Forall_nil_2).
  assert (Hfalse : Forall (fun d => 97 <= d <= 122) (js "false"))
    by (repeat (apply Forall_cons_2; [cbn; lia|]); apply Forall_nil_2).
  split; [|split; [|split; [|split; [|split]]]].
  - intros b ->. rewrite Htyped. cbn [JS.ToString JS.strictEqBool].
    destruct b.
    + now rewrite orb_true_r.
    + rewrite (Hword "false"%string Hfalse (js "false"))
        by (repeat constructor).
      rewrite bool_decide_eq_false_2 by discriminate.
      now rewrite bool_decide_eq_true_2 by reflexivity.
  - intros s -> Hs. rewrite Htyped. cbn [JS.ToString].
    rewrite (Hword "true"%string Htrue s Hs).
    now rewrite bool_decide_eq_true_2 by reflexivity.
  - intros s -> Hs. rewrite Htyped. cbn [JS.ToString JS.strictEqBool].
    rewrite (Hword "false"%string Hfalse s Hs).
    rewrite bool_decide_eq_false_2 by discriminate.
    now rewrite bool_decide_eq_true_2 by reflexivity.
  - intros n ->. rewrite Htyped. cbn [JS.ToString JS.strictEqBool].
    destruct (toLowerCase_number n) as (c & rest & -> & Hc).
    rewrite !bool_decide_eq_false_2; [reflexivity| |];
      intros [= -> _]; lia.
  - intros ->. rewrite Htyped. cbn [JS.ToString JS.strictEqBool].
    rewrite (Hword "null"%string) with (s := js "null");
      [|repeat (apply Forall_cons_2; [cbn; lia|]); apply Forall_nil_2
       |repeat constructor].
    now rewrite !bool_decide_eq_false_2 by discriminate.
  - intros Hn. apply Hnone in Hn.
    assert (Hin : In Filter.msgIsPalindrome (Filter.validate filters).2).
    { rewrite validate_errors, Hn. now left. }
    split; [exact Hin | exact (validate_error_invalid data filters _ Hin)].
Qed.

Lemma is_palindrome_coercion_witness :
  Filter.is_palindrome
    (Filter.validate (host := asciiHost)
       {[ "is_palindrome"%string := JS.VStr (js "True") ]}).1 = Some true.
Proof.
  refine (proj1 (proj2 (is_palindrome_coercion (host := asciiHost) []
    {[ "is_palindrome"%string := JS.VStr (js "True") ]}
    (JS.VStr (js "True")) _)) (js "True") eq_refl _).
  - reflexivity.
  - repeat (apply List.Forall2_cons;
            [first [left; reflexivity | right; reflexivity]|]).
    apply List.Forall2_nil.
Defined.

(** ** The natural-language handler *)

Section NaturalLanguage.
Context {host : Host}.

Lemma validate_single_word_palindrome :
  Filter.validate (<[ "is_palindrome"%string := JS.VBool true ]>
                     {[ "word_count"%string := JS.VNum 1 ]})
  = ({| Filter.is_palindrome := Some true; Filter.min_length := None;
        Filter.max_length := None; Filter.word_count := Some 1;
        Filter.contains_character := None |}, []).
Proof. vm_compute. reflexivity. Qed.

Lemma validate_two_words :
  Filter.validate {[ "word_count"%string := JS.VNum 2 ]}
  = ({| Filter.is_palindrome := None; Filter.min_length := None;
        Filter.max_length := None; Filter.word_count := Some 2;
        Filter.contains_character := None |}, []).
Proof. vm_compute. reflexivity. Qed.

Lemma filter_by_natural_language_run db model c q :
  Adapter.run model (Service.filter_by_natural_language db (Some (c :: q)))
  = match Adapter.run model (Adapter.interpret (c :: q)) with
    | inl Adapter.Unparsable =>
        ({| Service.status := 400;
            Service.body := Service.ErrorMessage
              ("Unable to parse natural language query: "
               +:+ "LLM returned unparsable content.") |}, db)
    | inl Adapter.Empty =>
        ({| Service.status := 400;
            Service.body := Service.ErrorMessage
              ("Unable to parse natural language query: "
               +:+ "LLM returned no content.") |}, db)
    | inl Adapter.ApiError =>
        ({| Service.status := 500;
            Service.body := Service.ErrorMessage
              ("Internal Server Error: Failed to connect to or "
               +:+ "process Gemini API response.") |}, db)
    | inr parsedFilters =>
        if (Z.of_nat (size parsedFilters) =? 0)
           && JS.includes (JS.toLowerCase (c :: q)) (js "and")
           && JS.includes (JS.toLowerCase (c :: q)) (js "word")
        then
          ({| Service.status := 422;
              Service.body := Service.ConflictingBody
                ("Unprocessable Entity: Query parsed but resulted in "
                 +:+ "conflicting filters "
                 +:+ "(e.g., conflicting word counts).")
                (c :: q) parsedFilters |}, db)
        else
          match Filter.filterData (Service.objectValues db) parsedFilters with
          | Filter.Invalid _ _ details =>
              ({| Service.status := 400;
                  Service.body := Service.ErrorDetails
                    "Bad Request: Invalid filter values in interpreted query"
                    details |}, db)
          | Filter.Filtered data parsedFilters =>
              ({| Service.status := 200;
                  Service.body := Service.InterpretedBody data
                                    (Z.of_nat (List.length data))
                                    (c :: q) parsedFilters |}, db)
          end
    end.
Proof.
  unfold Service.filter_by_natural_language. rewrite run_bind. reflexivity.
Qed.

End NaturalLanguage.

(** X24.  The natural-language handler in debug mode, end to end, for a
    request whose [query] parameter is absent or is one text (a repeated or
    bracketed parameter, which reaches the handler as an array or an
    object, is outside this statement).  An absent or empty text is
    answered 400.  A text that contains both "single word" and
    "palindromic" is answered 200 with the stored palindromes of one word;
    otherwise one that contains "two words" is answered 200 with the stored
    strings of two words; otherwise, when the lower-cased text contains
    both "and" and "word", the answer is 422; and any other text is
    answered 200 with every stored record.  For a text, the handler thus
    answers 200, 400 or 422, and never reports invalid filter values. *)
Theorem filter_by_natural_language_debug_mode {host : Host}
  (db : gmap jsstring AnalysisRecord) (model : jsstring -> Adapter.Reply)
  (c : Z) (q : jsstring) :
  let userQuery := c :: q in
  let both := JS.includes userQuery (js "single word")
              && JS.includes userQuery (js "palindromic") in
  let two := JS.includes userQuery (js "two words") in
  let conflict := JS.includes (JS.toLowerCase userQuery) (js "and")
                  && JS.includes (JS.toLowerCase userQuery) (js "word") in
  let answer typed :=
    let data := Filter.applyFilters typed (Service.objectValues db) in
    ({| Service.status := 200;
        Service.body :=
          Service.InterpretedBody data (Z.of_nat (List.length data))
                                  userQuery typed |}, db) in
  Adapter.run model (Service.filter_by_natural_language db (Some userQuery))
  = (if both then
       answer {| Filter.is_palindrome := Some true; Filter.min_length := None;
                 Filter.max_length := None; Filter.word_count := Some 1;
                 Filter.contains_character := None |}
     else if two then
       answer {| Filter.is_palindrome := None; Filter.min_length := None;
                 Filter.max_length := None; Filter.word_count := Some 2;
                 Filter.contains_character := None |}
     else if conflict then
       ({| Service.status := 422;
           Service.body := Service.ConflictingBody
             ("Unprocessable Entity: Query parsed but resulted in "
              +:+ "conflicting filters (e.g., conflicting word counts).")
             userQuery ∅ |}, db)
     else
       ({| Service.status := 200;
           Service.body :=
             Service.InterpretedBody (Service.objectValues db)
               (Z.of_nat (size db)) userQuery Filter.noFilters |}, db))
  /\ Service.status
       (Adapter.run model
          (Service.filter_by_natural_language db None)).1 = 400
  /\ Service.status
       (Adapter.run model
          (Service.filter_by_natural_language db (Some []))).1 = 400.
Proof.
  cbv zeta. split; [|split; reflexivity].
  rewrite filter_by_natural_language_run.
  unfold Adapter.interpret. change Adapter.LLM_DEBUG_MODE with true.
  cbv iota.
  destruct (JS.includes (c :: q) (js "single word")
            && JS.includes (c :: q) (js "palindromic")).
  { cbn [Adapter.run].
    change (Z.of_nat (size (<[ "is_palindrome"%string := JS.VBool true ]>
              ({[ "word_count"%string := JS.VNum 1 ]}
                 : gmap string JS.value))) =? 0) with false.
    cbn [andb]. rewrite filterData_validate, validate_single_word_palindrome.
    reflexivity. }
  destruct (JS.includes (c :: q) (js "two words")).
  { cbn [Adapter.run].
    change (Z.of_nat (size ({[ "word_count"%string := JS.VNum 2 ]}
                              : gmap string JS.value)) =? 0) with false.
    cbn [andb]. rewrite filterData_validate, validate_two_words.
    reflexivity. }
  cbn [Adapter.run].
  change (Z.of_nat (size (∅ : gmap string JS.value)) =? 0) with true.
  cbn [andb].
  destruct (JS.includes (JS.toLowerCase (c :: q)) (js "and")
            && JS.includes (JS.toLowerCase (c :: q)) (js "word"));
    [reflexivity|].
  rewrite filterData_validate, validate_unrecognized
    by (intros key _; apply lookup_empty).
  cbn [fst snd]. change (Filter.applyFilters Filter.noFilters ?d) with d.
  now rewrite objectValues_length.
Qed.

(** X25.  The two listing handlers share [filterData]: whatever filters
    the interpretation of a query yields, when the conflict heuristic does
    not fire the natural-language handler answers with the records and the
    count that GET /strings gives for those filters, and with status 400
    and the same details when GET /strings refuses them. *)
Theorem filter_by_natural_language_agrees_with_get_strings {host : Host}
  (db : gmap jsstring AnalysisRecord) (model : jsstring -> Adapter.Reply)
  (c : Z) (q : jsstring) (parsedFilters : gmap string JS.value) :
  Adapter.run model (Adapter.interpret (c :: q)) = inr parsedFilters ->
  (Z.of_nat (size parsedFilters) =? 0)
  && JS.includes (JS.toLowerCase (c :: q)) (js "and")
  && JS.includes (JS.toLowerCase (c :: q)) (js "word") = false ->
  let listed := (Service.get_strings db parsedFilters).1 in
  let interpreted :=
    (Adapter.run model
       (Service.filter_by_natural_language db (Some (c :: q)))).1 in
  Service.status interpreted = Service.status listed
  /\ (forall data count typed,
        Service.body listed = Service.ListBody data count typed ->
        Service.body interpreted
        = Service.InterpretedBody data count (c :: q) typed)
  /\ (forall message details,
        Service.body listed = Service.ErrorDetails message details ->
        Service.body interpreted
        = Service.ErrorDetails
            "Bad Request: Invalid filter values in interpreted query"
            details).
Proof.
  intros Hrun Hquiet. cbv zeta.
  rewrite filter_by_natural_language_run, Hrun, Hquiet.
  unfold Service.get_strings. rewrite filterData_validate.
  destruct (Filter.validate parsedFilters).2 as [|e errors];
    cbn [fst Service.status Service.body].
  - split; [reflexivity|]. split; [|discriminate].
    now intros data count typed [= <- <- <-].
  - split; [reflexivity|]. split; [discriminate|].
    now intros message details [= _ <-].
Qed.

Lemma filter_by_natural_language_agrees_with_get_strings_witness :
  Service.status
    (Adapter.run (fun _ => Adapter.NoContent)
       (Service.filter_by_natural_language (host := asciiHost) ∅
          (Some (js "strings of two words")))).1
  = Service.status
      (Service.get_strings (host := asciiHost) ∅
         {[ "word_count"%string := JS.VNum 2 ]}).1.
Proof.
  refine (proj1 (filter_by_natural_language_agrees_with_get_strings
    (host := asciiHost) ∅ (fun _ => Adapter.NoContent)
    115 (js "trings of two words")
    {[ "word_count"%string := JS.VNum 2 ]} _ _)); reflexivity.
Defined.

(** ** The answers of GET /strings *)

Section ListingFacts.
Context {host : Host}.

(** The messages of a validation are among the six of [filterData], at
    most one for each block. *)
Lemma validate_messages filters :
  Forall (fun e => In e [Filter.msgIsPalindrome; Filter.msgMinLength;
                         Filter.msgMaxLength; Filter.msgWordCount;
                         Filter.msgNotSimplified; Filter.msgNotSingle])
         (Filter.validate filters).2
  /\ (List.length (Filter.validate filters).2 <= 5)%nat.
Proof.
  rewrite validate_errors.
  pose proof (check_is_palindrome_outcome filters) as H1.
  pose proof (check_min_length_outcome filters) as H2.
  pose proof (check_max_length_outcome filters) as H3.
  pose proof (check_word_count_outcome filters) as H4.
  pose proof (check_contains_character_outcome filters) as H5.
  cbv zeta in H1, H2, H3, H4, H5.
  assert (Hblock : forall {A} (typed : option A) (errors : list string)
                          (outcome : option A * list string),
    (typed, errors) = outcome ->
    (outcome.2 = [] \/ exists e, outcome.2 = [e]
       /\ In e [Filter.msgIsPalindrome; Filter.msgMinLength;
                Filter.msgMaxLength; Filter.msgWordCount;
                Filter.msgNotSimplified; Filter.msgNotSingle]) ->
    errors = [] \/ exists e, errors = [e]
       /\ In e [Filter.msgIsPalindrome; Filter.msgMinLength;
                Filter.msgMaxLength; Filter.msgWordCount;
                Filter.msgNotSimplified; Filter.msgNotSingle]).
  { intros A typed errors outcome <- H. exact H. }
  apply Hblock in H1, H2, H3, H4, H5;
    try (repeat match goal with
                | |- context [match ?x with _ => _ end] => destruct x
                end;
         cbn [snd];
         first [ left; reflexivity
               | right; eexists; split; [reflexivity|]; cbn; tauto ]).
  destruct H1 as [->|(e1 & -> & Hin1)], H2 as [->|(e2 & -> & Hin2)],
    H3 as [->|(e3 & -> & Hin3)], H4 as [->|(e4 & -> & Hin4)],
    H5 as [->|(e5 & -> & Hin5)];
    (split; [cbn [app]; repeat (apply List.Forall_cons; [assumption|]);
             apply List.Forall_nil
            |cbn [app List.length]; lia]).
Qed.

End ListingFacts.

(** X26.  GET /strings answers 200 or 400 and never changes the store.  It
    answers 400 exactly when the validation gives a message, and then with
    all the messages: at least one, at most five, each one of the six
    messages of [filterData].  It answers 200 with records of the store in
    the order of the store, their number as the count, which is at most
    the size of the store. *)
Theorem get_strings_outcomes {host : Host}
  (db : gmap jsstring AnalysisRecord) (filters : gmap string JS.value) :
  let response := (Service.get_strings db filters).1 in
  In (Service.status response) [200; 400]
  /\ (Service.get_strings db filters).2 = db
  /\ (Service.status response = 400 <-> (Filter.validate filters).2 <> [])
  /\ (forall message details,
        Service.body response = Service.ErrorDetails message details ->
        Service.status response = 400
        /\ details = (Filter.validate filters).2
        /\ (1 <= List.length details <= 5)%nat
        /\ Forall (fun e =>
                     In e [Filter.msgIsPalindrome; Filter.msgMinLength;
                           Filter.msgMaxLength; Filter.msgWordCount;
                           Filter.msgNotSimplified; Filter.msgNotSingle])
                  details)
  /\ (forall data count typed,
        Service.body response = Service.ListBody data count typed ->
        Service.status response = 200
        /\ typed = (Filter.validate filters).1
        /\ data = Filter.applyFilters typed (Service.objectValues db)
        /\ sublist data (Service.objectValues db)
        /\ count = Z.of_nat (List.length data)
        /\ count <= Z.of_nat (size db)).
Proof.
  cbv zeta. split; [|split; [apply get_strings_store|]].
  - unfold Service.get_strings. rewrite filterData_validate.
    destruct (Filter.validate filters).2; cbn; tauto.
  - destruct (validate_messages filters) as [Hmsgs Hlen].
    unfold Service.get_strings. rewrite filterData_validate.
    destruct (Filter.validate filters).2 as [|e errors] eqn:Herr;
      cbn [fst Service.status Service.body].
    + split; [split; [discriminate | contradiction]|].
      split; [discriminate|].
      intros data count typed [= <- <- <-].
      split; [reflexivity|]. split; [reflexivity|]. split; [reflexivity|].
      assert (Hsub : sublist
                (Filter.applyFilters (Filter.validate filters).1
                                     (Service.objectValues db))
                (Service.objectValues db))
        by (rewrite applyFilters_filter; apply filter_sublist).
      split; [exact Hsub|]. split; [reflexivity|].
      apply sublist_length in Hsub. rewrite objectValues_length in Hsub.
      lia.
    + split; [split; [discriminate | reflexivity]|].
      split; [|discriminate].
      intros message details [= _ <-].
      split; [reflexivity|]. split; [reflexivity|].
      split; [cbn [List.length] in *; lia | exact Hmsgs].
Qed.

(** ** Strings that the digest does not tell apart *)




(** ** What the filters select among the stored records *)

Lemma hasKey_character {host : Host} (v : jsstring) (d : Z) :
  Filter.hasKey
    (Analyzer.character_frequency_map (Analyzer.analyzeStringBody v)) [d] = true
  <-> JS.isLowerAlnum d = true /\ In d (JS.toLowerCase v).
Proof.
  cbn [Analyzer.analyzeStringBody Analyzer.character_frequency_map].
  unfold Filter.hasKey. rewrite countCharacters_lookup.
  unfold Spec.frequency.
  assert (Hin : In d (Analyzer.normalize v)
                <-> JS.isLowerAlnum d = true /\ In d (JS.toLowerCase v)).
  { unfold Analyzer.normalize, JS.stripNonAlnum. rewrite filter_In. tauto. }
  rewrite <- Hin, <- list_elem_of_In.
  destruct (Z.eqb_spec (Spec.occurrences d (Analyzer.normalize v)) 0)
    as [Hz|Hnz].
  - apply occurrences_zero in Hz. split; [discriminate | contradiction].
  - split; [intros _|reflexivity].
    destruct (decide (d ∈ Analyzer.normalize v)) as [|Hnot]; [assumption|].
    apply occurrences_zero in Hnot. contradiction.
Qed.

(** The stored records are records that [analyzeString] returned for
    their value. *)
Lemma objectValues_analysed {host : Host} db :
  Service.reachable db ->
  Forall (fun r => Scope.analyzeString (value r)
                   = Scope.Normal (properties r))
         (Service.objectValues db).
Proof.
  intros Hreach. destruct Scope.providesCreateHash eqn:Hcall.
  - pose proof (objectValues_invariant db (reachable_invariant db Hreach))
      as Hvalues.
    induction Hvalues as [|r data Hr Hdata IH]; constructor; [|exact IH].
    rewrite Hr. now apply analyzeString_provided.
  - rewrite (reachable_without_createHash db Hcall Hreach).
    unfold Service.objectValues. rewrite map_to_list_empty. constructor.
Qed.

(** X28.  Among records that [analyzeString] returned for their value, as
    are the records of every store the service reaches, the filter
    [contains_character] with the character [d] selects exactly the records
    whose lower-cased value contains [d], and none at all unless [d] is a
    small ASCII letter or a digit. *)
Theorem contains_character_selects {host : Host} (d : Z) :
  let typed :=
    {| Filter.is_palindrome := None; Filter.min_length := None;
       Filter.max_length := None; Filter.word_count := None;
       Filter.contains_character := Some [d] |} in
  let analysed (r : AnalysisRecord) :=
    Scope.analyzeString (value r) = Scope.Normal (properties r) in
  (forall data, Forall analysed data ->
     forall r,
       In r (Filter.applyFilters typed data)
       <-> In r data /\ JS.isLowerAlnum d = true
           /\ In d (JS.toLowerCase (value r)))
  /\ (forall db, Service.reachable db ->
      Forall analysed (Service.objectValues db))
  /\ (forall db, Service.reachable db ->
      forall r,
        In r (Filter.applyFilters typed (Service.objectValues db))
        <-> In r (Service.objectValues db) /\ JS.isLowerAlnum d = true
            /\ In d (JS.toLowerCase (value r))).
Proof.
  cbv zeta.
  assert (Hselect : forall data,
    Forall (fun r => Scope.analyzeString (value r)
                     = Scope.Normal (properties r)) data ->
    forall r,
      In r (Filter.applyFilters
              {| Filter.is_palindrome := None; Filter.min_length := None;
                 Filter.max_length := None; Filter.word_count := None;
                 Filter.contains_character := Some [d] |} data)
      <-> In r data /\ JS.isLowerAlnum d = true
          /\ In d (JS.toLowerCase (value r))).
  { intros data Hdata r. unfold Filter.applyFilters.
    cbn [Filter.is_palindrome Filter.min_length Filter.max_length
         Filter.word_count Filter.contains_character].
    rewrite filter_In.
    split; intros [Hin Hr]; (split; [exact Hin|]);
      pose proof (proj1 (List.Forall_forall _ _) Hdata r Hin) as Hprops;
      cbv beta in Hprops;
      apply analyzeString_returns in Hprops as [_ Hprops];
      rewrite Hprops in *; now apply hasKey_character. }
  split; [exact Hselect|]. split; [apply objectValues_analysed|].
  intros db Hreach. apply Hselect. now apply objectValues_analysed.
Qed.

Lemma contains_character_selects_witness :
  let db := (Service.handle (host := cryptoHost) ∅
               (Service.PostString (js "t0")
                  (Some (JS.VStr (js "Banana"))))).2 in
  exists r,
    value r = js "Banana"
    /\ In r (Filter.applyFilters
               {| Filter.is_palindrome := None; Filter.min_length := None;
                  Filter.max_length := None; Filter.word_count := None;
                  Filter.contains_character := Some (js "b") |}
               (Service.objectValues db)).
Proof.
  cbv zeta.
  exists {| id := Sha256.sha256Hex (js "Banana"); value := js "Banana";
            properties :=
              Analyzer.analyzeStringBody (host := cryptoHost) (js "Banana");
            created_at := js "t0" |}.
  split; [reflexivity|].
  refine (proj2 (proj2 (proj2
    (contains_character_selects (host := cryptoHost) 98)) _ _ _) _).
  - apply Service.reachable_handle, Service.reachable_start.
  - split; [|split; [reflexivity | vm_compute; left; reflexivity]].
    apply (objectValues_lookup _ (Sha256.sha256Hex (js "Banana"))).
    vm_compute. reflexivity.
Defined.

Lemma filter_split {A} (f g : A -> bool) (l : list A) :
  (List.length (List.filter (fun x => f x && g x) l)
   + List.length (List.filter (fun x => negb (f x) && g x) l)
   = List.length (List.filter g l))%nat.
Proof.
  induction l as [|x l IH]; [reflexivity|].
  cbn [List.filter]. destruct (f x), (g x); cbn [negb andb List.length]; lia.
Qed.

(** X29.  Filtering on [is_palindrome] splits a result in two: with the
    other filters held fixed, the records selected with [true] and those
    selected with [false] are together as many as the records selected
    without that filter, and no record is selected by both. *)
Theorem is_palindrome_splits
  (data : list AnalysisRecord) (typed : Filter.TypedFilters) :
  let withFlag o :=
    {| Filter.is_palindrome := o;
       Filter.min_length := Filter.min_length typed;
       Filter.max_length := Filter.max_length typed;
       Filter.word_count := Filter.word_count typed;
       Filter.contains_character := Filter.contains_character typed |} in
  (List.length (Filter.applyFilters (withFlag (Some true)) data)
   + List.length (Filter.applyFilters (withFlag (Some false)) data)
   = List.length (Filter.applyFilters (withFlag None) data))%nat
  /\ Filter.applyFilters (withFlag (Some true))
       (Filter.applyFilters (withFlag (Some false)) data) = [].
Proof.
  cbv zeta. rewrite !applyFilters_filter, filter_filter.
  set (flag := fun r : AnalysisRecord =>
                 Analyzer.is_palindrome (properties r)).
  set (others := Spec.satisfiesb
    {| Filter.is_palindrome := None;
       Filter.min_length := Filter.min_length typed;
       Filter.max_length := Filter.max_length typed;
       Filter.word_count := Filter.word_count typed;
       Filter.contains_character := Filter.contains_character typed |}).
  assert (Htrue : forall r,
    Spec.satisfiesb
      {| Filter.is_palindrome := Some true;
         Filter.min_length := Filter.min_length typed;
         Filter.max_length := Filter.max_length typed;
         Filter.word_count := Filter.word_count typed;
         Filter.contains_character := Filter.contains_character typed |} r
    = flag r && others r).
  { intros r. unfold others, flag, Spec.satisfiesb.
    cbn [Filter.is_palindrome Spec.whenSet].
    destruct (Analyzer.is_palindrome (properties r)); reflexivity. }
  assert (Hfalse : forall r,
    Spec.satisfiesb
      {| Filter.is_palindrome := Some false;
         Filter.min_length := Filter.min_length typed;
         Filter.max_length := Filter.max_length typed;
         Filter.word_count := Filter.word_count typed;
         Filter.contains_character := Filter.contains_character typed |} r
    = negb (flag r) && others r).
  { intros r. unfold others, flag, Spec.satisfiesb.
    cbn [Filter.is_palindrome Spec.whenSet].
    destruct (Analyzer.is_palindrome (properties r)); reflexivity. }
  split.
  - rewrite (filter_ext _ _ Htrue), (filter_ext _ _ Hfalse).
    apply filter_split.
  - transitivity (List.filter (fun _ : AnalysisRecord => false) data).
    + apply filter_ext. intros r. rewrite Htrue, Hfalse.
      destruct (flag r); [reflexivity | apply andb_false_r].
    + induction data as [|r data IH]; [reflexivity | exact IH].
Qed.
